(** * Verification of the ChatGPT voice assistant

    A shallow embedding of the conversation session ([chatgpt_api.py]),
    the audio capture ([stt.py]), the speech output adapter ([tts.py])
    and the run loop ([assistant.py]), followed by the properties that
    the specification states about them.

    Conventions of the embedding:
    - a Python [str] is a [string]; one [ascii] stands for one character
      (code points below 256), so [String.length] is Python's [len];
    - a Python [int] is a [Z]; the floats that the code only compares or
      scales by a power of two (volume, temperature, normalised samples)
      are exact rationals [Q];
    - a method of an object with attributes [S] is a computation
      [M S A]: it reads and updates the attributes, appends to the trace
      of interactions with the outside world (log records, requests to
      the remote service, commands to the speech engine, device reads)
      and either returns a value or raises an exception;
    - the outside world is deterministic but arbitrary: every external
      call asks an oracle that sees the whole trace so far;
    - [exn] stands for instances of Python's [Exception]; an interrupt
      ([KeyboardInterrupt], which [except Exception] does not catch) is
      a separate event of the run loop. *)

From Stdlib Require Import ZArith QArith Qround List String Ascii Bool Arith Lia.
Import ListNotations.

Local Open Scope string_scope.
Local Open Scope list_scope.
Local Open Scope Z_scope.

(* ================================================================== *)
(** * Python primitives *)
(* ================================================================== *)

Module Py.

(** [str.isspace] on one character, for code points below 256:
    TAB..CR, FS..US, SPACE, NEL and NBSP. *)
Definition isspace (c : ascii) : bool :=
  let n := nat_of_ascii c in
  (((9 <=? n) && (n <=? 13)) || ((28 <=? n) && (n <=? 31)) ||
   (n =? 32) || (n =? 133) || (n =? 160))%nat.

Fixpoint lstrip (s : string) : string :=
  match s with
  | EmptyString => EmptyString
  | String c t => if isspace c then lstrip t else s
  end.

Fixpoint rstrip (s : string) : string :=
  match s with
  | EmptyString => EmptyString
  | String c t =>
      match rstrip t with
      | EmptyString => if isspace c then EmptyString else String c EmptyString
      | t' => String c t'
      end
  end.

(** [s.strip()] *)
Definition strip (s : string) : string := rstrip (lstrip s).

(** Truth value of a [str]: false exactly for the empty string. *)
Definition truthy (s : string) : bool :=
  match s with EmptyString => false | String _ _ => true end.

(** Truth value of an [Optional[str]]: [None] and [""] are false. *)
Definition truthy_opt (o : option string) : bool :=
  match o with None => false | Some s => truthy s end.

(** The [str] held by an [Optional[str]] that is not [None]. *)
Definition text (o : option string) : string :=
  match o with Some s => s | None => EmptyString end.

(** [len(l)] *)
Definition len {A} (l : list A) : Z := Z.of_nat (List.length l).

(** [len(s)] for a [str] *)
Definition strlen (s : string) : Z := Z.of_nat (String.length s).

(** [l[i:]]: a negative [i] counts from the end, and both ends are
    clipped to the list. *)
Definition slice_from {A} (i : Z) (l : list A) : list A :=
  let start := if i <? 0 then Z.max (len l + i) 0 else Z.min i (len l) in
  skipn (Z.to_nat start) l.

(** [a // b] for [int]s, [b <> 0] (Python rounds towards minus
    infinity, as [Z.div] does). *)
Definition floordiv (a b : Z) : Z := a / b.

(** [l[i]]: a negative [i] counts from the end; [None] stands for the
    [IndexError] of an index outside the list. *)
Definition index {A} (l : list A) (i : Z) : option A :=
  if i <? 0 then
    if len l + i <? 0 then None else nth_error l (Z.to_nat (len l + i))
  else nth_error l (Z.to_nat i).

End Py.

(* ================================================================== *)
(** * Exceptions, results and the computation monad *)
(* ================================================================== *)

(** The exception classes that the code tells apart, in the order in
    which its [except] clauses test them.  [APIError] stands for an
    [openai.APIError] that is neither a [RateLimitError] nor an
    [APIConnectionError]; [OtherException] for any other [Exception]. *)
Inductive exn : Type :=
| RateLimitError
| APIConnectionError
| APIError
| IndexError
| AttributeError
| ValueError
| ZeroDivisionError
| OtherException (name : string).

Inductive Result (A : Type) : Type :=
| Ok (a : A)
| Raised (e : exn).
Arguments Ok {A} a.
Arguments Raised {A} e.

Inductive Level : Type := WARNING | ERROR.

(** One turn unit of the conversation: the dict
    [{"role": ..., "content": ...}]. *)
Record Message : Type := mkMessage { role : string; content : string }.

(** The arguments of [client.chat.completions.create]. *)
Record ChatRequest : Type := mkChatRequest {
  req_model : string;
  req_messages : list Message;
  req_max_tokens : Z;
  req_temperature : Q;
  req_timeout : Z
}.

(** Interactions with the outside world, in the order they happen.
    [Log] records the [logger.warning] and [logger.error] calls with the
    constant part of their message (the text before the interpolated
    exception).  [Print] records the two [print]s inside the [try] of
    [handle_conversation], whose exceptions its handler catches, with
    the constant part of the line, without its symbol, and the text
    printed after it.  The [logger.info] progress lines are left out,
    and so are the banners and progress lines that [run] and [main]
    print, which are taken to succeed. *)
Inductive Event : Type :=
| Log (level : Level) (msg : string)
| ChatCompletion (r : ChatRequest)
| EngineSay (text : string)
| EngineRunAndWait
| EngineStop
| EngineSetRate (rate : Z)
| EngineSetVolume (volume : Q)
| PyAudioNew
| StreamOpen (rate chunk : Z)
| StreamRead (chunk : Z)
| StreamStop
| StreamClose
| PyAudioTerminate
| WhisperTranscribe (audio : list Q)
| WhisperLoad (model_size device compute_type : string)
| OpenAIClient (api_key : string)
| EngineInit
| EngineGetVoices
| EngineSetVoice (id : string)
| PorcupineCreate (access_key model_path : string) (sensitivity : Q)
| PorcupineProcess (pcm : list Z)
| PorcupineDelete
| Print (label text : string).

Definition Trace : Type := list Event.

Module Exec.

(** A method on attributes [S] returning an [A]. *)
Definition M (S A : Type) : Type := S -> Trace -> Result A * S * Trace.

Section Ops.
Context {S : Type}.

Definition ret {A} (a : A) : M S A := fun s t => (Ok a, s, t).

Definition raise {A} (e : exn) : M S A := fun s t => (Raised e, s, t).

Definition bind {A B} (c : M S A) (k : A -> M S B) : M S B :=
  fun s t =>
    match c s t with
    | (Ok a, s', t') => k a s' t'
    | (Raised e, s', t') => (Raised e, s', t')
    end.

(** [try: c  except Exception as e: h e]; the attributes and the
    trace keep what [c] did before it raised. *)
Definition try_except {A} (c : M S A) (h : exn -> M S A) : M S A :=
  fun s t =>
    match c s t with
    | (Ok a, s', t') => (Ok a, s', t')
    | (Raised e, s', t') => h e s' t'
    end.

Definition get : M S S := fun s t => (Ok s, s, t).

Definition modify (f : S -> S) : M S unit := fun s t => (Ok tt, f s, t).

(** A call into the outside world: the oracle decides the outcome
    from the trace so far, and the call is recorded. *)
Definition extern {A} (ev : Event) (oracle : Trace -> Result A) : M S A :=
  fun s t => (oracle t, s, t ++ [ev]).

Definition log (level : Level) (msg : string) : M S unit :=
  fun s t => (Ok tt, s, t ++ [Log level msg]).

(** The trace so far. *)
Definition past : M S Trace := fun s t => (Ok t, s, t).

End Ops.

(** Run a method of a component [S] that is an attribute of [T]. *)
Definition zoom {S T A} (proj : T -> S) (upd : S -> T -> T) (c : M S A) : M T A :=
  fun s t =>
    match c (proj s) t with
    | (r, s', t') => (r, upd s' s, t')
    end.

Definition result_of {S A} (x : Result A * S * Trace) : Result A := fst (fst x).
Definition state_of {S A} (x : Result A * S * Trace) : S := snd (fst x).
Definition trace_of {S A} (x : Result A * S * Trace) : Trace := snd x.

End Exec.

Import Exec.

Declare Scope exec_scope.
Delimit Scope exec_scope with exec.
Notation "x <- c1 ;; c2" := (bind c1 (fun x => c2))
  (at level 61, c1 at next level, right associativity) : exec_scope.
Notation "c1 ;; c2" := (bind c1 (fun _ => c2))
  (at level 61, right associativity) : exec_scope.
Local Open Scope exec_scope.

(* ================================================================== *)
(** * config.py *)
(* ================================================================== *)

Module Config.
Definition AUDIO_SAMPLE_RATE : Z := 16000.
Definition AUDIO_CHUNK_SIZE : Z := 1024.
Definition RECORDING_TIMEOUT : Z := 10.
Definition SILENCE_THRESHOLD : Z := 500.
Definition SILENCE_DURATION : Q := 3 # 2.
Definition CHATGPT_MODEL : string := "gpt-4o".
Definition CHATGPT_MAX_TOKENS : Z := 500.
Definition CHATGPT_TEMPERATURE : Q := 7 # 10.
Definition CHATGPT_TIMEOUT : Z := 30.
Definition TTS_VOICE_RATE : Z := 175.
Definition ENABLE_AUDIO_FEEDBACK : bool := true.
Definition MAX_CONVERSATION_HISTORY : Z := 10.
Definition WAKE_WORD_SENSITIVITY : Q := 1 # 2.
Definition STT_MODEL : string := "base".
Definition STT_LANGUAGE : string := "en".
Definition STT_DEVICE : string := "cpu".
Definition STT_COMPUTE_TYPE : string := "int8".
Definition SYSTEM_PROMPT : string :=
  "You are a helpful voice assistant. Provide concise, natural responses suitable for spoken conversation. Keep answers under 3 sentences unless more detail is specifically requested.".
Definition TTS_ENGINE : string := "pyttsx3".
Definition TTS_VOICE_INDEX : Z := 1.

(** [validate], for the two keys read from the environment: the list
    of its error lines is empty exactly when it returns [True].  The
    directories it creates and what it prints are left out. *)
Definition validation_errors (OPENAI_API_KEY PICOVOICE_ACCESS_KEY : string)
    : list string :=
  (if negb (Py.truthy OPENAI_API_KEY)
   then ["OPENAI_API_KEY not set in environment variables"] else []) ++
  (if negb (Py.truthy PICOVOICE_ACCESS_KEY)
   then ["PICOVOICE_ACCESS_KEY not set in environment variables"] else []).

Definition validate (OPENAI_API_KEY PICOVOICE_ACCESS_KEY : string) : bool :=
  match validation_errors OPENAI_API_KEY PICOVOICE_ACCESS_KEY with
  | [] => true
  | _ => false
  end.
End Config.

(* ================================================================== *)
(** * chatgpt_api.py: the conversation session *)
(* ================================================================== *)

Module ChatGPTClient.

(** The attributes of a [ChatGPTClient]. *)
Record t : Type := mk {
  api_key : string;
  model : string;
  max_tokens : Z;
  temperature : Q;
  conversation_history : list Message
}.

Definition set_history (h : list Message) (self : t) : t :=
  mk (api_key self) (model self) (max_tokens self) (temperature self) h.

(** [self.conversation_history.append(msg)] *)
Definition append (msg : Message) (self : t) : t :=
  set_history (conversation_history self ++ [msg]) self.

(** [msg["role"] == "system"] *)
Definition is_system (msg : Message) : bool := String.eqb (role msg) "system".

(** [__init__]: the history starts empty and receives the system
    message when [system_prompt] is neither [None] nor empty. *)
Definition __init__ (api_key model : string) (max_tokens : Z) (temperature : Q)
    (system_prompt : option string) : t :=
  let self := mk api_key model max_tokens temperature [] in
  match system_prompt with
  | Some p => if Py.truthy p then append (mkMessage "system" p) self else self
  | None => self
  end.

(** The body of [_trim_history] for [max_history]. *)
Definition trim (max_history : Z) (conversation_history : list Message)
    : list Message :=
  if Py.len conversation_history >? max_history then
    let system_msgs := filter is_system conversation_history in
    let other_msgs := filter (fun msg => negb (is_system msg)) conversation_history in
    let trimmed_msgs :=
      Py.slice_from (- (max_history - Py.len system_msgs)) other_msgs in
    system_msgs ++ trimmed_msgs
  else conversation_history.

Definition _trim_history : M t unit :=
  modify (fun self =>
    set_history (trim Config.MAX_CONVERSATION_HISTORY (conversation_history self)) self).

Definition reset_conversation : M t unit :=
  modify (fun self =>
    let system_msgs := filter is_system (conversation_history self) in
    set_history system_msgs self).

(** [sum(len(msg["content"]) for msg in history) // 4] *)
Definition get_token_usage_estimate : M t Z :=
  self <- get ;;
  let total_chars :=
    fold_left (fun acc msg => acc + Py.strlen (content msg))
              (conversation_history self) 0 in
  ret (Py.floordiv total_chars 4).

Section Service.

(** The remote service: what [client.chat.completions.create]
    answers to a request, given everything that happened before.  A
    response is the list of its choices, each with the [content] of
    its message, which may be [None]. *)
Variable create : Trace -> ChatRequest -> Result (list (option string)).

(** [response.choices[0].message.content.strip()] *)
Definition first_choice_text (choices : list (option string)) : M t string :=
  match choices with
  | [] => raise IndexError
  | None :: _ => raise AttributeError
  | Some text :: _ => ret (Py.strip text)
  end.

Definition send_message (user_message : string) : M t (option string) :=
  if negb (Py.truthy (Py.strip user_message)) then
    log WARNING "Empty message, skipping API call" ;;
    ret None
  else
    modify (append (mkMessage "user" user_message)) ;;
    try_except
      (self <- get ;;
       let request :=
         mkChatRequest (model self) (conversation_history self)
                       (max_tokens self) (temperature self)
                       Config.CHATGPT_TIMEOUT in
       response <- extern (ChatCompletion request)
                          (fun past => create past request) ;;
       assistant_message <- first_choice_text response ;;
       modify (append (mkMessage "assistant" assistant_message)) ;;
       _trim_history ;;
       ret (Some assistant_message))
      (fun e =>
         match e with
         | RateLimitError =>
             log ERROR "Rate limit exceeded: " ;;
             ret (Some "I'm receiving too many requests right now. Please try again in a moment.")
         | APIConnectionError =>
             log ERROR "Connection error: " ;;
             ret (Some "I'm having trouble connecting to my servers. Please check your internet connection.")
         | APIError =>
             log ERROR "API error: " ;;
             ret (Some "I encountered an error processing your request. Please try again.")
         | _ =>
             log ERROR "Unexpected error: " ;;
             ret (Some "An unexpected error occurred. Please try again.")
         end).

(** The loop of [test_chatgpt]: one [send_message] per entry, the
    replies collected in order. *)
Fixpoint send_all (messages : list string) : M t (list (option string)) :=
  match messages with
  | [] => ret []
  | msg :: rest =>
      response <- send_message msg ;;
      responses <- send_all rest ;;
      ret (response :: responses)
  end.

End Service.

End ChatGPTClient.

(* ================================================================== *)
(** * stt.py: audio capture and transcription *)
(* ================================================================== *)

Module SpeechToText.

(** The attributes of a [SpeechToText]; [model] and
    [pyaudio_instance] say whether the attribute is not [None]. *)
Record t : Type := mk {
  language : string;
  model : bool;
  pyaudio_instance : bool
}.

Definition set_pyaudio_instance (b : bool) (self : t) : t :=
  mk (language self) (model self) b.

(** One signed 16-bit sample from its two bytes, low byte first. *)
Definition int16 (lo hi : Byte.byte) : Z :=
  let u := Z.of_N (Byte.to_N lo) + 256 * Z.of_N (Byte.to_N hi) in
  if u <? 32768 then u else u - 65536.

(** [np.frombuffer(data, dtype=np.int16)]; [None] stands for the
    [ValueError] raised when the size is not a multiple of two. *)
Fixpoint frombuffer (data : list Byte.byte) : option (list Z) :=
  match data with
  | [] => Some []
  | [_] => None
  | lo :: hi :: rest =>
      match frombuffer rest with
      | Some samples => Some (int16 lo hi :: samples)
      | None => None
      end
  end.

(** [np.abs] on an [int16]: the most negative value wraps to itself. *)
Definition abs16 (x : Z) : Z := if x =? -32768 then -32768 else Z.abs x.

(** [np.abs(audio_data).mean() > silence_threshold].  The mean of an
    empty array is [nan], which exceeds nothing; otherwise the
    comparison is that of the exact mean (the sums stay far below
    2^53, where float64 is exact). *)
Definition amplitude_exceeds (silence_threshold : Z) (audio_data : list Z) : bool :=
  match audio_data with
  | [] => false
  | _ => silence_threshold * Py.len audio_data <? fold_right Z.add 0 (map abs16 audio_data)
  end.

(** [int(x)]: truncation towards zero. *)
Definition int_of (x : Q) : Z :=
  if Qle_bool 0 x then Qfloor x else Qceiling x.

(** [int(seconds * sample_rate / chunk_size)]; [None] stands for the
    [ZeroDivisionError].  The quotient is computed exactly, where
    Python computes it in binary floating point: the two agree for
    the shipped configuration, whose products and quotients are exact
    (23.4375 and 156.25), and can differ by one for a duration that is
    not a binary fraction (0.29 s at 100 samples per second and chunks
    of one sample give 29 here and 28 in Python). *)
Definition chunks_in (seconds : Q) (sample_rate chunk_size : Z) : option Z :=
  if chunk_size =? 0 then None
  else Some (int_of (seconds * inject_Z sample_rate / inject_Z chunk_size)).

(** The local variables of the capture loop. *)
Record Capture : Type := mkCapture {
  frames : list (list Byte.byte);
  silent_chunks : Z;
  has_speech : bool
}.

Section Device.

(** The microphone and the recogniser. *)
Variable pyaudio_new : Trace -> Result unit.
Variable stream_open : Trace -> Z -> Z -> Result unit.
Variable stream_read : Trace -> Z -> Result (list Byte.byte).
Variable stream_stop : Trace -> Result unit.
Variable stream_close : Trace -> Result unit.
Variable pyaudio_terminate : Trace -> Result unit.
(** The texts of the segments that the recogniser yields. *)
Variable whisper_transcribe : Trace -> list Q -> string -> Result (list string).

(** [for _ in range(remaining)]: the body of the loop of
    [record_audio].  Both places of the inner [try] that can raise
    (the read and the decoding) end the loop through the same
    handler, with the locals as they are at that point. *)
Fixpoint capture_loop (chunk_size silence_threshold max_silent_chunks : Z)
    (remaining : nat) (st : Capture) : M t Capture :=
  match remaining with
  | O => ret st
  | S remaining' =>
      read <- try_except
                (data <- extern (StreamRead chunk_size)
                                (fun past => stream_read past chunk_size) ;;
                 ret (Some data))
                (fun e => log ERROR "Error reading audio chunk: " ;; ret None) ;;
      match read with
      | None => ret st
      | Some data =>
          let st := mkCapture (frames st ++ [data]) (silent_chunks st) (has_speech st) in
          match frombuffer data with
          | None => log ERROR "Error reading audio chunk: " ;; ret st
          | Some audio_data =>
              let st :=
                if amplitude_exceeds silence_threshold audio_data then
                  mkCapture (frames st) 0 true
                else if has_speech st then
                  mkCapture (frames st) (silent_chunks st + 1) (has_speech st)
                else st in
              if has_speech st && (silent_chunks st >? max_silent_chunks) then
                ret st
              else
                capture_loop chunk_size silence_threshold max_silent_chunks
                             remaining' st
          end
      end
  end.

Definition lift_option {A} (o : option A) (e : exn) : M t A :=
  match o with Some a => ret a | None => raise e end.

Definition record_audio (sample_rate chunk_size silence_threshold : Z)
    (silence_duration : Q) (max_duration : Z) : M t (option (list Q)) :=
  try_except
    (extern PyAudioNew pyaudio_new ;;
     modify (set_pyaudio_instance true) ;;
     extern (StreamOpen sample_rate chunk_size)
            (fun past => stream_open past sample_rate chunk_size) ;;
     max_silent_chunks <-
       lift_option (chunks_in silence_duration sample_rate chunk_size)
                   ZeroDivisionError ;;
     max_chunks <-
       lift_option (chunks_in (inject_Z max_duration) sample_rate chunk_size)
                   ZeroDivisionError ;;
     st <- capture_loop chunk_size silence_threshold max_silent_chunks
                        (Z.to_nat max_chunks) (mkCapture [] 0 false) ;;
     extern StreamStop stream_stop ;;
     extern StreamClose stream_close ;;
     extern PyAudioTerminate pyaudio_terminate ;;
     if negb (has_speech st) then
       log WARNING "No speech detected in recording" ;;
       ret None
     else
       audio_data <- lift_option (frombuffer (List.concat (frames st))) ValueError ;;
       let audio_float := map (fun x => x # 32768) audio_data in
       ret (Some audio_float))
    (fun e => log ERROR "Audio recording failed: " ;; ret None).

Definition transcribe (audio_data : list Q) : M t (option string) :=
  self <- get ;;
  if negb (model self) then
    log ERROR "Whisper model not loaded" ;;
    ret None
  else
    try_except
      (segments <- extern (WhisperTranscribe audio_data)
                          (fun past => whisper_transcribe past audio_data (language self)) ;;
       let transcription := Py.strip (String.concat " " segments) in
       if Py.truthy transcription then ret (Some transcription)
       else
         log WARNING "Empty transcription result" ;;
         ret None)
      (fun e => log ERROR "Transcription failed: " ;; ret None).

Definition record_and_transcribe : M t (option string) :=
  audio_data <- record_audio Config.AUDIO_SAMPLE_RATE Config.AUDIO_CHUNK_SIZE
                             Config.SILENCE_THRESHOLD Config.SILENCE_DURATION
                             Config.RECORDING_TIMEOUT ;;
  match audio_data with
  | None => ret None
  | Some audio_data => transcribe audio_data
  end.

End Device.

Section Lifecycle.

Variable whisper_load : Trace -> string -> string -> string -> Result unit.
Variable pyaudio_terminate : Trace -> Result unit.

Definition set_model (b : bool) (self : t) : t :=
  mk (language self) b (pyaudio_instance self).

Definition _load_model (model_size device compute_type : string) : M t unit :=
  try_except
    (extern (WhisperLoad model_size device compute_type)
            (fun past => whisper_load past model_size device compute_type) ;;
     modify (set_model true))
    (fun e => log ERROR "Failed to load Whisper model: " ;; raise e).

(** [__init__], run on the object it is building. *)
Definition __init__ (model_size device compute_type : string) : M t unit :=
  modify (set_model false) ;;
  modify (set_pyaudio_instance false) ;;
  _load_model model_size device compute_type.

(** [cleanup]: the handler of its [try] returns, so the [finally]
    clause is what follows it. *)
Definition cleanup : M t unit :=
  self <- get ;;
  if pyaudio_instance self then
    try_except
      (extern PyAudioTerminate pyaudio_terminate)
      (fun e => log ERROR "Error terminating PyAudio: ") ;;
    modify (set_pyaudio_instance false)
  else ret tt.

End Lifecycle.

End SpeechToText.

(* ================================================================== *)
(** * tts.py: the speech output adapter *)
(* ================================================================== *)

Module TextToSpeech.

(** The attributes of a [TextToSpeech]; [engine] says whether the
    attribute is not [None]. *)
Record t : Type := mk {
  engine_name : string;
  voice_rate : Z;
  voice_index : Z;
  engine : bool
}.

Definition set_voice_rate (rate : Z) (self : t) : t :=
  mk (engine_name self) rate (voice_index self) (engine self).

(** [min(a, b)] and [max(a, b)] of Python: the first argument wins
    unless the second is strictly smaller (larger). *)
Definition py_min (a b : Q) : Q := if Qle_bool a b then a else b.
Definition py_max (a b : Q) : Q := if Qle_bool b a then a else b.

Section Engine.

(** The pyttsx3 engine. *)
Variable engine_say : Trace -> string -> Result unit.
Variable engine_runAndWait : Trace -> Result unit.
Variable engine_stop : Trace -> Result unit.
Variable engine_set_rate : Trace -> Z -> Result unit.
Variable engine_set_volume : Trace -> Q -> Result unit.

Definition speak (text : string) (blocking : bool) : M t bool :=
  if negb (Py.truthy text) || negb (Py.truthy (Py.strip text)) then
    log WARNING "Empty text provided to TTS" ;;
    ret false
  else
    self <- get ;;
    if negb (engine self) then
      log ERROR "TTS engine not initialized" ;;
      ret false
    else
      try_except
        (extern (EngineSay text) (fun past => engine_say past text) ;;
         (if blocking then extern EngineRunAndWait engine_runAndWait
          else ret tt) ;;
         ret true)
        (fun e => log ERROR "TTS speech failed: " ;; ret false).

Definition stop : M t unit :=
  self <- get ;;
  if engine self then
    try_except
      (extern EngineStop engine_stop)
      (fun e => log ERROR "Error stopping TTS: ")
  else ret tt.

Definition set_rate (rate : Z) : M t unit :=
  self <- get ;;
  if engine self then
    extern (EngineSetRate rate) (fun past => engine_set_rate past rate) ;;
    modify (set_voice_rate rate)
  else ret tt.

Definition set_volume (volume : Q) : M t unit :=
  self <- get ;;
  if engine self then
    let volume := py_max 0 (py_min 1 volume) in
    extern (EngineSetVolume volume) (fun past => engine_set_volume past volume)
  else ret tt.

End Engine.

Section Lifecycle.

Variable pyttsx3_init : Trace -> Result unit.
Variable engine_set_rate : Trace -> Z -> Result unit.
(** The ids of the voices that the engine offers. *)
Variable engine_get_voices : Trace -> Result (list string).
Variable engine_set_voice : Trace -> string -> Result unit.
Variable engine_set_volume : Trace -> Q -> Result unit.
Variable engine_stop : Trace -> Result unit.

Definition set_engine (b : bool) (self : t) : t :=
  mk (engine_name self) (voice_rate self) (voice_index self) b.

Definition _initialize_pyttsx3 : M t unit :=
  extern EngineInit pyttsx3_init ;;
  modify (set_engine true) ;;
  self <- get ;;
  extern (EngineSetRate (voice_rate self))
         (fun past => engine_set_rate past (voice_rate self)) ;;
  voices <- extern EngineGetVoices engine_get_voices ;;
  (if negb (Py.len voices =? 0) && (Py.len voices >? voice_index self) then
     match Py.index voices (voice_index self) with
     | Some id => extern (EngineSetVoice id) (fun past => engine_set_voice past id)
     | None => raise IndexError
     end
   else ret tt) ;;
  extern (EngineSetVolume (9 # 10)) (fun past => engine_set_volume past (9 # 10)).

Definition _initialize_engine : M t unit :=
  try_except
    (self <- get ;;
     if String.eqb (engine_name self) "pyttsx3" then _initialize_pyttsx3
     else
       log WARNING "Unknown TTS engine: " ;;
       _initialize_pyttsx3)
    (fun e => log ERROR "Failed to initialize TTS engine: " ;; raise e).

(** [__init__], run on the object it is building. *)
Definition __init__ : M t unit :=
  modify (set_engine false) ;;
  _initialize_engine.

(** [cleanup]: the handler of its [try] returns, so the [finally]
    clause is what follows it. *)
Definition cleanup : M t unit :=
  self <- get ;;
  if engine self then
    try_except
      (extern EngineStop engine_stop)
      (fun e => log ERROR "Error during TTS cleanup: ") ;;
    modify (set_engine false)
  else ret tt.

End Lifecycle.

End TextToSpeech.

(* ================================================================== *)
(** * wakeword.py: the wake word detector *)
(* ================================================================== *)

Module WakeWordDetector.

(** What the code reads of a Porcupine handle. *)
Record Porcupine : Type := mkPorcupine { sample_rate : Z; frame_length : Z }.

(** The attributes of a [WakeWordDetector]; [audio_stream] and
    [pyaudio_instance] say whether the attribute is not [None]. *)
Record t : Type := mk {
  access_key : string;
  model_path : string;
  sensitivity : Q;
  porcupine : option Porcupine;
  audio_stream : bool;
  pyaudio_instance : bool;
  is_listening : bool
}.

Definition __init__ (access_key model_path : string) (sensitivity : Q) : t :=
  mk access_key model_path sensitivity None false false false.

Definition set_porcupine (p : option Porcupine) (self : t) : t :=
  mk (access_key self) (model_path self) (sensitivity self) p
     (audio_stream self) (pyaudio_instance self) (is_listening self).

Definition set_audio_stream (b : bool) (self : t) : t :=
  mk (access_key self) (model_path self) (sensitivity self) (porcupine self)
     b (pyaudio_instance self) (is_listening self).

Definition set_pyaudio_instance (b : bool) (self : t) : t :=
  mk (access_key self) (model_path self) (sensitivity self) (porcupine self)
     (audio_stream self) b (is_listening self).

Definition set_is_listening (b : bool) (self : t) : t :=
  mk (access_key self) (model_path self) (sensitivity self) (porcupine self)
     (audio_stream self) (pyaudio_instance self) b.

(** [struct.unpack_from("h" * n, data)]: the first [n] signed 16-bit
    values of the buffer; [None] stands for the [struct.error] raised
    when the buffer is shorter than [2 * n] bytes. *)
Definition unpack_from (n : Z) (data : list Byte.byte) : option (list Z) :=
  let bytes := (2 * Z.to_nat n)%nat in
  if (List.length data <? bytes)%nat then None
  else SpeechToText.frombuffer (firstn bytes data).

Section Device.

Variable porcupine_create : Trace -> string -> string -> Q -> Result Porcupine.
Variable pyaudio_new : Trace -> Result unit.
Variable stream_open : Trace -> Z -> Z -> Result unit.
Variable stream_read : Trace -> Z -> Result (list Byte.byte).
Variable porcupine_process : Trace -> list Z -> Result Z.
Variable stream_stop : Trace -> Result unit.
Variable stream_close : Trace -> Result unit.
Variable porcupine_delete : Trace -> Result unit.
Variable pyaudio_terminate : Trace -> Result unit.

Definition stop : M t unit := modify (set_is_listening false).

(** [cleanup]: the handler of each [try] returns, so each [finally]
    clause is what follows it. *)
Definition cleanup : M t unit :=
  stop ;;
  self <- get ;;
  (if audio_stream self then
     try_except
       (extern StreamStop stream_stop ;;
        extern StreamClose stream_close)
       (fun e => log ERROR "Error closing audio stream: ") ;;
     modify (set_audio_stream false)
   else ret tt) ;;
  self <- get ;;
  (match porcupine self with
   | Some _ =>
       try_except
         (extern PorcupineDelete porcupine_delete)
         (fun e => log ERROR "Error deleting Porcupine instance: ") ;;
       modify (set_porcupine None)
   | None => ret tt
   end) ;;
  self <- get ;;
  (if pyaudio_instance self then
     try_except
       (extern PyAudioTerminate pyaudio_terminate)
       (fun e => log ERROR "Error terminating PyAudio: ") ;;
     modify (set_pyaudio_instance false)
   else ret tt).

Definition start : M t bool :=
  try_except
    (self <- get ;;
     handle <- extern (PorcupineCreate (access_key self) (model_path self)
                                       (sensitivity self))
                      (fun past => porcupine_create past (access_key self)
                                                    (model_path self) (sensitivity self)) ;;
     modify (set_porcupine (Some handle)) ;;
     extern PyAudioNew pyaudio_new ;;
     modify (set_pyaudio_instance true) ;;
     extern (StreamOpen (sample_rate handle) (frame_length handle))
            (fun past => stream_open past (sample_rate handle) (frame_length handle)) ;;
     modify (set_audio_stream true) ;;
     modify (set_is_listening true) ;;
     ret true)
    (fun e =>
       log ERROR "Failed to start wake word detection: " ;;
       cleanup ;;
       ret false).

Definition listen_once : M t bool :=
  self <- get ;;
  match porcupine self with
  | Some handle =>
      if negb (is_listening self) || negb (audio_stream self) then ret false
      else
        try_except
          (data <- extern (StreamRead (frame_length handle))
                          (fun past => stream_read past (frame_length handle)) ;;
           match unpack_from (frame_length handle) data with
           | None => raise (OtherException "struct.error")
           | Some pcm =>
               keyword_index <- extern (PorcupineProcess pcm)
                                       (fun past => porcupine_process past pcm) ;;
               if keyword_index >=? 0 then ret true else ret false
           end)
          (fun e => log ERROR "Error during wake word detection: " ;; ret false)
  | None => ret false
  end.

End Device.

End WakeWordDetector.

(* ================================================================== *)
(** * assistant.py: the run loop *)
(* ================================================================== *)

Module VoiceAssistant.

(** How far [run] got within the polls it was given. *)
Inductive Status : Type :=
| Waiting     (** still in the main loop, waiting for the wake word *)
| Returned.   (** [run] returned *)

Section Adapters.

(** The adapters held in [self.stt], [self.chatgpt], [self.tts] and
    [self.wake_word]: any objects with these methods, on attributes
    of their own. *)
Variable A : Type.
Variable stt_record_and_transcribe : M A (option string).
Variable chatgpt_send_message : string -> M A (option string).
Variable tts_speak : string -> bool -> M A bool.
Variable wake_word_start : M A bool.
Variable wake_word_listen_once : M A bool.
(** Whether a [KeyboardInterrupt] arrives while the loop waits for
    the wake word in its [i]-th round. *)
Variable interrupt : nat -> Trace -> bool.
(** [print] of a line of the conversation to the console. *)
Variable stdout_print : Trace -> string -> string -> Result unit.

(** The attributes of a [VoiceAssistant]; [components] says whether
    the four adapters are all set. *)
Record t : Type := mk {
  running : bool;
  components : bool;
  adapters : A
}.

Definition set_running (b : bool) (self : t) : t :=
  mk b (components self) (adapters self).

Definition set_adapters (a : A) (self : t) : t :=
  mk (running self) (components self) a.

Definition call {B} (method : M A B) : M t B :=
  zoom adapters set_adapters method.

Definition handle_conversation : M t unit :=
  try_except
    (user_text <- call stt_record_and_transcribe ;;
     if negb (Py.truthy_opt user_text) then
       call (tts_speak "I didn't catch that. Please try again." true) ;;
       ret tt
     else
       extern (Print "You: " (Py.text user_text))
              (fun past => stdout_print past "You: " (Py.text user_text)) ;;
       response <- call (chatgpt_send_message (Py.text user_text)) ;;
       if negb (Py.truthy_opt response) then
         call (tts_speak "I'm having trouble processing your request. Please try again." true) ;;
         ret tt
       else
         extern (Print "Assistant: " (Py.text response))
                (fun past => stdout_print past "Assistant: " (Py.text response)) ;;
         call (tts_speak (Py.text response) true) ;;
         ret tt)
    (fun e =>
       log ERROR "Error during conversation: " ;;
       call (tts_speak "I encountered an error. Please try again." true) ;;
       ret tt).

Definition stop : M t unit := modify (set_running false).

(** At most [polls] rounds of [while self.running:], starting with
    round [i].  [None] is a pending [KeyboardInterrupt]. *)
Fixpoint main_loop (polls i : nat) : M t (option Status) :=
  match polls with
  | O => ret (Some Waiting)
  | S polls' =>
      self <- get ;;
      if negb (running self) then ret (Some Returned)
      else
        tr <- past ;;
        if interrupt i tr then ret None
        else
          detected <- call wake_word_listen_once ;;
          (if detected then
             (if Config.ENABLE_AUDIO_FEEDBACK then
                call (tts_speak "Yes?" true) ;; ret tt
              else ret tt) ;;
             handle_conversation
           else ret tt) ;;
          main_loop polls' (S i)
  end.

(** [run], observed for [polls] rounds of its main loop.  The
    [finally] clause runs when the loop is left, by the end of the
    loop, by an interrupt or by an exception; an exception goes on
    to the caller after it. *)
Definition run (polls : nat) : M t Status :=
  self <- get ;;
  if negb (components self) then
    log ERROR "Components not initialized. Call initialize() first." ;;
    ret Returned
  else
    modify (set_running true) ;;
    started <- call wake_word_start ;;
    if negb started then
      log ERROR "Failed to start wake word detection" ;;
      ret Returned
    else
      call (tts_speak "Voice assistant ready. Say hey chat G P T to activate." true) ;;
      fun s tr =>
        match main_loop polls 0 s tr with
        | (Ok (Some Waiting), s', tr') => (Ok Waiting, s', tr')
        | (Ok _, s', tr') => (stop ;; ret Returned) s' tr'
        | (Raised e, s', tr') => (stop ;; raise e) s' tr'
        end.

End Adapters.

Arguments mk {A}.
Arguments running {A}.
Arguments components {A}.
Arguments adapters {A}.
Arguments set_running {A}.
Arguments set_adapters {A}.
Arguments call {A B}.
Arguments handle_conversation {A}.
Arguments stop {A}.
Arguments main_loop {A}.
Arguments run {A}.

End VoiceAssistant.

(** The adapters that [VoiceAssistant.initialize] constructs, as the
    attributes of one assistant, and the cycle over them. *)
Module Shipped.

Record Adapters : Type := mk {
  stt : SpeechToText.t;
  chatgpt : ChatGPTClient.t;
  tts : TextToSpeech.t
}.

Definition set_stt (x : SpeechToText.t) (a : Adapters) : Adapters :=
  mk x (chatgpt a) (tts a).
Definition set_chatgpt (x : ChatGPTClient.t) (a : Adapters) : Adapters :=
  mk (stt a) x (tts a).
Definition set_tts (x : TextToSpeech.t) (a : Adapters) : Adapters :=
  mk (stt a) (chatgpt a) x.

Section World.

Variable pyaudio_new : Trace -> Result unit.
Variable stream_open : Trace -> Z -> Z -> Result unit.
Variable stream_read : Trace -> Z -> Result (list Byte.byte).
Variable stream_stop : Trace -> Result unit.
Variable stream_close : Trace -> Result unit.
Variable pyaudio_terminate : Trace -> Result unit.
Variable whisper_transcribe : Trace -> list Q -> string -> Result (list string).
Variable create : Trace -> ChatRequest -> Result (list (option string)).
Variable engine_say : Trace -> string -> Result unit.
Variable engine_runAndWait : Trace -> Result unit.
Variable stdout_print : Trace -> string -> string -> Result unit.

Definition record_and_transcribe : M Adapters (option string) :=
  zoom stt set_stt
       (SpeechToText.record_and_transcribe
          pyaudio_new stream_open stream_read stream_stop stream_close
          pyaudio_terminate whisper_transcribe).

Definition send_message (user_message : string) : M Adapters (option string) :=
  zoom chatgpt set_chatgpt (ChatGPTClient.send_message create user_message).

Definition speak (text : string) (blocking : bool) : M Adapters bool :=
  zoom tts set_tts (TextToSpeech.speak engine_say engine_runAndWait text blocking).

Definition handle_conversation : M (VoiceAssistant.t Adapters) unit :=
  VoiceAssistant.handle_conversation
    record_and_transcribe send_message speak stdout_print.

End World.

End Shipped.

(* ================================================================== *)
(** * assistant.py: construction, cleanup and the entry point *)
(* ================================================================== *)

Module Assistant.

(** The four adapter attributes of a [VoiceAssistant]: [None] until
    [initialize] has constructed the adapter. *)
Record Components : Type := mkComponents {
  wake_word : option WakeWordDetector.t;
  stt : option SpeechToText.t;
  chatgpt : option ChatGPTClient.t;
  tts : option TextToSpeech.t
}.

Definition set_wake_word (x : option WakeWordDetector.t) (c : Components) : Components :=
  mkComponents x (stt c) (chatgpt c) (tts c).
Definition set_stt (x : option SpeechToText.t) (c : Components) : Components :=
  mkComponents (wake_word c) x (chatgpt c) (tts c).
Definition set_chatgpt (x : option ChatGPTClient.t) (c : Components) : Components :=
  mkComponents (wake_word c) (stt c) x (tts c).
Definition set_tts (x : option TextToSpeech.t) (c : Components) : Components :=
  mkComponents (wake_word c) (stt c) (chatgpt c) x.

(** The guard of [run] passes: none of the four attributes is [None]. *)
Definition complete (c : Components) : bool :=
  match wake_word c, stt c, chatgpt c, tts c with
  | Some _, Some _, Some _, Some _ => true
  | _, _, _, _ => false
  end.

(** The attributes of a [VoiceAssistant]. *)
Record t : Type := mk {
  running : bool;
  parts : Components
}.

Definition set_parts (c : Components) (self : t) : t := mk (running self) c.

(** [VoiceAssistant()] *)
Definition __init__ : t := mk false (mkComponents None None None None).

(** The assistant as the run loop sees it, and back. *)
Definition view (self : t) : VoiceAssistant.t Components :=
  VoiceAssistant.mk (running self) (complete (parts self)) (parts self).

Definition set_view (v : VoiceAssistant.t Components) (self : t) : t :=
  mk (VoiceAssistant.running v) (VoiceAssistant.adapters v).

(** A method call on an adapter attribute; on [None] it is an
    [AttributeError]. *)
Definition on {X B} (field : Components -> option X)
    (set : option X -> Components -> Components) (method : M X B)
    : M Components B :=
  fun c tr =>
    match field c with
    | Some x =>
        match method x tr with
        | (r, x', tr') => (r, set (Some x') c, tr')
        end
    | None => (Raised AttributeError, c, tr)
    end.

(** [X(...)]: the constructor body [init] runs on a new object, which
    is the value of the call when [init] returns; an exception of
    [init] leaves the caller without the object. *)
Definition construct {X} (blank : X) (init : M X unit) : M t X :=
  fun self tr =>
    match init blank tr with
    | (Ok _, x, tr') => (Ok x, self, tr')
    | (Raised e, _, tr') => (Raised e, self, tr')
    end.

Section World.

(** The two keys and the model path that [Config] reads from the
    environment and the file system. *)
Variable OPENAI_API_KEY : string.
Variable PICOVOICE_ACCESS_KEY : string.
Variable WAKE_WORD_MODEL_PATH : string.

Variable porcupine_create : Trace -> string -> string -> Q -> Result WakeWordDetector.Porcupine.
Variable porcupine_process : Trace -> list Z -> Result Z.
Variable porcupine_delete : Trace -> Result unit.
Variable pyaudio_new : Trace -> Result unit.
Variable stream_open : Trace -> Z -> Z -> Result unit.
Variable stream_read : Trace -> Z -> Result (list Byte.byte).
Variable stream_stop : Trace -> Result unit.
Variable stream_close : Trace -> Result unit.
Variable pyaudio_terminate : Trace -> Result unit.
Variable whisper_load : Trace -> string -> string -> string -> Result unit.
Variable whisper_transcribe : Trace -> list Q -> string -> Result (list string).
(** [OpenAI(api_key=...)] *)
Variable openai_client : Trace -> string -> Result unit.
Variable create : Trace -> ChatRequest -> Result (list (option string)).
Variable pyttsx3_init : Trace -> Result unit.
Variable engine_set_rate : Trace -> Z -> Result unit.
Variable engine_get_voices : Trace -> Result (list string).
Variable engine_set_voice : Trace -> string -> Result unit.
Variable engine_set_volume : Trace -> Q -> Result unit.
Variable engine_say : Trace -> string -> Result unit.
Variable engine_runAndWait : Trace -> Result unit.
Variable engine_stop : Trace -> Result unit.
Variable interrupt : nat -> Trace -> bool.
Variable stdout_print : Trace -> string -> string -> Result unit.

Definition wake_word_start : M Components bool :=
  on wake_word set_wake_word
     (WakeWordDetector.start porcupine_create pyaudio_new stream_open
        stream_stop stream_close porcupine_delete pyaudio_terminate).

Definition wake_word_listen_once : M Components bool :=
  on wake_word set_wake_word
     (WakeWordDetector.listen_once stream_read porcupine_process).

Definition stt_record_and_transcribe : M Components (option string) :=
  on stt set_stt
     (SpeechToText.record_and_transcribe
        pyaudio_new stream_open stream_read stream_stop stream_close
        pyaudio_terminate whisper_transcribe).

Definition chatgpt_send_message (user_message : string)
    : M Components (option string) :=
  on chatgpt set_chatgpt (ChatGPTClient.send_message create user_message).

Definition tts_speak (text : string) (blocking : bool) : M Components bool :=
  on tts set_tts (TextToSpeech.speak engine_say engine_runAndWait text blocking).

(** [cleanup]: each adapter that is not [None] is cleaned up. *)
Definition cleanup : M t unit :=
  self <- get ;;
  (match wake_word (parts self) with
   | Some _ =>
       zoom parts set_parts
            (on wake_word set_wake_word
                (WakeWordDetector.cleanup stream_stop stream_close
                   porcupine_delete pyaudio_terminate))
   | None => ret tt
   end) ;;
  self <- get ;;
  (match stt (parts self) with
   | Some _ =>
       zoom parts set_parts
            (on stt set_stt (SpeechToText.cleanup pyaudio_terminate))
   | None => ret tt
   end) ;;
  self <- get ;;
  (match tts (parts self) with
   | Some _ =>
       zoom parts set_parts
            (on tts set_tts (TextToSpeech.cleanup engine_stop))
   | None => ret tt
   end).

(** [initialize]: the four constructors in the order of the code, each
    attribute assigned when its constructor has returned.  The error
    line is recorded without its leading symbol. *)
Definition initialize : M t bool :=
  try_except
    (modify (fun self =>
       set_parts
         (set_wake_word
            (Some (WakeWordDetector.__init__ PICOVOICE_ACCESS_KEY
                     WAKE_WORD_MODEL_PATH Config.WAKE_WORD_SENSITIVITY))
            (parts self)) self) ;;
     recogniser <- construct
       (SpeechToText.mk Config.STT_LANGUAGE false false)
       (SpeechToText.__init__ whisper_load Config.STT_MODEL Config.STT_DEVICE
                              Config.STT_COMPUTE_TYPE) ;;
     modify (fun self => set_parts (set_stt (Some recogniser) (parts self)) self) ;;
     extern (OpenAIClient OPENAI_API_KEY)
            (fun past => openai_client past OPENAI_API_KEY) ;;
     modify (fun self =>
       set_parts
         (set_chatgpt
            (Some (ChatGPTClient.__init__ OPENAI_API_KEY Config.CHATGPT_MODEL
                     Config.CHATGPT_MAX_TOKENS Config.CHATGPT_TEMPERATURE
                     (Some Config.SYSTEM_PROMPT)))
            (parts self)) self) ;;
     speaker <- construct
       (TextToSpeech.mk Config.TTS_ENGINE Config.TTS_VOICE_RATE
                        Config.TTS_VOICE_INDEX false)
       (TextToSpeech.__init__ pyttsx3_init engine_set_rate engine_get_voices
                              engine_set_voice engine_set_volume) ;;
     modify (fun self => set_parts (set_tts (Some speaker) (parts self)) self) ;;
     ret true)
    (fun e =>
       log ERROR "Initialization failed: " ;;
       cleanup ;;
       ret false).

(** [run], observed for [polls] rounds of its main loop. *)
Definition run (polls : nat) : M t VoiceAssistant.Status :=
  zoom view set_view
       (VoiceAssistant.run stt_record_and_transcribe chatgpt_send_message
          tts_speak wake_word_start wake_word_listen_once interrupt
          stdout_print polls).

(** [main], with the assistant as it leaves it (the one it creates
    once the configuration is valid): its value is the exit code, or
    [None] when [run] has not returned within [polls] rounds.  The [finally] clause runs
    [cleanup] on every way out of the [try].  The banner, the logging
    setup and the display of the configuration are left out. *)
Definition main (polls : nat) : Trace -> Result (option Z) * t * Trace :=
  (if negb (Config.validate OPENAI_API_KEY PICOVOICE_ACCESS_KEY) then
     ret (Some 1)
   else
     code <- try_except
       (initialized <- initialize ;;
        if negb initialized then ret (Some 1)
        else
          status <- run polls ;;
          match status with
          | VoiceAssistant.Waiting => ret None
          | VoiceAssistant.Returned => ret (Some 0)
          end)
       (fun e => log ERROR "Fatal error: " ;; ret (Some 1)) ;;
     match code with
     | None => ret None
     | Some _ => cleanup ;; ret code
     end) __init__.

End World.

End Assistant.

(* ================================================================== *)
(** * Vocabulary of the specification *)
(* ================================================================== *)

Module Spec.

Import ChatGPTClient.

(** Empty or made of whitespace only. *)
Definition whitespace_only (s : string) : bool :=
  forallb Py.isspace (list_ascii_of_string s).

Definition system_msgs (h : list Message) : list Message := filter is_system h.

Definition non_system_msgs (h : list Message) : list Message :=
  filter (fun msg => negb (is_system msg)) h.

(** The history invariant: at most one system message, and it is the
    first message when there is one. *)
Definition well_formed (h : list Message) : Prop :=
  forall msg, In msg (tl h) -> is_system msg = false.

(** The [n] most recent entries, oldest first. *)
Definition most_recent {A} (n : nat) (l : list A) : list A :=
  skipn (List.length l - n) l.

(** What a history keeps of an earlier one: it is still well formed,
    it has the same system messages, and its other messages are the
    most recent of the earlier ones followed by [appended], in the
    order in which they were inserted. *)
Definition keeps_invariant (h appended h' : list Message) : Prop :=
  well_formed h' /\
  system_msgs h' = system_msgs h /\
  exists dropped,
    non_system_msgs h ++ appended = dropped ++ non_system_msgs h'.

(** The failure categories of the remote call. *)
Inductive Category : Type :=
| RateLimited | ConnectionFailed | ServiceError | Unknown.

Definition classify (e : exn) : Category :=
  match e with
  | RateLimitError => RateLimited
  | APIConnectionError => ConnectionFailed
  | APIError => ServiceError
  | _ => Unknown
  end.

Definition fallback (c : Category) : string :=
  match c with
  | RateLimited =>
      "I'm receiving too many requests right now. Please try again in a moment."
  | ConnectionFailed =>
      "I'm having trouble connecting to my servers. Please check your internet connection."
  | ServiceError =>
      "I encountered an error processing your request. Please try again."
  | Unknown =>
      "An unexpected error occurred. Please try again."
  end.

(** What is logged for a failure of each category. *)
Definition error_line (c : Category) : string :=
  match c with
  | RateLimited => "Rate limit exceeded: "
  | ConnectionFailed => "Connection error: "
  | ServiceError => "API error: "
  | Unknown => "Unexpected error: "
  end.

(** The request that [send_message] issues for [user_message]: the
    whole history, the new user message included. *)
Definition request_for (self : t) (user_message : string) : ChatRequest :=
  mkChatRequest (model self)
                (conversation_history self ++ [mkMessage "user" user_message])
                (max_tokens self) (temperature self) Config.CHATGPT_TIMEOUT.

(** The sum of the character lengths of all message contents. *)
Definition total_characters (h : list Message) : nat :=
  list_sum (map (fun msg => String.length (content msg)) h).

(** The mean absolute amplitude of a chunk exceeds the threshold (a
    chunk that cannot be decoded has no amplitude). *)
Definition chunk_exceeds (silence_threshold : Z) (data : list Byte.byte) : bool :=
  match SpeechToText.frombuffer data with
  | Some audio_data => SpeechToText.amplitude_exceeds silence_threshold audio_data
  | None => false
  end.

(** The method returns normally, whatever the attributes and the
    past are. *)
Definition never_raises {S B} (c : M S B) : Prop :=
  forall s tr, exists b s' tr', c s tr = (Ok b, s', tr').

(** The sentence spoken for an exception that reaches the boundary of
    a cycle. *)
Definition error_sentence : string := "I encountered an error. Please try again.".

(** How a cycle ends when an exception reached its boundary with the
    adapters in state [a] and the past [tr]: the error is logged and
    the error sentence is handed to [speak]; the cycle returns when
    [speak] does, and an exception of this [speak] leaves the cycle. *)
Definition spoken_error {A} (speak : string -> bool -> M A bool)
    (self : VoiceAssistant.t A) (a : A) (tr : Trace)
    : Result unit * VoiceAssistant.t A * Trace :=
  let out := speak error_sentence true a
                   (tr ++ [Log ERROR "Error during conversation: "]) in
  (match result_of out with
   | Ok _ => Ok tt
   | Raised e => Raised e
   end,
   VoiceAssistant.set_adapters (state_of out) self, trace_of out).

(** The interactions of a recording: log records and calls to the
    audio device. *)
Definition capture_event (ev : Event) : bool :=
  match ev with
  | Log _ _ | PyAudioNew | StreamOpen _ _ | StreamRead _
  | StreamStop | StreamClose | PyAudioTerminate => true
  | _ => false
  end.

(** The number of reads from the audio device in a trace. *)
Definition reads (tr : Trace) : nat :=
  List.length (filter (fun ev => match ev with StreamRead _ => true | _ => false end) tr).

(** The text has neither leading nor trailing whitespace: stripping
    it changes nothing. *)
Definition stripped (s : string) : Prop := Py.strip s = s.

(** The messages that [n] successful exchanges append, in order. *)
Fixpoint exchanges (users replies : list string) : list Message :=
  match users, replies with
  | u :: users', r :: replies' =>
      mkMessage "user" u :: mkMessage "assistant" r :: exchanges users' replies'
  | _, _ => []
  end.

(** The events of a construction of the speech output up to the voice
    selection, and those of a whole construction that selects the
    voice [choice]. *)
Definition construction_start (self : TextToSpeech.t) : Trace :=
  (if String.eqb (TextToSpeech.engine_name self) "pyttsx3" then []
   else [Log WARNING "Unknown TTS engine: "]) ++
  [EngineInit; EngineSetRate (TextToSpeech.voice_rate self); EngineGetVoices].

Definition construction_events (self : TextToSpeech.t) (choice : option string)
    : Trace :=
  construction_start self ++
  match choice with Some id => [EngineSetVoice id] | None => [] end ++
  [EngineSetVolume (9 # 10)].

(** The sentence that a cycle hands to [speak] for the answer of the
    service to its request. *)
Definition cycle_sentence (answer : Result (list (option string))) : string :=
  match answer with
  | Raised e => fallback (classify e)
  | Ok [] => fallback Unknown
  | Ok (None :: _) => fallback Unknown
  | Ok (Some text :: _) =>
      if Py.truthy (Py.strip text) then Py.strip text
      else "I'm having trouble processing your request. Please try again."
  end.

(** A wake word detector that holds no device, as [cleanup] leaves it. *)
Definition released (self : WakeWordDetector.t) : WakeWordDetector.t :=
  WakeWordDetector.mk (WakeWordDetector.access_key self)
                      (WakeWordDetector.model_path self)
                      (WakeWordDetector.sensitivity self)
                      None false false false.

(** The calls that release a device, and the error lines. *)
Definition release_event (ev : Event) : bool :=
  match ev with
  | StreamStop | StreamClose | PorcupineDelete | PyAudioTerminate => true
  | Log ERROR _ => true
  | _ => false
  end.

(** The calls that read the microphone. *)
Definition read_event (ev : Event) : bool :=
  match ev with StreamRead _ => true | _ => false end.



(** No adapter of the assistant holds a device or an engine. *)
Definition holds_nothing (c : Assistant.Components) : Prop :=
  (forall detector, Assistant.wake_word c = Some detector ->
     released detector = detector) /\
  (forall recogniser, Assistant.stt c = Some recogniser ->
     SpeechToText.pyaudio_instance recogniser = false) /\
  (forall speaker, Assistant.tts c = Some speaker ->
     TextToSpeech.engine speaker = false).

End Spec.

(* ================================================================== *)
(** * Concrete collaborators for the scenarios *)
(* ================================================================== *)

Module Fixtures.

(** Devices and engines that always work. *)
Definition fine : Trace -> Result unit := fun _ => Ok tt.
Definition opens : Trace -> Z -> Z -> Result unit := fun _ _ _ => Ok tt.

Definition is_read (ev : Event) : bool :=
  match ev with StreamRead _ => true | _ => false end.

(** One chunk of one sample of amplitude 16384. *)
Definition loud_chunk : list Byte.byte := [Byte.x00; Byte.x40].

(** A microphone that delivers one loud chunk and fails at the next
    read. *)
Definition failing_microphone (past : Trace) (chunk_size : Z)
    : Result (list Byte.byte) :=
  match filter is_read past with
  | [] => Ok loud_chunk
  | _ => Raised (OtherException "OSError")
  end.

Definition stt : SpeechToText.t := SpeechToText.mk "en" true false.

Definition tts : TextToSpeech.t := TextToSpeech.mk "pyttsx3" 175 1 true.

Definition chatgpt : ChatGPTClient.t :=
  ChatGPTClient.__init__ "key" Config.CHATGPT_MODEL Config.CHATGPT_MAX_TOKENS
                     Config.CHATGPT_TEMPERATURE (Some "Be brief.").

(** A history of a system message and eleven questions. *)
Definition long_history : list Message :=
  mkMessage "system" "Be brief." ::
  map (mkMessage "user")
      ["1"; "2"; "3"; "4"; "5"; "6"; "7"; "8"; "9"; "10"; "11"].

Definition fifteen_questions : list string := repeat "What is next?" 15.

(** A message of 400 characters. *)
Definition long_message : Message :=
  mkMessage "user" (String.concat "" (repeat "0123456789" 40)).

(** A service that is rate limited. *)
Definition rate_limited : Trace -> ChatRequest -> Result (list (option string)) :=
  fun _ _ => Raised RateLimitError.

(** A microphone in a silent room: every chunk is one sample of
    amplitude 3. *)
Definition silent_microphone : Trace -> Z -> Result (list Byte.byte) :=
  fun _ _ => Ok [Byte.x03; Byte.x00].

(** An engine that refuses every change of a property. *)
Definition refuses {X} : Trace -> X -> Result unit :=
  fun _ _ => Raised (OtherException "RuntimeError").

Definition broken : Trace -> Result unit :=
  fun _ => Raised (OtherException "RuntimeError").

Definition says : Trace -> string -> Result unit := fun _ _ => Ok tt.

(** A microphone that cannot be opened. *)
Definition no_microphone : Trace -> Z -> Z -> Result unit :=
  fun _ _ _ => Raised (OtherException "OSError").

Definition never_read : Trace -> Z -> Result (list Byte.byte) :=
  fun _ _ => Raised (OtherException "OSError").

Definition no_segments : Trace -> list Q -> string -> Result (list string) :=
  fun _ _ _ => Ok [].

(** A service that answers every request with one choice. *)
Definition answers : Trace -> ChatRequest -> Result (list (option string)) :=
  fun _ _ => Ok [Some " Hello! How can I help? "].

Definition shipped : VoiceAssistant.t Shipped.Adapters :=
  VoiceAssistant.mk false true (Shipped.mk stt chatgpt tts).

(** Test doubles for the run loop: a transcription adapter that
    throws on its first call and returns "hello" afterwards, next to
    the real session and the real speech adapter. *)
Record Doubles : Type := mkDoubles {
  stt_calls : nat;
  session : ChatGPTClient.t;
  speaker : TextToSpeech.t
}.

Definition flaky_transcription : M Doubles (option string) :=
  fun a tr =>
    (match stt_calls a with
     | O => Raised (OtherException "RuntimeError")
     | S _ => Ok (Some "hello")
     end,
     mkDoubles (S (stt_calls a)) (session a) (speaker a), tr).

Definition session_send (user_message : string) : M Doubles (option string) :=
  zoom session (fun x a => mkDoubles (stt_calls a) x (speaker a))
       (ChatGPTClient.send_message answers user_message).

Definition speaker_speak (text : string) (blocking : bool) : M Doubles bool :=
  zoom speaker (fun x a => mkDoubles (stt_calls a) (session a) x)
       (TextToSpeech.speak says fine text blocking).

(** A speech adapter that lets the error of its engine escape: the
    engine works for two utterances and fails from the third on. *)
Definition is_say (ev : Event) : bool :=
  match ev with EngineSay _ => true | _ => false end.

Definition raising_speak (text : string) (blocking : bool) : M Doubles bool :=
  extern (EngineSay text)
         (fun past =>
            if (2 <=? List.length (filter is_say past))%nat
            then Raised (OtherException "RuntimeError")
            else Ok true).

(** A wake word detector that starts and detects the wake word at
    every poll. *)
Definition always_awake : M Doubles bool := fun a tr => (Ok true, a, tr).

Definition no_interrupt : nat -> Trace -> bool := fun _ _ => false.

Definition doubles : VoiceAssistant.t Doubles :=
  VoiceAssistant.mk false true (mkDoubles 0 chatgpt tts).

(** A recogniser that hears a question in two segments. *)
Definition heard : Trace -> list Q -> string -> Result (list string) :=
  fun _ _ _ => Ok [" What time"; "is it? "].

(** Porcupine with frames of one sample, which reports the keyword in
    every frame; and Porcupine that cannot be created. *)
Definition porcupine
    : Trace -> string -> string -> Q -> Result WakeWordDetector.Porcupine :=
  fun _ _ _ _ => Ok (WakeWordDetector.mkPorcupine 16000 1).


Definition keyword : Trace -> list Z -> Result Z := fun _ _ => Ok 0.

Definition frame : Trace -> Z -> Result (list Byte.byte) :=
  fun _ _ => Ok loud_chunk.

(** A detector that has been started. *)
Definition listening : WakeWordDetector.t :=
  WakeWordDetector.mk "pv-key" "hey.ppn" (1 # 2)
                      (Some (WakeWordDetector.mkPorcupine 16000 1)) true true true.

Definition loads : Trace -> string -> string -> string -> Result unit :=
  fun _ _ _ _ => Ok tt.

(** An engine that accepts every change of a property, and offers two
    voices. *)
Definition sets {X} : Trace -> X -> Result unit := fun _ _ => Ok tt.

Definition two_voices : Trace -> Result (list string) :=
  fun _ => Ok ["david"; "zira"].

(** An interrupt in every round. *)
Definition ctrl_c : nat -> Trace -> bool := fun _ _ => true.

(** A console that prints every line, and one that cannot encode
    what it is given. *)
Definition prints : Trace -> string -> string -> Result unit :=
  fun _ _ _ => Ok tt.

Definition no_console : Trace -> string -> string -> Result unit :=
  fun _ _ _ => Raised (OtherException "UnicodeEncodeError").

End Fixtures.

(* ================================================================== *)
(** * Properties of the Python primitives *)
(* ================================================================== *)

Section PyFacts.

Lemma rstrip_keeps_visible_head (c : ascii) (s : string) :
  Py.isspace c = false -> Py.truthy (Py.rstrip (String c s)) = true.
Proof.
  intros Hc. simpl. destruct (Py.rstrip s); [rewrite Hc|]; reflexivity.
Qed.

(** [s.strip()] is empty exactly when [s] is empty or whitespace. *)
Lemma truthy_strip (s : string) :
  Py.truthy (Py.strip s) = negb (Spec.whitespace_only s).
Proof.
  unfold Py.strip, Spec.whitespace_only.
  induction s as [|c s IH]; [reflexivity|].
  cbn [Py.lstrip list_ascii_of_string forallb].
  destruct (Py.isspace c) eqn:Hc.
  - exact IH.
  - now rewrite rstrip_keeps_visible_head.
Qed.

Lemma slice_from_last {A} (k : Z) (l : list A) :
  0 < k -> Py.slice_from (- k) l = Spec.most_recent (Z.to_nat k) l.
Proof.
  intros Hk. unfold Py.slice_from, Spec.most_recent, Py.len.
  replace (- k <? 0) with true by (symmetry; apply Z.ltb_lt; lia).
  f_equal. lia.
Qed.

Lemma most_recent_all {A} (n : nat) (l : list A) :
  (List.length l <= n)%nat -> Spec.most_recent n l = l.
Proof.
  intros H. unfold Spec.most_recent.
  replace (List.length l - n)%nat with 0%nat by lia. reflexivity.
Qed.

Lemma most_recent_length {A} (n : nat) (l : list A) :
  List.length (Spec.most_recent n l) = Nat.min n (List.length l).
Proof. unfold Spec.most_recent. rewrite length_skipn. lia. Qed.

Lemma most_recent_app {A} (n : nat) (l m : list A) :
  Spec.most_recent n (Spec.most_recent n l ++ m) = Spec.most_recent n (l ++ m).
Proof.
  unfold Spec.most_recent.
  rewrite !length_app, length_skipn, !skipn_app, skipn_skipn, length_skipn.
  f_equal; f_equal; lia.
Qed.

End PyFacts.

(* ================================================================== *)
(** * Computations that never raise *)
(* ================================================================== *)

Ltac run_method :=
  cbv beta delta [bind try_except ret raise get modify extern log past zoom]
; cbn beta iota.

Section ExecFacts.

Context {S : Type}.

Lemma ret_never_raises {B} (b : B) : Spec.never_raises (@ret S B b).
Proof. intros s tr. now eexists _, _, _. Qed.

Lemma log_never_raises (level : Level) (msg : string) :
  Spec.never_raises (@log S level msg).
Proof. intros s tr. now eexists _, _, _. Qed.

Lemma bind_never_raises {B C} (c : M S B) (k : B -> M S C) :
  Spec.never_raises c -> (forall b, Spec.never_raises (k b)) ->
  Spec.never_raises (bind c k).
Proof.
  intros Hc Hk s tr. unfold bind.
  destruct (Hc s tr) as (b & s' & tr' & Heq). rewrite Heq. apply Hk.
Qed.

(** A [try] whose handler returns for every exception never raises. *)
Lemma try_except_never_raises {B} (c : M S B) (h : exn -> M S B) :
  (forall e, Spec.never_raises (h e)) -> Spec.never_raises (try_except c h).
Proof.
  intros Hh s tr. unfold try_except.
  destruct (c s tr) as [[[b|e] s'] tr']; [now eexists _, _, _|apply Hh].
Qed.

End ExecFacts.

Lemma zoom_never_raises {S T B} (proj : T -> S) (upd : S -> T -> T) (c : M S B) :
  Spec.never_raises c -> Spec.never_raises (zoom proj upd c).
Proof.
  intros Hc s tr. unfold zoom.
  destruct (Hc (proj s) tr) as (b & s' & tr' & Heq).
  rewrite Heq. now eexists _, _, _.
Qed.

(* ================================================================== *)
(** * The conversation session *)
(* ================================================================== *)

Section HistoryFacts.

Import ChatGPTClient.

Lemma partition_length (h : list Message) :
  List.length h =
  (List.length (Spec.system_msgs h) + List.length (Spec.non_system_msgs h))%nat.
Proof.
  unfold Spec.system_msgs, Spec.non_system_msgs.
  induction h as [|m h IH]; [reflexivity|].
  simpl. destruct (is_system m); simpl; lia.
Qed.

Lemma filter_none (f : Message -> bool) (l : list Message) :
  (forall m, In m l -> f m = false) -> filter f l = [].
Proof.
  induction l as [|m l IH]; intros H; [reflexivity|].
  simpl. rewrite (H m) by now left. apply IH. intros; apply H; now right.
Qed.

Lemma filter_all (f : Message -> bool) (l : list Message) :
  (forall m, In m l -> f m = true) -> filter f l = l.
Proof.
  induction l as [|m l IH]; intros H; [reflexivity|].
  simpl. rewrite (H m) by now left. f_equal. apply IH. intros; apply H; now right.
Qed.

Lemma system_msgs_app (a b : list Message) :
  Spec.system_msgs (a ++ b) = Spec.system_msgs a ++ Spec.system_msgs b.
Proof. apply filter_app. Qed.

Lemma non_system_msgs_app (a b : list Message) :
  Spec.non_system_msgs (a ++ b) = Spec.non_system_msgs a ++ Spec.non_system_msgs b.
Proof. apply filter_app. Qed.

Lemma system_msgs_only_system (h : list Message) :
  Spec.non_system_msgs (Spec.system_msgs h) = [].
Proof.
  apply filter_none. intros m Hm.
  apply filter_In in Hm as [_ Hm]. now rewrite Hm.
Qed.

Lemma system_msgs_idem (h : list Message) :
  Spec.system_msgs (Spec.system_msgs h) = Spec.system_msgs h.
Proof.
  apply filter_all. intros m Hm. now apply filter_In in Hm.
Qed.

Lemma in_most_recent {A} (n : nat) (l : list A) (x : A) :
  In x (Spec.most_recent n l) -> In x l.
Proof.
  unfold Spec.most_recent. intros H.
  rewrite <- (firstn_skipn (List.length l - n) l). apply in_or_app. now right.
Qed.

Lemma in_slice_from {A} (i : Z) (l : list A) (x : A) :
  In x (Py.slice_from i l) -> In x l.
Proof.
  unfold Py.slice_from. intros H.
  match type of H with In _ (skipn ?k _) =>
    rewrite <- (firstn_skipn k l); apply in_or_app; now right end.
Qed.

(** What [trim] computes, for every bound above the number of system
    messages. *)
Lemma trim_policy (H : Z) (h : list Message) :
  Z.of_nat (List.length (Spec.system_msgs h)) < H ->
  trim H h =
  if Py.len h >? H then
    Spec.system_msgs h ++
    Spec.most_recent (Z.to_nat H - List.length (Spec.system_msgs h))
                     (Spec.non_system_msgs h)
  else h.
Proof.
  intros Hlt. unfold trim.
  destruct (Py.len h >? H); [|reflexivity].
  fold (Spec.system_msgs h). fold (Spec.non_system_msgs h).
  rewrite slice_from_last by (unfold Py.len; lia).
  do 2 f_equal. unfold Py.len. lia.
Qed.

Lemma trim_within (H : Z) (h : list Message) :
  Py.len h <= H -> trim H h = h.
Proof.
  intros Hle. unfold trim.
  replace (Py.len h >? H) with false; [reflexivity|].
  symmetry. rewrite Z.gtb_ltb. apply Z.ltb_ge. exact Hle.
Qed.

Lemma trim_length (H : Z) (h : list Message) :
  Z.of_nat (List.length (Spec.system_msgs h)) < H ->
  Py.len (trim H h) <= H.
Proof.
  intros Hlt. rewrite trim_policy by exact Hlt.
  destruct (Py.len h >? H) eqn:Hgt.
  - unfold Py.len. rewrite length_app, most_recent_length. lia.
  - rewrite Z.gtb_ltb in Hgt. apply Z.ltb_ge in Hgt. lia.
Qed.

(** [trim] keeps every system message, whatever the bound. *)
Lemma trim_system_msgs (H : Z) (h : list Message) :
  Spec.system_msgs (trim H h) = Spec.system_msgs h.
Proof.
  unfold trim. destruct (Py.len h >? H); [|reflexivity].
  rewrite system_msgs_app. fold (Spec.system_msgs h).
  rewrite system_msgs_idem.
  unfold Spec.system_msgs at 2.
  rewrite filter_none; [apply app_nil_r|].
  intros m Hm. apply in_slice_from in Hm.
  apply filter_In in Hm as [_ Hm]. now destruct (is_system m).
Qed.

End HistoryFacts.

Section SessionFacts.

Import ChatGPTClient.

Variable create : Trace -> ChatRequest -> Result (list (option string)).

Lemma send_message_blank (user_message : string) (self : t) (tr : Trace) :
  Spec.whitespace_only user_message = true ->
  send_message create user_message self tr =
  (Ok None, self, tr ++ [Log WARNING "Empty message, skipping API call"]).
Proof.
  intros Hblank. unfold send_message.
  rewrite truthy_strip, Hblank. reflexivity.
Qed.

Lemma send_message_raised (user_message : string) (self : t) (tr : Trace) (e : exn) :
  Spec.whitespace_only user_message = false ->
  create tr (Spec.request_for self user_message) = Raised e ->
  send_message create user_message self tr =
  (Ok (Some (Spec.fallback (Spec.classify e))),
   append (mkMessage "user" user_message) self,
   tr ++ [ChatCompletion (Spec.request_for self user_message);
          Log ERROR (Spec.error_line (Spec.classify e))]).
Proof.
  intros Hvisible Hcreate. unfold send_message.
  rewrite truthy_strip, Hvisible. cbn [negb]. run_method.
  change (mkChatRequest _ _ _ _ _) with (Spec.request_for self user_message).
  rewrite Hcreate.
  destruct e; run_method; rewrite <- app_assoc; reflexivity.
Qed.

Lemma send_message_malformed (user_message : string) (self : t) (tr : Trace)
    (choices : list (option string)) :
  Spec.whitespace_only user_message = false ->
  create tr (Spec.request_for self user_message) = Ok choices ->
  hd None choices = None ->
  send_message create user_message self tr =
  (Ok (Some (Spec.fallback Spec.Unknown)),
   append (mkMessage "user" user_message) self,
   tr ++ [ChatCompletion (Spec.request_for self user_message);
          Log ERROR "Unexpected error: "]).
Proof.
  intros Hvisible Hcreate Hhd. unfold send_message.
  rewrite truthy_strip, Hvisible. cbn [negb]. run_method.
  change (mkChatRequest _ _ _ _ _) with (Spec.request_for self user_message).
  rewrite Hcreate.
  destruct choices as [|[text|] rest]; try discriminate;
    unfold first_choice_text; run_method; rewrite <- app_assoc; reflexivity.
Qed.

Lemma send_message_answered (user_message : string) (self : t) (tr : Trace)
    (text : string) (rest : list (option string)) :
  Spec.whitespace_only user_message = false ->
  create tr (Spec.request_for self user_message) = Ok (Some text :: rest) ->
  send_message create user_message self tr =
  (Ok (Some (Py.strip text)),
   set_history
     (trim Config.MAX_CONVERSATION_HISTORY
           (conversation_history self ++
            [mkMessage "user" user_message; mkMessage "assistant" (Py.strip text)]))
     self,
   tr ++ [ChatCompletion (Spec.request_for self user_message)]).
Proof.
  intros Hvisible Hcreate. unfold send_message.
  rewrite truthy_strip, Hvisible. cbn [negb]. run_method.
  change (mkChatRequest _ _ _ _ _) with (Spec.request_for self user_message).
  rewrite Hcreate. unfold first_choice_text, _trim_history. run_method.
  unfold append, set_history. cbn. now rewrite <- app_assoc.
Qed.

End SessionFacts.

Section InvariantFacts.

Import ChatGPTClient.

Lemma no_system_well_formed (l : list Message) :
  (forall m, In m l -> is_system m = false) -> Spec.well_formed l.
Proof.
  intros H m Hm. apply H. destruct l; [contradiction|now right].
Qed.

Lemma non_system_msgs_clean (h : list Message) (m : Message) :
  In m (Spec.non_system_msgs h) -> is_system m = false.
Proof.
  intros Hm. apply filter_In in Hm as [_ Hm]. now destruct (is_system m).
Qed.

(** The invariant says that the history is its system messages, at
    most one, followed by its other messages. *)
Lemma well_formed_split (h : list Message) :
  Spec.well_formed h <->
  (List.length (Spec.system_msgs h) <= 1)%nat /\
  h = Spec.system_msgs h ++ Spec.non_system_msgs h.
Proof.
  unfold Spec.well_formed, Spec.system_msgs, Spec.non_system_msgs.
  destruct h as [|m rest]; [simpl; intuition|].
  cbn [tl filter]. split.
  - intros Hrest.
    rewrite (filter_none is_system rest) by exact Hrest.
    rewrite (filter_all (fun msg => negb (is_system msg)) rest)
      by (intros x Hx; now rewrite Hrest).
    destruct (is_system m); simpl; auto.
  - intros [Hlen Heq] x Hx.
    destruct (is_system m) eqn:Hm; cbn [negb app List.length] in *.
    + destruct (filter is_system rest) as [|y ys] eqn:Hf; [|simpl in Hlen; lia].
      destruct (is_system x) eqn:Hsx; [|reflexivity].
      assert (In x (filter is_system rest)) by (apply filter_In; auto).
      rewrite Hf in H. contradiction.
    + destruct (filter is_system rest) as [|y ys] eqn:Hf.
      * destruct (is_system x) eqn:Hsx; [|reflexivity].
        assert (In x (filter is_system rest)) by (apply filter_In; auto).
        rewrite Hf in H. contradiction.
      * simpl in Heq. injection Heq as Hy _.
        assert (In y (filter is_system rest)) by (rewrite Hf; now left).
        apply filter_In in H as [_ Hsy]. congruence.
Qed.

Lemma well_formed_system_first (h l : list Message) :
  Spec.well_formed h ->
  (forall m, In m l -> is_system m = false) ->
  Spec.well_formed (Spec.system_msgs h ++ l).
Proof.
  intros Hwf Hl.
  apply well_formed_split in Hwf as [Hlen _].
  destruct (Spec.system_msgs h) as [|s [|s' ss]]; simpl in *; try lia.
  - now apply no_system_well_formed.
  - intros m Hm. now apply Hl.
Qed.

Lemma well_formed_app (h l : list Message) :
  Spec.well_formed h ->
  (forall m, In m l -> is_system m = false) ->
  Spec.well_formed (h ++ l).
Proof.
  intros Hwf Hl. destruct h as [|m rest]; simpl.
  - now apply no_system_well_formed.
  - intros x Hx. simpl in Hx. apply in_app_or in Hx as [Hx|Hx]; auto.
Qed.

Lemma trim_well_formed (H : Z) (h : list Message) :
  Spec.well_formed h -> Spec.well_formed (trim H h).
Proof.
  intros Hwf. unfold trim. destruct (Py.len h >? H); [|exact Hwf].
  apply (well_formed_system_first h); [exact Hwf|].
  intros m Hm. apply in_slice_from in Hm.
  now apply non_system_msgs_clean in Hm.
Qed.

(** The messages that [trim] keeps besides the system messages are
    the most recent of those it was given, in the same order. *)
Lemma trim_non_system_suffix (H : Z) (h : list Message) :
  exists dropped,
    Spec.non_system_msgs h = dropped ++ Spec.non_system_msgs (trim H h).
Proof.
  unfold trim. destruct (Py.len h >? H); [|now exists []].
  rewrite non_system_msgs_app. fold (Spec.system_msgs h).
  rewrite system_msgs_only_system. cbn [app].
  fold (Spec.non_system_msgs h).
  unfold Py.slice_from.
  set (k := Z.to_nat _).
  exists (firstn k (Spec.non_system_msgs h)).
  unfold Spec.non_system_msgs at 3.
  rewrite filter_all.
  - symmetry. apply firstn_skipn.
  - intros m Hm.
    assert (In m (Spec.non_system_msgs h)) as Hin
      by (rewrite <- (firstn_skipn k); apply in_or_app; now right).
    apply non_system_msgs_clean in Hin. now rewrite Hin.
Qed.

End InvariantFacts.

Section SessionClaims.

Import ChatGPTClient.

Variable create : Trace -> ChatRequest -> Result (list (option string)).

(** C7.  For an empty or whitespace-only [user_message],
    [send_message] returns [None], leaves the client (its history in
    particular) as it was, and issues no request to the remote
    service: the only thing it adds to the trace is a warning. *)
Theorem send_message_rejects_blank_input
    (user_message : string) (self : t) (tr : Trace) :
  Spec.whitespace_only user_message = true ->
  let out := send_message create user_message self tr in
  result_of out = Ok None /\
  state_of out = self /\
  conversation_history (state_of out) = conversation_history self /\
  trace_of out = tr ++ [Log WARNING "Empty message, skipping API call"] /\
  (forall r, In (ChatCompletion r) (trace_of out) -> In (ChatCompletion r) tr).
Proof.
  intros Hblank out. subst out.
  rewrite send_message_blank by exact Hblank.
  cbn [result_of state_of trace_of fst snd].
  repeat split.
  intros r Hr. apply in_app_or in Hr as [Hr|[Hr|[]]]; [exact Hr|discriminate].
Qed.

Lemma fallback_injective (c1 c2 : Spec.Category) :
  Spec.fallback c1 = Spec.fallback c2 -> c1 = c2.
Proof. destruct c1, c2; simpl; intros H; (reflexivity || discriminate H). Qed.

(** C2.  When the remote call raises for a non-blank [user_message],
    [send_message] returns the fallback sentence of the failure's
    category; the history is the old one followed by the user message
    only, so no assistant message is appended; and the sentences of
    different categories differ, in particular those for the rate
    limit and for the connection. *)
Theorem send_message_failure_fallback
    (user_message : string) (self : t) (tr : Trace) (e : exn) :
  Spec.whitespace_only user_message = false ->
  create tr (Spec.request_for self user_message) = Raised e ->
  let out := send_message create user_message self tr in
  result_of out = Ok (Some (Spec.fallback (Spec.classify e))) /\
  conversation_history (state_of out) =
    conversation_history self ++ [mkMessage "user" user_message] /\
  last (conversation_history (state_of out)) (mkMessage "" "") =
    mkMessage "user" user_message /\
  (forall c1 c2, Spec.fallback c1 = Spec.fallback c2 -> c1 = c2) /\
  Spec.fallback Spec.RateLimited <> Spec.fallback Spec.ConnectionFailed.
Proof.
  intros Hvisible Hcreate out. subst out.
  rewrite (send_message_raised create user_message self tr e) by assumption.
  cbn [result_of state_of trace_of fst snd append set_history conversation_history].
  repeat split.
  - apply last_last.
  - exact fallback_injective.
  - discriminate.
Qed.

(** C10.  For a non-blank [user_message], [send_message] returns a
    string and never [None], whatever the remote call does: a raised
    exception of any class gives the fallback sentence of its
    category, a response without a usable first choice gives the
    sentence for unknown failures, and any other response gives its
    stripped text.  So [None] is returned for blank input only. *)
Theorem send_message_null_only_for_blank_input
    (user_message : string) (self : t) (tr : Trace) :
  Spec.whitespace_only user_message = false ->
  let out := send_message create user_message self tr in
  (exists reply, result_of out = Ok (Some reply)) /\
  (forall e, create tr (Spec.request_for self user_message) = Raised e ->
             result_of out = Ok (Some (Spec.fallback (Spec.classify e)))).
Proof.
  intros Hvisible out. subst out. split.
  - destruct (create tr (Spec.request_for self user_message))
      as [[|[text|] rest]|e] eqn:Hcreate.
    + erewrite send_message_malformed by eauto. now eexists.
    + erewrite send_message_answered by eauto. now eexists.
    + erewrite send_message_malformed by eauto. now eexists.
    + erewrite send_message_raised by eauto. now eexists.
  - intros e Hcreate. now erewrite send_message_raised by eauto.
Qed.

Lemma sum_of_lengths (h : list Message) (acc : Z) :
  fold_left (fun acc msg => acc + Py.strlen (content msg)) h acc =
  acc + Z.of_nat (Spec.total_characters h).
Proof.
  revert acc. unfold Spec.total_characters, Py.strlen.
  induction h as [|m h IH]; intros acc; simpl.
  - lia.
  - rewrite IH. lia.
Qed.

(** C9.  [get_token_usage_estimate] returns the sum of the character
    lengths of all message contents, integer-divided by 4, and
    changes nothing; contents that total 400 characters give exactly
    100. *)
Theorem token_estimate_is_total_characters_div_4 (self : t) (tr : Trace) :
  get_token_usage_estimate self tr =
    (Ok (Z.of_nat (Spec.total_characters (conversation_history self)) / 4), self, tr) /\
  (Spec.total_characters (conversation_history self) = 400%nat ->
   get_token_usage_estimate self tr = (Ok 100, self, tr)).
Proof.
  assert (get_token_usage_estimate self tr =
          (Ok (Z.of_nat (Spec.total_characters (conversation_history self)) / 4),
           self, tr)) as Heq.
  { unfold get_token_usage_estimate. run_method.
    rewrite sum_of_lengths. reflexivity. }
  split; [exact Heq|].
  intros H400. rewrite Heq, H400. reflexivity.
Qed.

End SessionClaims.

Section TrimmingClaim.

Import ChatGPTClient.

Variable create : Trace -> ChatRequest -> Result (list (option string)).

Lemma set_history_same (self : t) :
  set_history (conversation_history self) self = self.
Proof. now destruct self. Qed.

Lemma system_then_others (sys : Message) (l : list Message) :
  is_system sys = true ->
  (forall m, In m l -> is_system m = false) ->
  Spec.system_msgs (sys :: l) = [sys] /\ Spec.non_system_msgs (sys :: l) = l.
Proof.
  intros Hsys Hl. unfold Spec.system_msgs, Spec.non_system_msgs.
  cbn [filter]. rewrite Hsys. cbn [negb]. split.
  - f_equal. now apply filter_none.
  - apply filter_all. intros m Hm. now rewrite Hl.
Qed.

(** One more exchange slides the window of nine by two. *)
Lemma window_step (sys : Message) (prev new : list Message) :
  is_system sys = true ->
  (forall m, In m prev -> is_system m = false) ->
  (forall m, In m new -> is_system m = false) ->
  trim Config.MAX_CONVERSATION_HISTORY ((sys :: Spec.most_recent 9 prev) ++ new) =
  sys :: Spec.most_recent 9 (prev ++ new).
Proof.
  intros Hsys Hprev Hnew.
  cbn [app].
  assert (forall m, In m (Spec.most_recent 9 prev ++ new) -> is_system m = false)
    as Hclean.
  { intros m Hm. apply in_app_or in Hm as [Hm|Hm]; auto.
    apply Hprev. now apply in_most_recent in Hm. }
  destruct (system_then_others sys _ Hsys Hclean) as [Hs Ho].
  rewrite trim_policy by (rewrite Hs; reflexivity).
  rewrite Hs, Ho.
  destruct (Py.len _ >? _) eqn:Hlen.
  - cbn [app List.length]. change (Z.to_nat Config.MAX_CONVERSATION_HISTORY - 1)%nat with 9%nat.
    now rewrite most_recent_app.
  - rewrite Z.gtb_ltb in Hlen. apply Z.ltb_ge in Hlen.
    unfold Py.len, Config.MAX_CONVERSATION_HISTORY in Hlen.
    cbn [List.length] in Hlen. rewrite length_app, most_recent_length in Hlen.
    f_equal. rewrite <- most_recent_app.
    rewrite (most_recent_all 9 (Spec.most_recent 9 prev ++ new)); [reflexivity|].
    rewrite length_app, most_recent_length. lia.
Qed.

(** Exchanges that the service answers keep the history at the system
    message followed by the nine most recent messages. *)
Lemma exchanges_window (sys : Message) (users : list string) :
  is_system sys = true ->
  (forall u, In u users -> Spec.whitespace_only u = false) ->
  (forall past req, exists text rest, create past req = Ok (Some text :: rest)) ->
  forall (prev : list Message) (self : t) (tr : Trace),
    (forall m, In m prev -> is_system m = false) ->
    conversation_history self = sys :: Spec.most_recent 9 prev ->
    exists replies self' tr',
      send_all create users self tr = (Ok (map Some replies), self', tr') /\
      List.length replies = List.length users /\
      conversation_history self' =
        sys :: Spec.most_recent 9 (prev ++ Spec.exchanges users replies).
Proof.
  intros Hsys Hvisible Hanswers.
  induction users as [|u users IH]; intros prev self tr Hprev Hhist.
  - exists [], self, tr. rewrite app_nil_r. auto.
  - destruct (Hanswers tr (Spec.request_for self u)) as (text & rest & Hcreate).
    assert (Spec.whitespace_only u = false) as Hu by (apply Hvisible; now left).
    pose proof (send_message_answered create u self tr text rest Hu Hcreate) as Hsend.
    set (new := [mkMessage "user" u; mkMessage "assistant" (Py.strip text)]) in *.
    assert (forall m, In m new -> is_system m = false) as Hnew.
    { intros m [<-|[<-|[]]]; reflexivity. }
    rewrite Hhist, (window_step sys prev new Hsys Hprev Hnew) in Hsend.
    match type of Hsend with _ = (_, ?s, ?t) =>
      destruct (IH (fun x Hx => Hvisible x (or_intror Hx)) (prev ++ new) s t)
        as (replies & self' & tr' & Hall & Hlen & Hfinal) end.
    + intros m Hm. apply in_app_or in Hm as [Hm|Hm]; auto.
    + reflexivity.
    + exists (Py.strip text :: replies), self', tr'.
      cbn [send_all]. unfold bind at 1. rewrite Hsend.
      unfold bind at 1. rewrite Hall. unfold ret.
      cbn [map List.length Spec.exchanges]. repeat split.
      * now rewrite Hlen.
      * rewrite Hfinal. unfold new. now rewrite <- app_assoc.
Qed.

(** C1.  [_trim_history], for a history [h] with at most one system
    message and the configured bound [H], which is ten: when [h] has
    more than [H] messages, the history becomes the system message (if
    any) followed by the most recent [H] minus one (with a system
    message) or [H] (without) other messages, in their order; when [h]
    is within the bound, nothing changes, so trimming again changes
    nothing.  The same holds for every other bound above the number of
    system messages.  In particular fifteen answered exchanges after a
    system prompt leave ten messages: the system message, then the nine
    most recent. *)
Theorem trim_history_keeps_system_and_most_recent (self : t) (tr : Trace) :
  let h := conversation_history self in
  let H := Config.MAX_CONVERSATION_HISTORY in
  (List.length (Spec.system_msgs h) <= 1)%nat ->
  let out := _trim_history self tr in
  result_of out = Ok tt /\ trace_of out = tr /\
  (Py.len h > H ->
   conversation_history (state_of out) =
     Spec.system_msgs h ++
     Spec.most_recent (Z.to_nat H - List.length (Spec.system_msgs h))
                      (Spec.non_system_msgs h)) /\
  (Py.len h <= H -> state_of out = self) /\
  _trim_history (state_of out) (trace_of out) = out /\
  H = 10 /\
  (forall H' : Z,
     Z.of_nat (List.length (Spec.system_msgs h)) < H' ->
     trim H' h =
       (if Py.len h >? H' then
          Spec.system_msgs h ++
          Spec.most_recent (Z.to_nat H' - List.length (Spec.system_msgs h))
                           (Spec.non_system_msgs h)
        else h) /\
     trim H' (trim H' h) = trim H' h) /\
  (forall (key model_id prompt : string) (limit : Z) (temp : Q)
          (users : list string) (tr0 : Trace),
     Py.truthy prompt = true ->
     List.length users = 15%nat ->
     (forall u, In u users -> Spec.whitespace_only u = false) ->
     (forall past req, exists text rest, create past req = Ok (Some text :: rest)) ->
     exists replies,
       let run := send_all create users
                           (__init__ key model_id limit temp (Some prompt)) tr0 in
       result_of run = Ok (map Some replies) /\
       List.length replies = 15%nat /\
       conversation_history (state_of run) =
         mkMessage "system" prompt ::
         Spec.most_recent 9 (Spec.exchanges users replies) /\
       List.length (conversation_history (state_of run)) = 10%nat).
Proof.
  intros h H Hone out.
  assert (Z.of_nat (List.length (Spec.system_msgs h)) < H) as Hlt
    by (unfold H, Config.MAX_CONVERSATION_HISTORY; lia).
  assert (out = (Ok tt, set_history (trim H h) self, tr)) as Hout by reflexivity.
  rewrite Hout. cbn [result_of state_of trace_of fst snd].
  split; [reflexivity|]. split; [reflexivity|].
  split; [|split; [|split; [|split; [|split]]]].
  - intros Hgt. cbn [set_history conversation_history].
    rewrite trim_policy by exact Hlt.
    replace (Py.len h >? H) with true; [reflexivity|].
    symmetry. rewrite Z.gtb_ltb. apply Z.ltb_lt. lia.
  - intros Hle. rewrite trim_within by exact Hle. apply set_history_same.
  - unfold _trim_history, modify. cbn [set_history conversation_history].
    fold H. rewrite (trim_within H (trim H h)); [reflexivity|].
    now apply trim_length.
  - reflexivity.
  - intros H' Hlt'. split; [now apply trim_policy|].
    apply trim_within. now apply trim_length.
  - intros key model_id prompt limit temp users tr0 Hprompt Hlen Hvisible Hanswers.
    destruct (exchanges_window (mkMessage "system" prompt) users eq_refl
                Hvisible Hanswers []
                (__init__ key model_id limit temp (Some prompt)) tr0)
      as (replies & self' & tr' & Hall & Hreplies & Hfinal).
    + intros m [].
    + unfold __init__. rewrite Hprompt. reflexivity.
    + exists replies. rewrite Hall. cbn [result_of state_of fst snd].
      rewrite Hfinal. cbn [app]. repeat split; [congruence|].
      cbn [List.length]. rewrite most_recent_length. f_equal.
      assert (List.length (Spec.exchanges users replies) = 30%nat) as ->; [|reflexivity].
      clear - Hreplies Hlen.
      assert (forall us rs, List.length rs = List.length us ->
                List.length (Spec.exchanges us rs) = (2 * List.length us)%nat) as Hex.
      { induction us as [|u us IH]; intros [|r rs] Hl; simpl in *; try lia.
        rewrite IH by lia. lia. }
      rewrite Hex by exact Hreplies. lia.
Qed.

(** Outside the theorem above: a bound equal to the number of system
    messages makes the slice start at [-0], which Python reads as the
    start of the list, so nothing is dropped. *)
Remark trim_at_bound_of_system_count :
  trim 1 [mkMessage "system" "s"; mkMessage "user" "u"; mkMessage "assistant" "a"] =
  [mkMessage "system" "s"; mkMessage "user" "u"; mkMessage "assistant" "a"].
Proof. reflexivity. Qed.

End TrimmingClaim.

Section InvariantClaim.

Import ChatGPTClient.

Variable create : Trace -> ChatRequest -> Result (list (option string)).

Lemma keeps_invariant_append (h new : list Message) :
  Spec.well_formed h ->
  (forall m, In m new -> is_system m = false) ->
  Spec.keeps_invariant h new (h ++ new).
Proof.
  intros Hwf Hnew. split; [|split].
  - now apply well_formed_app.
  - rewrite system_msgs_app. unfold Spec.system_msgs at 2.
    rewrite filter_none by exact Hnew. apply app_nil_r.
  - exists []. rewrite non_system_msgs_app. cbn [app]. f_equal.
    symmetry. apply filter_all. intros m Hm. now rewrite Hnew.
Qed.

Lemma keeps_invariant_trim (H : Z) (h0 appended h : list Message) :
  Spec.keeps_invariant h0 appended h -> Spec.keeps_invariant h0 appended (trim H h).
Proof.
  intros (Hwf & Hsys & dropped & Hothers). split; [|split].
  - now apply trim_well_formed.
  - now rewrite trim_system_msgs.
  - destruct (trim_non_system_suffix H h) as (dropped' & Hd).
    exists (dropped ++ dropped'). now rewrite Hothers, Hd, app_assoc.
Qed.

(** C3.  From a well-formed history (at most one system message,
    first when present), [send_message], [_trim_history] and
    [reset_conversation] each lead to a well-formed history with the
    same system messages, so trimming never removes the system
    message; and the other messages of the result are the most recent
    of the old ones, followed by what the operation appended (the user
    message, then the reply), in insertion order.  A reset keeps the
    system messages only. *)
Theorem session_operations_preserve_history_invariant (self : t) (tr : Trace) :
  let h := conversation_history self in
  Spec.well_formed h ->
  (forall user_message,
     let h' := conversation_history
                 (state_of (send_message create user_message self tr)) in
     exists appended,
       Spec.keeps_invariant h appended h' /\
       (appended = [] \/
        appended = [mkMessage "user" user_message] \/
        exists reply, appended = [mkMessage "user" user_message;
                                  mkMessage "assistant" reply])) /\
  Spec.keeps_invariant h [] (conversation_history (state_of (_trim_history self tr))) /\
  (let h' := conversation_history (state_of (reset_conversation self tr)) in
   Spec.well_formed h' /\ h' = Spec.system_msgs h /\
   Spec.system_msgs h' = Spec.system_msgs h).
Proof.
  intros h Hwf. split; [|split].
  - intros user_message h'. subst h'.
    destruct (Spec.whitespace_only user_message) eqn:Hblank.
    { rewrite send_message_blank by exact Hblank.
      exists []. split; [|now left].
      rewrite <- (app_nil_r (conversation_history _)).
      apply keeps_invariant_append; [exact Hwf|intros m []]. }
    assert (forall m, In m [mkMessage "user" user_message] -> is_system m = false)
      as Huser by (intros m [<-|[]]; reflexivity).
    destruct (create tr (Spec.request_for self user_message))
      as [[|[text|] rest]|e] eqn:Hcreate.
    + erewrite send_message_malformed by eauto.
      exists [mkMessage "user" user_message]. split; [|now right; left].
      now apply keeps_invariant_append.
    + erewrite send_message_answered by eauto.
      eexists. split; [|right; right; now eexists].
      apply keeps_invariant_trim, keeps_invariant_append; [exact Hwf|].
      intros m [<-|[<-|[]]]; reflexivity.
    + erewrite send_message_malformed by eauto.
      exists [mkMessage "user" user_message]. split; [|now right; left].
      now apply keeps_invariant_append.
    + erewrite send_message_raised by eauto.
      exists [mkMessage "user" user_message]. split; [|now right; left].
      now apply keeps_invariant_append.
  - change (Spec.keeps_invariant h [] (trim Config.MAX_CONVERSATION_HISTORY h)).
    apply keeps_invariant_trim.
    pose proof (keeps_invariant_append h [] Hwf) as Hkeep.
    rewrite app_nil_r in Hkeep. apply Hkeep. intros m [].
  - change (conversation_history (state_of (reset_conversation self tr)))
      with (Spec.system_msgs h).
    cbv zeta. split; [|split].
    + pose proof (well_formed_system_first h [] Hwf) as Hfirst.
      rewrite app_nil_r in Hfirst. apply Hfirst. intros m [].
    + reflexivity.
    + apply system_msgs_idem.
Qed.

End InvariantClaim.

(* ================================================================== *)
(** * Audio capture *)
(* ================================================================== *)

Section CaptureFacts.

Import SpeechToText.

Variable stream_read : Trace -> Z -> Result (list Byte.byte).
Variables chunk_size silence_threshold max_silent_chunks : Z.

Let loop := capture_loop stream_read chunk_size silence_threshold max_silent_chunks.

(** A failing read ends the loop at once: one read was attempted, the
    error is logged, and the locals are what they were. *)
Lemma capture_loop_read_failure (n : nat) (st : Capture) (self : t) (tr : Trace)
    (e : exn) :
  stream_read tr chunk_size = Raised e ->
  loop (S n) st self tr =
  (Ok st, self, tr ++ [StreamRead chunk_size; Log ERROR "Error reading audio chunk: "]).
Proof.
  intros Hread. unfold loop. cbn [capture_loop]. run_method.
  rewrite Hread. run_method. now rewrite <- app_assoc.
Qed.

(** As long as the device delivers only chunks that do not exceed the
    threshold, the loop ends without speech. *)
Lemma capture_loop_silent (n : nat) :
  forall (st : Capture) (self : t) (tr : Trace),
    (forall later data samples,
       stream_read (tr ++ later) chunk_size = Ok data ->
       frombuffer data = Some samples ->
       amplitude_exceeds silence_threshold samples = false) ->
    has_speech st = false ->
    exists st' tr',
      loop n st self tr = (Ok st', self, tr') /\ has_speech st' = false.
Proof.
  unfold loop.
  induction n as [|n IH]; intros st self tr Hsilent Hst.
  - exists st, tr. now split.
  - cbn [capture_loop]. run_method.
    destruct (stream_read tr chunk_size) as [data|e] eqn:Hread; run_method.
    + destruct (frombuffer data) as [samples|] eqn:Hdata; run_method.
      * rewrite (Hsilent [] data samples), Hst;
          [|rewrite app_nil_r; exact Hread|exact Hdata].
        cbn [has_speech andb].
        apply IH; [|reflexivity].
        intros later. rewrite <- app_assoc. apply Hsilent.
      * eexists _, _. split; [reflexivity|exact Hst].
    + eexists _, _. split; [reflexivity|exact Hst].
Qed.

(** The loop always returns; it only adds chunks, and it has seen
    speech exactly when it had before or one of the chunks it added
    exceeds the threshold. *)
Lemma capture_loop_speech (n : nat) :
  forall (st : Capture) (self : t) (tr : Trace),
    exists st' tr' added,
      loop n st self tr = (Ok st', self, tr') /\
      frames st' = frames st ++ added /\
      has_speech st' =
        has_speech st || existsb (Spec.chunk_exceeds silence_threshold) added.
Proof.
  unfold loop.
  induction n as [|n IH]; intros st self tr.
  - exists st, tr, []. rewrite app_nil_r, orb_false_r. auto.
  - cbn [capture_loop]. run_method.
    destruct (stream_read tr chunk_size) as [data|e] eqn:Hread; run_method.
    2:{ eexists _, _, []. rewrite app_nil_r, orb_false_r. auto. }
    destruct (frombuffer data) as [samples|] eqn:Hdata; run_method.
    2:{ eexists _, _, [data]. cbn [frames has_speech existsb].
        unfold Spec.chunk_exceeds. rewrite Hdata, !orb_false_r. auto. }
    assert (Spec.chunk_exceeds silence_threshold data =
            amplitude_exceeds silence_threshold samples) as Hloud
      by (unfold Spec.chunk_exceeds; now rewrite Hdata).
    destruct (amplitude_exceeds silence_threshold samples);
    [|destruct (has_speech st) eqn:Hst];
    cbn [has_speech silent_chunks frames andb];
    try match goal with |- context [?a >? ?b] => destruct (a >? b) end;
    cbn beta iota;
    first
      [ eexists _, _, [data]; split; [reflexivity|];
        cbn [frames has_speech existsb]; rewrite Hloud, ?Hst;
        cbn [orb]; rewrite ?orb_true_r, ?orb_false_r; now split
      | match goal with |- context [capture_loop _ _ _ _ n ?st2 self ?t] =>
          destruct (IH st2 self t) as (st' & tr' & added & Hloop & Hframes & Hspeech)
        end;
        exists st', tr', (data :: added);
        split; [exact Hloop|];
        rewrite Hframes, Hspeech; cbn [frames has_speech existsb];
        rewrite Hloud, <- ?app_assoc, ?Hst;
        cbn [orb]; rewrite ?orb_true_r, ?orb_false_r; now split ].
Qed.

End CaptureFacts.

Section CaptureClaims.

Import SpeechToText.

Variable pyaudio_new : Trace -> Result unit.
Variable stream_open : Trace -> Z -> Z -> Result unit.
Variable stream_read : Trace -> Z -> Result (list Byte.byte).
Variable stream_stop : Trace -> Result unit.
Variable stream_close : Trace -> Result unit.
Variable pyaudio_terminate : Trace -> Result unit.

Let record :=
  record_audio pyaudio_new stream_open stream_read stream_stop stream_close
               pyaudio_terminate.

(** C8.  When no chunk that the device delivers during a recording
    has a mean absolute amplitude above the silence threshold,
    [record_audio] returns [None], whatever else happens (a read that
    fails, a chunk that cannot be decoded, a device that cannot be
    opened or closed): never a buffer, empty or silent. *)
Theorem record_audio_silence_yields_none
    (sample_rate chunk_size silence_threshold : Z) (silence_duration : Q)
    (max_duration : Z) (self : t) (tr : Trace) :
  (forall later data samples,
     stream_read (tr ++ later) chunk_size = Ok data ->
     frombuffer data = Some samples ->
     amplitude_exceeds silence_threshold samples = false) ->
  result_of (record sample_rate chunk_size silence_threshold silence_duration
                    max_duration self tr) = Ok None.
Proof.
  intros Hsilent. unfold record, record_audio. run_method.
  destruct (pyaudio_new tr) as [[]|e]; [|reflexivity].
  destruct (stream_open _ _ _) as [[]|e]; [|reflexivity].
  unfold lift_option.
  destruct (chunks_in silence_duration _ _) as [max_silent_chunks|]; [|reflexivity].
  destruct (chunks_in (inject_Z max_duration) _ _) as [max_chunks|]; [|reflexivity].
  run_method.
  match goal with |- context [capture_loop _ _ _ _ ?n ?st ?s ?t] =>
    destruct (capture_loop_silent stream_read chunk_size silence_threshold
                max_silent_chunks n st s t) as (st' & tr' & Hloop & Hspeech)
  end.
  - intros later. rewrite <- !app_assoc. apply Hsilent.
  - reflexivity.
  - rewrite Hloop.
    destruct (stream_stop _) as [[]|e]; [|reflexivity].
    destruct (stream_close _) as [[]|e]; [|reflexivity].
    destruct (pyaudio_terminate _) as [[]|e]; [|reflexivity].
    rewrite Hspeech. reflexivity.
Qed.

(** C5, as the code has it.  A read that fails ends the capture loop
    at once: no second read is attempted, the error is logged, and
    the chunks captured so far and the speech flag stay as they are.
    When the device then closes without error, [record_audio] returns
    [None] if none of the captured chunks exceeds the threshold, and
    otherwise the captured chunks, normalised, as its utterance. *)
Theorem read_failure_ends_capture_with_what_was_recorded
    (sample_rate chunk_size silence_threshold : Z) (silence_duration : Q)
    (max_duration : Z) :
  (forall max_silent_chunks n st self tr e,
     stream_read tr chunk_size = Raised e ->
     capture_loop stream_read chunk_size silence_threshold max_silent_chunks
                  (S n) st self tr =
     (Ok st, self,
      tr ++ [StreamRead chunk_size; Log ERROR "Error reading audio chunk: "])) /\
  (forall self tr max_silent_chunks max_chunks st self' tr',
     pyaudio_new tr = Ok tt ->
     stream_open (tr ++ [PyAudioNew]) sample_rate chunk_size = Ok tt ->
     chunks_in silence_duration sample_rate chunk_size = Some max_silent_chunks ->
     chunks_in (inject_Z max_duration) sample_rate chunk_size = Some max_chunks ->
     capture_loop stream_read chunk_size silence_threshold max_silent_chunks
                  (Z.to_nat max_chunks) (mkCapture [] 0 false)
                  (set_pyaudio_instance true self)
                  (tr ++ [PyAudioNew; StreamOpen sample_rate chunk_size]) =
     (Ok st, self', tr') ->
     stream_stop tr' = Ok tt ->
     stream_close (tr' ++ [StreamStop]) = Ok tt ->
     pyaudio_terminate (tr' ++ [StreamStop; StreamClose]) = Ok tt ->
     result_of (record sample_rate chunk_size silence_threshold silence_duration
                       max_duration self tr) =
     Ok (if existsb (Spec.chunk_exceeds silence_threshold) (frames st) then
           option_map (map (fun x => x # 32768))
                      (frombuffer (List.concat (frames st)))
         else None)).
Proof.
  split.
  - intros max_silent_chunks n st self tr e Hread.
    now apply capture_loop_read_failure with (e := e).
  - intros self tr max_silent_chunks max_chunks st self' tr'
           Hnew Hopen Hsilent Hmax Hloop Hstop Hclose Hterm.
    destruct (capture_loop_speech stream_read chunk_size silence_threshold
                max_silent_chunks (Z.to_nat max_chunks) (mkCapture [] 0 false)
                (set_pyaudio_instance true self)
                (tr ++ [PyAudioNew; StreamOpen sample_rate chunk_size]))
      as (st0 & tr0 & added & Hloop0 & Hframes & Hspeech).
    rewrite Hloop in Hloop0. injection Hloop0 as <- _ _.
    cbn [frames has_speech app orb] in Hframes, Hspeech.
    rewrite <- Hframes in Hspeech. rewrite <- Hspeech.
    unfold record, record_audio. run_method.
    rewrite Hnew, Hopen. unfold lift_option. rewrite Hsilent, Hmax. run_method.
    rewrite <- app_assoc. cbn [app]. rewrite Hloop, Hstop, Hclose.
    rewrite <- app_assoc. cbn [app]. rewrite Hterm.
    destruct (has_speech st); [|reflexivity]. cbn [negb].
    destruct (frombuffer _); reflexivity.
Qed.

End CaptureClaims.

(** C5, as stated, fails: after a chunk that exceeds the threshold, a
    read that fails makes [record_audio] return the chunk captured
    before the failure as a successful utterance, not [None]. *)
Lemma read_failure_after_speech_returns_utterance :
  Fixtures.failing_microphone
    [PyAudioNew; StreamOpen 16000 1024; StreamRead 1024] 1024 =
    Raised (OtherException "OSError") /\
  SpeechToText.record_audio
    Fixtures.fine Fixtures.opens Fixtures.failing_microphone
    Fixtures.fine Fixtures.fine Fixtures.fine
    Config.AUDIO_SAMPLE_RATE Config.AUDIO_CHUNK_SIZE Config.SILENCE_THRESHOLD
    Config.SILENCE_DURATION Config.RECORDING_TIMEOUT Fixtures.stt [] =
  (Ok (Some [16384 # 32768]),
   SpeechToText.set_pyaudio_instance true Fixtures.stt,
   [PyAudioNew; StreamOpen 16000 1024; StreamRead 1024; StreamRead 1024;
    Log ERROR "Error reading audio chunk: ";
    StreamStop; StreamClose; PyAudioTerminate]).
Proof. split; vm_compute; reflexivity. Qed.

(* ================================================================== *)
(** * The speech output adapter *)
(* ================================================================== *)

Section SpeechFacts.

Import TextToSpeech.

Variable engine_say : Trace -> string -> Result unit.
Variable engine_runAndWait : Trace -> Result unit.
Variable engine_stop : Trace -> Result unit.
Variable engine_set_rate : Trace -> Z -> Result unit.
Variable engine_set_volume : Trace -> Q -> Result unit.

(** [speak] never raises: an error of the engine becomes [False]. *)
Lemma speak_never_raises (text : string) (blocking : bool) :
  Spec.never_raises (speak engine_say engine_runAndWait text blocking).
Proof.
  intros self tr. unfold speak.
  destruct (negb (Py.truthy text) || negb (Py.truthy (Py.strip text))).
  { now eexists _, _, _. }
  run_method. destruct (engine self); cbn [negb]; [|now eexists _, _, _].
  run_method.
  destruct (engine_say tr text) as [[]|e]; [|now eexists _, _, _].
  destruct blocking; run_method; [|now eexists _, _, _].
  destruct (engine_runAndWait _) as [[]|e]; now eexists _, _, _.
Qed.

(** [stop] never raises either, and logs the error of the engine. *)
Lemma stop_never_raises : Spec.never_raises (stop engine_stop).
Proof.
  intros self tr. unfold stop. run_method.
  destruct (engine self); [|now eexists _, _, _].
  run_method. destruct (engine_stop tr) as [[]|e]; now eexists _, _, _.
Qed.

Lemma stop_logs_engine_error (self : t) (tr : Trace) (e : exn) :
  engine self = true ->
  engine_stop tr = Raised e ->
  stop engine_stop self tr =
  (Ok tt, self, tr ++ [EngineStop; Log ERROR "Error stopping TTS: "]).
Proof.
  intros Hengine Hstop. unfold stop. run_method.
  rewrite Hengine. run_method. rewrite Hstop. run_method.
  now rewrite <- app_assoc.
Qed.

(** [set_rate] and [set_volume] call the engine outside any [try]:
    its error reaches the caller, and nothing is logged. *)
Lemma set_rate_propagates (rate : Z) (self : t) (tr : Trace) (e : exn) :
  engine self = true ->
  engine_set_rate tr rate = Raised e ->
  set_rate engine_set_rate rate self tr = (Raised e, self, tr ++ [EngineSetRate rate]).
Proof.
  intros Hengine Hset. unfold set_rate. run_method.
  rewrite Hengine. run_method. now rewrite Hset.
Qed.

Lemma set_volume_propagates (volume : Q) (self : t) (tr : Trace) (e : exn) :
  engine self = true ->
  engine_set_volume tr (py_max 0 (py_min 1 volume)) = Raised e ->
  set_volume engine_set_volume volume self tr =
  (Raised e, self, tr ++ [EngineSetVolume (py_max 0 (py_min 1 volume))]).
Proof.
  intros Hengine Hset. unfold set_volume. run_method.
  rewrite Hengine. run_method. now rewrite Hset.
Qed.

(** The volume handed to the engine lies in [0, 1]. *)
Lemma set_volume_clamps (volume : Q) :
  (0 <= py_max 0 (py_min 1 volume) <= 1)%Q.
Proof.
  unfold py_max, py_min.
  destruct (Qle_bool 1 volume) eqn:H1.
  - cbn. split; discriminate.
  - destruct (Qle_bool volume 0) eqn:H0.
    + split; [apply Qle_refl|discriminate].
    + split.
      * apply Qnot_lt_le. intros Hlt.
        apply Qlt_le_weak in Hlt. apply Qle_bool_iff in Hlt. congruence.
      * apply Qnot_lt_le. intros Hlt.
        apply Qlt_le_weak in Hlt. apply Qle_bool_iff in Hlt. congruence.
Qed.

End SpeechFacts.

(** C6, at an engine that refuses to change its properties: [set_rate]
    and [set_volume] let the error of the engine reach their caller and
    log nothing, where [stop] catches and logs the error of the same
    engine; the volume is clamped before the engine sees it. *)
Theorem set_rate_and_set_volume_let_engine_errors_escape :
  TextToSpeech.set_rate Fixtures.refuses 200 Fixtures.tts [] =
    (Raised (OtherException "RuntimeError"), Fixtures.tts, [EngineSetRate 200]) /\
  TextToSpeech.set_volume Fixtures.refuses (3 # 2) Fixtures.tts [] =
    (Raised (OtherException "RuntimeError"), Fixtures.tts, [EngineSetVolume 1]) /\
  TextToSpeech.stop Fixtures.broken Fixtures.tts [] =
    (Ok tt, Fixtures.tts, [EngineStop; Log ERROR "Error stopping TTS: "]).
Proof. repeat split. Qed.

(* ================================================================== *)
(** * The run loop *)
(* ================================================================== *)

Section RunLoopFacts.

Import VoiceAssistant.

Variable A : Type.
Variable stt_record_and_transcribe : M A (option string).
Variable chatgpt_send_message : string -> M A (option string).
Variable tts_speak : string -> bool -> M A bool.
Variable wake_word_start : M A bool.
Variable wake_word_listen_once : M A bool.
Variable interrupt : nat -> Trace -> bool.
Variable stdout_print : Trace -> string -> string -> Result unit.

Let cycle :=
  handle_conversation stt_record_and_transcribe chatgpt_send_message tts_speak
                      stdout_print.

(** The handler of the cycle, entered with the adapters in state [a]:
    it logs and hands the error sentence to [speak], whatever [speak]
    then does. *)
Lemma handler_speaks_the_error (self : t A) (a : A) (tr : Trace) :
  (log ERROR "Error during conversation: " ;;
   call (tts_speak "I encountered an error. Please try again." true) ;;
   ret tt) (set_adapters a self) tr =
  Spec.spoken_error tts_speak self a tr.
Proof.
  unfold Spec.spoken_error, Spec.error_sentence. run_method.
  unfold call, zoom. cbn [adapters set_adapters].
  destruct (tts_speak _ true a _) as [[[b|e] a'] tr']; reflexivity.
Qed.

Ltac enter_call :=
  unfold bind at 1; unfold call at 1, zoom; cbn [adapters set_adapters].

Ltac enter_print :=
  unfold bind at 1; unfold extern at 1.

(** An exception of the transcription, of the session, of the speech
    adapter or of a [print] inside the [try] ends the cycle in the
    handler: the error is logged and the error sentence is handed to
    [speak].  Nothing is assumed of the adapters. *)
Lemma cycle_catches (self : t A) (tr : Trace) :
  (forall e a1 tr1,
     stt_record_and_transcribe (adapters self) tr = (Raised e, a1, tr1) ->
     cycle self tr = Spec.spoken_error tts_speak self a1 tr1) /\
  (forall user_text a1 tr1 e a2 tr2,
     stt_record_and_transcribe (adapters self) tr = (Ok user_text, a1, tr1) ->
     Py.truthy_opt user_text = false ->
     tts_speak "I didn't catch that. Please try again." true a1 tr1 =
       (Raised e, a2, tr2) ->
     cycle self tr = Spec.spoken_error tts_speak self a2 tr2) /\
  (forall user_text a1 tr1 e,
     stt_record_and_transcribe (adapters self) tr = (Ok user_text, a1, tr1) ->
     Py.truthy_opt user_text = true ->
     stdout_print tr1 "You: " (Py.text user_text) = Raised e ->
     cycle self tr =
     Spec.spoken_error tts_speak self a1
       (tr1 ++ [Print "You: " (Py.text user_text)])) /\
  (forall user_text a1 tr1 e a2 tr2,
     stt_record_and_transcribe (adapters self) tr = (Ok user_text, a1, tr1) ->
     Py.truthy_opt user_text = true ->
     stdout_print tr1 "You: " (Py.text user_text) = Ok tt ->
     chatgpt_send_message (Py.text user_text) a1
       (tr1 ++ [Print "You: " (Py.text user_text)]) = (Raised e, a2, tr2) ->
     cycle self tr = Spec.spoken_error tts_speak self a2 tr2) /\
  (forall user_text a1 tr1 response a2 tr2 e a3 tr3,
     stt_record_and_transcribe (adapters self) tr = (Ok user_text, a1, tr1) ->
     Py.truthy_opt user_text = true ->
     stdout_print tr1 "You: " (Py.text user_text) = Ok tt ->
     chatgpt_send_message (Py.text user_text) a1
       (tr1 ++ [Print "You: " (Py.text user_text)]) = (Ok response, a2, tr2) ->
     Py.truthy_opt response = false ->
     tts_speak "I'm having trouble processing your request. Please try again."
               true a2 tr2 = (Raised e, a3, tr3) ->
     cycle self tr = Spec.spoken_error tts_speak self a3 tr3) /\
  (forall user_text a1 tr1 response a2 tr2 e,
     stt_record_and_transcribe (adapters self) tr = (Ok user_text, a1, tr1) ->
     Py.truthy_opt user_text = true ->
     stdout_print tr1 "You: " (Py.text user_text) = Ok tt ->
     chatgpt_send_message (Py.text user_text) a1
       (tr1 ++ [Print "You: " (Py.text user_text)]) = (Ok response, a2, tr2) ->
     Py.truthy_opt response = true ->
     stdout_print tr2 "Assistant: " (Py.text response) = Raised e ->
     cycle self tr =
     Spec.spoken_error tts_speak self a2
       (tr2 ++ [Print "Assistant: " (Py.text response)])) /\
  (forall user_text a1 tr1 response a2 tr2 e a3 tr3,
     stt_record_and_transcribe (adapters self) tr = (Ok user_text, a1, tr1) ->
     Py.truthy_opt user_text = true ->
     stdout_print tr1 "You: " (Py.text user_text) = Ok tt ->
     chatgpt_send_message (Py.text user_text) a1
       (tr1 ++ [Print "You: " (Py.text user_text)]) = (Ok response, a2, tr2) ->
     Py.truthy_opt response = true ->
     stdout_print tr2 "Assistant: " (Py.text response) = Ok tt ->
     tts_speak (Py.text response) true a2
               (tr2 ++ [Print "Assistant: " (Py.text response)]) =
       (Raised e, a3, tr3) ->
     cycle self tr = Spec.spoken_error tts_speak self a3 tr3).
Proof.
  unfold cycle, handle_conversation.
  repeat split.
  - intros e a1 tr1 Hstt.
    rewrite <- handler_speaks_the_error.
    unfold try_except at 1. enter_call. now rewrite Hstt.
  - intros user_text a1 tr1 e a2 tr2 Hstt Hempty Hspeak.
    rewrite <- handler_speaks_the_error.
    unfold try_except at 1. enter_call.
    rewrite Hstt, Hempty. cbn [negb].
    enter_call. now rewrite Hspeak.
  - intros user_text a1 tr1 e Hstt Htext Hprint.
    rewrite <- handler_speaks_the_error.
    unfold try_except at 1. enter_call.
    rewrite Hstt, Htext. cbn [negb].
    enter_print. rewrite Hprint. destruct self; reflexivity.
  - intros user_text a1 tr1 e a2 tr2 Hstt Htext Hprint Hsend.
    rewrite <- handler_speaks_the_error.
    unfold try_except at 1. enter_call.
    rewrite Hstt, Htext. cbn [negb].
    enter_print. rewrite Hprint.
    enter_call. rewrite Hsend. destruct self; reflexivity.
  - intros user_text a1 tr1 response a2 tr2 e a3 tr3 Hstt Htext Hprint Hsend
      Hempty Hspeak.
    rewrite <- handler_speaks_the_error.
    unfold try_except at 1. enter_call.
    rewrite Hstt, Htext. cbn [negb].
    enter_print. rewrite Hprint.
    enter_call. rewrite Hsend, Hempty. cbn [negb].
    enter_call. rewrite Hspeak. destruct self; reflexivity.
  - intros user_text a1 tr1 response a2 tr2 e Hstt Htext Hprint Hsend
      Hreply Hprint2.
    rewrite <- handler_speaks_the_error.
    unfold try_except at 1. enter_call.
    rewrite Hstt, Htext. cbn [negb].
    enter_print. rewrite Hprint.
    enter_call. rewrite Hsend, Hreply. cbn [negb].
    enter_print. cbn [adapters set_adapters]. rewrite Hprint2.
    destruct self; reflexivity.
  - intros user_text a1 tr1 response a2 tr2 e a3 tr3 Hstt Htext Hprint Hsend
      Hreply Hprint2 Hspeak.
    rewrite <- handler_speaks_the_error.
    unfold try_except at 1. enter_call.
    rewrite Hstt, Htext. cbn [negb].
    enter_print. rewrite Hprint.
    enter_call. rewrite Hsend, Hreply. cbn [negb].
    enter_print. cbn [adapters set_adapters]. rewrite Hprint2.
    enter_call. rewrite Hspeak. destruct self; reflexivity.
Qed.

Hypothesis error_sentence_is_spoken :
  Spec.never_raises (tts_speak Spec.error_sentence true).

(** When the error sentence can be spoken, the handler returns. *)
Lemma spoken_error_returns (self : t A) (a : A) (tr : Trace) :
  exists a' tr',
    Spec.spoken_error tts_speak self a tr = (Ok tt, set_adapters a' self, tr').
Proof.
  unfold Spec.spoken_error.
  destruct (error_sentence_is_spoken a (tr ++ [Log ERROR "Error during conversation: "]))
    as (b & a' & tr' & Hspeak).
  rewrite Hspeak. now exists a', tr'.
Qed.

(** A cycle returns, and leaves [running] as it was. *)
Lemma cycle_returns (self : t A) (tr : Trace) :
  exists self' tr',
    cycle self tr = (Ok tt, self', tr') /\
    running self' = running self /\ components self' = components self.
Proof.
  assert (Hhandler : forall a past,
            exists self' tr',
              Spec.spoken_error tts_speak self a past = (Ok tt, self', tr') /\
              running self' = running self /\ components self' = components self).
  { intros a past. destruct (spoken_error_returns self a past) as (a' & tr' & ->).
    now eexists _, _. }
  destruct (cycle_catches self tr)
    as (Hstt & Hprompt & Hprint & Hsend & Htrouble & Hprint2 & Hspeak).
  destruct (stt_record_and_transcribe (adapters self) tr)
    as [[[user_text|e] a1] tr1] eqn:Estt.
  2:{ rewrite (Hstt e a1 tr1 eq_refl). apply Hhandler. }
  destruct (Py.truthy_opt user_text) eqn:Etext.
  2:{ destruct (tts_speak "I didn't catch that. Please try again." true a1 tr1)
        as [[[b|e] a2] tr2] eqn:Espeak.
      2:{ rewrite (Hprompt user_text a1 tr1 e a2 tr2 eq_refl Etext Espeak).
          apply Hhandler. }
      unfold cycle, handle_conversation, try_except.
      enter_call. rewrite Estt, Etext. cbn [negb].
      enter_call. rewrite Espeak. now eexists _, _. }
  destruct (stdout_print tr1 "You: " (Py.text user_text)) as [[]|e] eqn:Eprint.
  2:{ rewrite (Hprint user_text a1 tr1 e eq_refl Etext Eprint). apply Hhandler. }
  destruct (chatgpt_send_message (Py.text user_text) a1
              (tr1 ++ [Print "You: " (Py.text user_text)]))
    as [[[response|e] a2] tr2] eqn:Esend.
  2:{ rewrite (Hsend user_text a1 tr1 e a2 tr2 eq_refl Etext Eprint Esend).
      apply Hhandler. }
  destruct (Py.truthy_opt response) eqn:Ereply.
  2:{ destruct (tts_speak "I'm having trouble processing your request. Please try again."
                          true a2 tr2) as [[[b|e] a3] tr3] eqn:Espeak.
      2:{ rewrite (Htrouble user_text a1 tr1 response a2 tr2 e a3 tr3
                            eq_refl Etext Eprint Esend Ereply Espeak).
          apply Hhandler. }
      unfold cycle, handle_conversation, try_except.
      enter_call. rewrite Estt, Etext. cbn [negb].
      enter_print. rewrite Eprint.
      enter_call. rewrite Esend, Ereply. cbn [negb].
      enter_call. rewrite Espeak. now eexists _, _. }
  destruct (stdout_print tr2 "Assistant: " (Py.text response)) as [[]|e] eqn:Eprint2.
  2:{ rewrite (Hprint2 user_text a1 tr1 response a2 tr2 e
                       eq_refl Etext Eprint Esend Ereply Eprint2).
      apply Hhandler. }
  destruct (tts_speak (Py.text response) true a2
                      (tr2 ++ [Print "Assistant: " (Py.text response)]))
    as [[[b|e] a3] tr3] eqn:Espeak.
  2:{ rewrite (Hspeak user_text a1 tr1 response a2 tr2 e a3 tr3
                      eq_refl Etext Eprint Esend Ereply Eprint2 Espeak).
      apply Hhandler. }
  unfold cycle, handle_conversation, try_except.
  enter_call. rewrite Estt, Etext. cbn [negb].
  enter_print. rewrite Eprint.
  enter_call. rewrite Esend, Ereply. cbn [negb].
  enter_print. cbn [adapters set_adapters]. rewrite Eprint2.
  enter_call. rewrite Espeak. now eexists _, _.
Qed.

Hypothesis feedback_is_spoken : Spec.never_raises (tts_speak "Yes?" true).
Hypothesis listening_returns : Spec.never_raises wake_word_listen_once.
Hypothesis no_interrupt : forall i tr, interrupt i tr = false.

Let loop :=
  main_loop stt_record_and_transcribe chatgpt_send_message tts_speak
            wake_word_listen_once interrupt stdout_print.

(** Without an interrupt the loop is still waiting for the wake word
    after any number of rounds, whatever happened in the cycles. *)
Lemma main_loop_keeps_waiting (polls : nat) :
  forall (i : nat) (self : t A) (tr : Trace),
    running self = true ->
    exists self' tr',
      loop polls i self tr = (Ok (Some Waiting), self', tr') /\
      running self' = true /\ components self' = components self.
Proof.
  unfold loop.
  induction polls as [|polls IH]; intros i self tr Hrun.
  - now exists self, tr.
  - cbn [main_loop]. unfold bind at 1, get. rewrite Hrun. cbn [negb].
    unfold bind at 1, past. rewrite no_interrupt.
    enter_call.
    destruct (listening_returns (adapters self) tr) as (detected & a1 & tr1 & Hlisten).
    rewrite Hlisten.
    destruct detected.
    + unfold Config.ENABLE_AUDIO_FEEDBACK.
      unfold bind at 1. unfold bind at 1. enter_call.
      destruct (feedback_is_spoken a1 tr1) as (b & a2 & tr2 & Hyes).
      rewrite Hyes. unfold ret at 1.
      destruct (cycle_returns (set_adapters a2 (set_adapters a1 self)) tr2)
        as (self3 & tr3 & Hcycle & Hrun3 & Hcomp3).
      unfold cycle in Hcycle. rewrite Hcycle.
      destruct (IH (S i) self3 tr3) as (self' & tr' & Hloop & Hrun' & Hcomp');
        [now rewrite Hrun3|].
      rewrite Hloop. exists self', tr'. repeat split; try assumption.
      now rewrite Hcomp', Hcomp3.
    + unfold bind at 1, ret at 1.
      destruct (IH (S i) (set_adapters a1 self) tr1)
        as (self' & tr' & Hloop & Hrun' & Hcomp'); [exact Hrun|].
      rewrite Hloop. now exists self', tr'.
Qed.

End RunLoopFacts.

(** C4, as the code has it.  Nothing is assumed for its first part: an
    exception that escapes inside the [try] of a cycle, from
    [record_and_transcribe], from [send_message], from speaking a
    prompt or the reply, or from printing the heard text or the reply,
    is caught at the boundary of the cycle and logged, and the error
    sentence is handed to [speak]; the cycle then returns when this
    [speak] returns, and raises what this [speak] raises.  For the
    second part, let the speech adapter return whenever it is handed
    the error sentence: then a cycle always returns and leaves
    [running] as it is.  Let it also return for the "Yes?" feedback
    (the shipped [TextToSpeech.speak] always returns), let
    [listen_once] return, and let no interrupt arrive: then after any
    number of rounds the loop is still waiting for the wake word with
    [running] set, as is [run] once the wake word detector has
    started and the welcome has been spoken. *)
Theorem escaped_exception_is_spoken_and_loop_keeps_waiting
    (A : Type)
    (stt_record_and_transcribe : M A (option string))
    (chatgpt_send_message : string -> M A (option string))
    (tts_speak : string -> bool -> M A bool)
    (wake_word_start wake_word_listen_once : M A bool)
    (interrupt : nat -> Trace -> bool)
    (stdout_print : Trace -> string -> string -> Result unit)
    (self : VoiceAssistant.t A) (tr : Trace) :
  let cycle := VoiceAssistant.handle_conversation
                 stt_record_and_transcribe chatgpt_send_message tts_speak
                 stdout_print in
  let loop := VoiceAssistant.main_loop
                stt_record_and_transcribe chatgpt_send_message tts_speak
                wake_word_listen_once interrupt stdout_print in
  let run := VoiceAssistant.run
               stt_record_and_transcribe chatgpt_send_message tts_speak
               wake_word_start wake_word_listen_once interrupt stdout_print in
  let heard user_text a1 tr1 :=
    stt_record_and_transcribe (VoiceAssistant.adapters self) tr =
      (Ok user_text, a1, tr1) /\
    Py.truthy_opt user_text = true in
  let printed_you user_text tr1 :=
    stdout_print tr1 "You: " (Py.text user_text) = Ok tt in
  let after_you user_text tr1 := tr1 ++ [Print "You: " (Py.text user_text)] in
  let after_assistant response tr2 :=
    tr2 ++ [Print "Assistant: " (Py.text response)] in
  (forall e a1 tr1,
     stt_record_and_transcribe (VoiceAssistant.adapters self) tr = (Raised e, a1, tr1) ->
     cycle self tr = Spec.spoken_error tts_speak self a1 tr1) /\
  (forall user_text a1 tr1 e a2 tr2,
     stt_record_and_transcribe (VoiceAssistant.adapters self) tr = (Ok user_text, a1, tr1) ->
     Py.truthy_opt user_text = false ->
     tts_speak "I didn't catch that. Please try again." true a1 tr1 = (Raised e, a2, tr2) ->
     cycle self tr = Spec.spoken_error tts_speak self a2 tr2) /\
  (forall user_text a1 tr1 e,
     heard user_text a1 tr1 ->
     stdout_print tr1 "You: " (Py.text user_text) = Raised e ->
     cycle self tr = Spec.spoken_error tts_speak self a1 (after_you user_text tr1)) /\
  (forall user_text a1 tr1 e a2 tr2,
     heard user_text a1 tr1 -> printed_you user_text tr1 ->
     chatgpt_send_message (Py.text user_text) a1 (after_you user_text tr1) =
       (Raised e, a2, tr2) ->
     cycle self tr = Spec.spoken_error tts_speak self a2 tr2) /\
  (forall user_text a1 tr1 response a2 tr2 e a3 tr3,
     heard user_text a1 tr1 -> printed_you user_text tr1 ->
     chatgpt_send_message (Py.text user_text) a1 (after_you user_text tr1) =
       (Ok response, a2, tr2) ->
     Py.truthy_opt response = false ->
     tts_speak "I'm having trouble processing your request. Please try again."
               true a2 tr2 = (Raised e, a3, tr3) ->
     cycle self tr = Spec.spoken_error tts_speak self a3 tr3) /\
  (forall user_text a1 tr1 response a2 tr2 e,
     heard user_text a1 tr1 -> printed_you user_text tr1 ->
     chatgpt_send_message (Py.text user_text) a1 (after_you user_text tr1) =
       (Ok response, a2, tr2) ->
     Py.truthy_opt response = true ->
     stdout_print tr2 "Assistant: " (Py.text response) = Raised e ->
     cycle self tr =
     Spec.spoken_error tts_speak self a2 (after_assistant response tr2)) /\
  (forall user_text a1 tr1 response a2 tr2 e a3 tr3,
     heard user_text a1 tr1 -> printed_you user_text tr1 ->
     chatgpt_send_message (Py.text user_text) a1 (after_you user_text tr1) =
       (Ok response, a2, tr2) ->
     Py.truthy_opt response = true ->
     stdout_print tr2 "Assistant: " (Py.text response) = Ok tt ->
     tts_speak (Py.text response) true a2 (after_assistant response tr2) =
       (Raised e, a3, tr3) ->
     cycle self tr = Spec.spoken_error tts_speak self a3 tr3) /\
  (Spec.never_raises (tts_speak Spec.error_sentence true) ->
   (exists self' tr',
      cycle self tr = (Ok tt, self', tr') /\
      VoiceAssistant.running self' = VoiceAssistant.running self) /\
   (Spec.never_raises (tts_speak "Yes?" true) ->
    Spec.never_raises wake_word_listen_once ->
    (forall i past, interrupt i past = false) ->
    (VoiceAssistant.running self = true ->
     forall polls i, exists self' tr',
       loop polls i self tr = (Ok (Some VoiceAssistant.Waiting), self', tr') /\
       VoiceAssistant.running self' = true) /\
    (VoiceAssistant.components self = true ->
     (forall a past, exists a' past', wake_word_start a past = (Ok true, a', past')) ->
     Spec.never_raises
       (tts_speak "Voice assistant ready. Say hey chat G P T to activate." true) ->
     forall polls, exists self' tr',
       run polls self tr = (Ok VoiceAssistant.Waiting, self', tr') /\
       VoiceAssistant.running self' = true))).
Proof.
  intros cycle loop run heard printed_you after_you after_assistant.
  pose proof (cycle_catches A stt_record_and_transcribe chatgpt_send_message
                tts_speak stdout_print self tr)
    as (Hstt & Hprompt & Hprint & Hsend & Htrouble & Hprint2 & Hspeak).
  split; [exact Hstt|]. split; [exact Hprompt|].
  split; [intros ? ? ? ? [? ?]; eauto|].
  split; [intros ? ? ? ? ? ? [? ?]; eauto|].
  split; [intros ? ? ? ? ? ? ? ? ? [? ?]; eauto|].
  split; [intros ? ? ? ? ? ? ? [? ?]; eauto|].
  split; [intros ? ? ? ? ? ? ? ? ? [? ?]; eauto|].
  intros Herr. split.
  { destruct (cycle_returns A stt_record_and_transcribe chatgpt_send_message
                tts_speak stdout_print Herr self tr)
      as (self' & tr' & Hcycle & Hrun & _).
    now exists self', tr'. }
  intros Hyes Hlisten Hint. split.
  - intros Hrun polls i.
    destruct (main_loop_keeps_waiting A stt_record_and_transcribe
                chatgpt_send_message tts_speak wake_word_listen_once interrupt
                stdout_print Herr Hyes Hlisten Hint polls i self tr Hrun)
      as (self' & tr' & Hloop & Hrun' & _).
    now exists self', tr'.
  - intros Hcomp Hstart Hwelcome polls.
    unfold run, VoiceAssistant.run.
    unfold bind at 1, get. rewrite Hcomp. cbn [negb].
    unfold bind at 1, modify.
    unfold bind at 1. unfold VoiceAssistant.call at 1, zoom.
    cbn [VoiceAssistant.adapters VoiceAssistant.set_running].
    destruct (Hstart (VoiceAssistant.adapters self) tr) as (a1 & tr1 & Hstarted).
    rewrite Hstarted. cbn [negb].
    unfold bind at 1. unfold VoiceAssistant.call at 1, zoom.
    cbn [VoiceAssistant.adapters VoiceAssistant.set_adapters].
    destruct (Hwelcome a1 tr1) as (b & a2 & tr2 & Hspoken).
    rewrite Hspoken.
    match goal with |- context [VoiceAssistant.main_loop _ _ _ _ _ _ _ _ ?s ?t] =>
      destruct (main_loop_keeps_waiting A stt_record_and_transcribe
                  chatgpt_send_message tts_speak wake_word_listen_once interrupt
                  stdout_print Herr Hyes Hlisten Hint polls 0%nat s t eq_refl)
        as (self' & tr' & Hloop & Hrun' & _)
    end.
    rewrite Hloop. now exists self', tr'.
Qed.

(* ================================================================== *)
(** * The properties at concrete collaborators *)
(* ================================================================== *)

Lemma send_message_rejects_blank_input_witness :
  Spec.whitespace_only "   " = true /\
  Exec.result_of
    (ChatGPTClient.send_message Fixtures.answers "   " Fixtures.chatgpt []) = Ok None /\
  Exec.state_of
    (ChatGPTClient.send_message Fixtures.answers "   " Fixtures.chatgpt []) =
  Fixtures.chatgpt.
Proof.
  assert (Spec.whitespace_only "   " = true) as Hblank by reflexivity.
  split; [exact Hblank|].
  destruct (send_message_rejects_blank_input
              Fixtures.answers "   " Fixtures.chatgpt [] Hblank)
    as (Hresult & Hstate & _).
  split; [exact Hresult|exact Hstate].
Defined.

Lemma send_message_failure_fallback_witness :
  Exec.result_of
    (ChatGPTClient.send_message Fixtures.rate_limited "hello" Fixtures.chatgpt []) =
  Ok (Some "I'm receiving too many requests right now. Please try again in a moment.").
Proof.
  assert (Spec.whitespace_only "hello" = false) as Hvisible by reflexivity.
  destruct (send_message_failure_fallback
              Fixtures.rate_limited "hello" Fixtures.chatgpt [] RateLimitError
              Hvisible eq_refl)
    as (Hresult & _).
  exact Hresult.
Defined.

Lemma send_message_null_only_for_blank_input_witness :
  exists reply,
    Exec.result_of
      (ChatGPTClient.send_message Fixtures.answers "hello" Fixtures.chatgpt []) =
    Ok (Some reply).
Proof.
  assert (Spec.whitespace_only "hello" = false) as Hvisible by reflexivity.
  exact (proj1 (send_message_null_only_for_blank_input
                  Fixtures.answers "hello" Fixtures.chatgpt [] Hvisible)).
Defined.

Lemma token_estimate_is_total_characters_div_4_witness :
  ChatGPTClient.get_token_usage_estimate
    (ChatGPTClient.set_history [Fixtures.long_message] Fixtures.chatgpt) [] =
  (Ok 100, ChatGPTClient.set_history [Fixtures.long_message] Fixtures.chatgpt, []).
Proof.
  apply (proj2 (token_estimate_is_total_characters_div_4
                  (ChatGPTClient.set_history [Fixtures.long_message] Fixtures.chatgpt)
                  [])).
  vm_compute. reflexivity.
Defined.

Lemma trim_history_keeps_system_and_most_recent_witness :
  let self := ChatGPTClient.set_history Fixtures.long_history Fixtures.chatgpt in
  ChatGPTClient.conversation_history
    (Exec.state_of (ChatGPTClient._trim_history self [])) =
    mkMessage "system" "Be brief." ::
    map (mkMessage "user") ["3"; "4"; "5"; "6"; "7"; "8"; "9"; "10"; "11"] /\
  exists replies,
    List.length replies = 15%nat /\
    ChatGPTClient.conversation_history
      (Exec.state_of
         (ChatGPTClient.send_all Fixtures.answers Fixtures.fifteen_questions
                                 Fixtures.chatgpt [])) =
    mkMessage "system" "Be brief." ::
    Spec.most_recent 9 (Spec.exchanges Fixtures.fifteen_questions replies).
Proof.
  intros self.
  assert (List.length (Spec.system_msgs
            (ChatGPTClient.conversation_history self)) <= 1)%nat as Hone
    by (vm_compute; lia).
  destruct (trim_history_keeps_system_and_most_recent
              Fixtures.answers self [] Hone)
    as (_ & _ & Hlong & _ & _ & _ & _ & Hscenario).
  split.
  - rewrite Hlong by (vm_compute; reflexivity). vm_compute. reflexivity.
  - destruct (Hscenario "key" Config.CHATGPT_MODEL "Be brief."
                        Config.CHATGPT_MAX_TOKENS Config.CHATGPT_TEMPERATURE
                        Fixtures.fifteen_questions []) as (replies & _ & Hlen & Hhist & _).
    + reflexivity.
    + reflexivity.
    + intros u Hu. apply repeat_spec in Hu. subst u. reflexivity.
    + intros past req. now eexists _, _.
    + exists replies. split; [exact Hlen|exact Hhist].
Defined.

Lemma session_operations_preserve_history_invariant_witness :
  Spec.well_formed
    (ChatGPTClient.conversation_history
       (Exec.state_of
          (ChatGPTClient.send_message Fixtures.answers "hello" Fixtures.chatgpt []))) /\
  Spec.well_formed
    (ChatGPTClient.conversation_history
       (Exec.state_of (ChatGPTClient.reset_conversation Fixtures.chatgpt []))).
Proof.
  assert (Spec.well_formed (ChatGPTClient.conversation_history Fixtures.chatgpt))
    as Hwf by (intros msg []).
  destruct (session_operations_preserve_history_invariant
              Fixtures.answers Fixtures.chatgpt [] Hwf)
    as (Hsend & _ & Hreset & _).
  split; [|exact Hreset].
  destruct (Hsend "hello") as (appended & (Hkept & _) & _).
  exact Hkept.
Defined.

Lemma record_audio_silence_yields_none_witness :
  Exec.result_of
    (SpeechToText.record_audio
       Fixtures.fine Fixtures.opens Fixtures.silent_microphone
       Fixtures.fine Fixtures.fine Fixtures.fine
       Config.AUDIO_SAMPLE_RATE Config.AUDIO_CHUNK_SIZE Config.SILENCE_THRESHOLD
       Config.SILENCE_DURATION Config.RECORDING_TIMEOUT Fixtures.stt []) = Ok None.
Proof.
  apply record_audio_silence_yields_none.
  intros later data samples Hread Hdata.
  injection Hread as <-. injection Hdata as <-. reflexivity.
Defined.

Lemma read_failure_ends_capture_with_what_was_recorded_witness :
  Exec.result_of
    (SpeechToText.record_audio
       Fixtures.fine Fixtures.opens Fixtures.failing_microphone
       Fixtures.fine Fixtures.fine Fixtures.fine
       Config.AUDIO_SAMPLE_RATE Config.AUDIO_CHUNK_SIZE Config.SILENCE_THRESHOLD
       Config.SILENCE_DURATION Config.RECORDING_TIMEOUT Fixtures.stt []) =
  Ok (Some [16384 # 32768]).
Proof.
  destruct (read_failure_ends_capture_with_what_was_recorded
              Fixtures.fine Fixtures.opens Fixtures.failing_microphone
              Fixtures.fine Fixtures.fine Fixtures.fine
              Config.AUDIO_SAMPLE_RATE Config.AUDIO_CHUNK_SIZE
              Config.SILENCE_THRESHOLD Config.SILENCE_DURATION
              Config.RECORDING_TIMEOUT) as (Hloop & Hrecord).
  rewrite (Hrecord Fixtures.stt [] 23 156
             (SpeechToText.mkCapture [Fixtures.loud_chunk] 0 true)
             (SpeechToText.set_pyaudio_instance true Fixtures.stt)
             [PyAudioNew; StreamOpen 16000 1024; StreamRead 1024; StreamRead 1024;
              Log ERROR "Error reading audio chunk: "]);
    reflexivity.
Defined.

(** The cycle isolation scenario: the first transcription throws, the
    second returns "hello".  Both cycles complete, the first with the
    spoken error, the second with the request to the service and its
    spoken reply, and the assistant keeps running. *)
Lemma two_cycles_after_a_failing_transcription :
  let out := VoiceAssistant.run
               Fixtures.flaky_transcription Fixtures.session_send
               Fixtures.speaker_speak Fixtures.always_awake Fixtures.always_awake
               Fixtures.no_interrupt Fixtures.prints 2 Fixtures.doubles [] in
  Exec.result_of out = Ok VoiceAssistant.Waiting /\
  VoiceAssistant.running (Exec.state_of out) = true /\
  Exec.trace_of out =
    [EngineSay "Voice assistant ready. Say hey chat G P T to activate.";
     EngineRunAndWait;
     EngineSay "Yes?"; EngineRunAndWait;
     Log ERROR "Error during conversation: ";
     EngineSay "I encountered an error. Please try again."; EngineRunAndWait;
     EngineSay "Yes?"; EngineRunAndWait;
     Print "You: " "hello";
     ChatCompletion
       (mkChatRequest "gpt-4o"
          [mkMessage "system" "Be brief."; mkMessage "user" "hello"]
          500 (7 # 10) 30);
     Print "Assistant: " "Hello! How can I help?";
     EngineSay "Hello! How can I help?"; EngineRunAndWait].
Proof. repeat split. Qed.

(** A console that cannot print the heard text: the exception of the
    [print] is caught like one of an adapter, no request is issued,
    and the cycle ends with the spoken error. *)
Lemma a_failing_print_is_caught_in_the_cycle :
  let out := Shipped.handle_conversation
               Fixtures.fine Fixtures.opens Fixtures.failing_microphone
               Fixtures.fine Fixtures.fine Fixtures.fine Fixtures.heard
               Fixtures.answers Fixtures.says Fixtures.fine Fixtures.no_console
               Fixtures.shipped [] in
  Exec.result_of out = Ok tt /\
  Exec.trace_of out =
    [PyAudioNew; StreamOpen 16000 1024; StreamRead 1024; StreamRead 1024;
     Log ERROR "Error reading audio chunk: ";
     StreamStop; StreamClose; PyAudioTerminate;
     WhisperTranscribe [16384 # 32768];
     Print "You: " "What time is it?";
     Log ERROR "Error during conversation: ";
     EngineSay "I encountered an error. Please try again."; EngineRunAndWait].
Proof. split; vm_compute; reflexivity. Qed.

Lemma escaped_exception_is_spoken_and_loop_keeps_waiting_witness :
  exists self' tr',
    VoiceAssistant.run
      Fixtures.flaky_transcription Fixtures.session_send
      Fixtures.speaker_speak Fixtures.always_awake Fixtures.always_awake
      Fixtures.no_interrupt Fixtures.prints 2 Fixtures.doubles [] =
    (Ok VoiceAssistant.Waiting, self', tr') /\
    VoiceAssistant.running self' = true.
Proof.
  assert (forall text, Spec.never_raises (Fixtures.speaker_speak text true))
    as Hspeak.
  { intros text. apply zoom_never_raises, speak_never_raises. }
  destruct (escaped_exception_is_spoken_and_loop_keeps_waiting
              Fixtures.Doubles
              Fixtures.flaky_transcription Fixtures.session_send
              Fixtures.speaker_speak Fixtures.always_awake Fixtures.always_awake
              Fixtures.no_interrupt Fixtures.prints Fixtures.doubles [])
    as (_ & _ & _ & _ & _ & _ & _ & Hreturns).
  destruct (Hreturns (Hspeak _)) as (_ & Hwaiting).
  destruct (Hwaiting (Hspeak _)) as (_ & Hrun).
  - intros a tr. now eexists _, _, _.
  - reflexivity.
  - apply Hrun.
    + reflexivity.
    + intros a past. now eexists _, _.
    + apply Hspeak.
Defined.

(** C4, as stated, fails when the exception is raised while the error
    sentence itself is spoken.  With a speech adapter that lets an
    error of its engine escape, the exception of the first
    transcription is caught and logged and the error sentence is
    handed to [speak], but the exception raised by this [speak] leaves
    the cycle, and [run] ends with [running] unset. *)
Lemma escaping_speech_error_stops_the_assistant :
  let out := VoiceAssistant.run
               Fixtures.flaky_transcription Fixtures.session_send
               Fixtures.raising_speak Fixtures.always_awake Fixtures.always_awake
               Fixtures.no_interrupt Fixtures.prints 1 Fixtures.doubles [] in
  Exec.result_of out = Raised (OtherException "RuntimeError") /\
  VoiceAssistant.running (Exec.state_of out) = false /\
  Exec.trace_of out =
    [EngineSay "Voice assistant ready. Say hey chat G P T to activate.";
     EngineSay "Yes?";
     Log ERROR "Error during conversation: ";
     EngineSay "I encountered an error. Please try again."].
Proof. repeat split. Qed.

(* ================================================================== *)
(** * The shipped adapters keep their failures to themselves *)
(* ================================================================== *)

Section ShippedFacts.

Variable pyaudio_new : Trace -> Result unit.
Variable stream_open : Trace -> Z -> Z -> Result unit.
Variable stream_read : Trace -> Z -> Result (list Byte.byte).
Variable stream_stop : Trace -> Result unit.
Variable stream_close : Trace -> Result unit.
Variable pyaudio_terminate : Trace -> Result unit.
Variable whisper_transcribe : Trace -> list Q -> string -> Result (list string).
Variable create : Trace -> ChatRequest -> Result (list (option string)).
Variable engine_say : Trace -> string -> Result unit.
Variable engine_runAndWait : Trace -> Result unit.

Lemma logged_none_never_raises {S B} (level : Level) (msg : string) :
  Spec.never_raises (log level msg ;; @ret S (option B) None).
Proof.
  apply bind_never_raises; [apply log_never_raises|intros _; apply ret_never_raises].
Qed.

Lemma send_message_never_raises (user_message : string) :
  Spec.never_raises (ChatGPTClient.send_message create user_message).
Proof.
  unfold ChatGPTClient.send_message. destruct (negb _).
  - apply logged_none_never_raises.
  - apply bind_never_raises; [intros s tr; now eexists _, _, _|intros _].
    apply try_except_never_raises. intros e.
    destruct e;
      (apply bind_never_raises; [apply log_never_raises|intros _; apply ret_never_raises]).
Qed.

Lemma record_audio_never_raises
    (sample_rate chunk_size silence_threshold : Z) (silence_duration : Q)
    (max_duration : Z) :
  Spec.never_raises
    (SpeechToText.record_audio pyaudio_new stream_open stream_read stream_stop
       stream_close pyaudio_terminate sample_rate chunk_size silence_threshold
       silence_duration max_duration).
Proof.
  unfold SpeechToText.record_audio. apply try_except_never_raises.
  intros e. apply logged_none_never_raises.
Qed.

Lemma transcribe_never_raises (audio_data : list Q) :
  Spec.never_raises (SpeechToText.transcribe whisper_transcribe audio_data).
Proof.
  unfold SpeechToText.transcribe.
  apply bind_never_raises; [intros s tr; now eexists _, _, _|intros self].
  destruct (negb _).
  - apply logged_none_never_raises.
  - apply try_except_never_raises. intros e. apply logged_none_never_raises.
Qed.

Lemma record_and_transcribe_never_raises :
  Spec.never_raises
    (SpeechToText.record_and_transcribe pyaudio_new stream_open stream_read
       stream_stop stream_close pyaudio_terminate whisper_transcribe).
Proof.
  unfold SpeechToText.record_and_transcribe.
  apply bind_never_raises; [apply record_audio_never_raises|].
  intros [audio_data|]; [apply transcribe_never_raises|apply ret_never_raises].
Qed.

(** None of the three adapter calls of a cycle over the shipped
    adapters raises: what fails inside them comes back as [None], as a
    fallback sentence or as [False]. *)
Lemma shipped_adapters_never_raise :
  Spec.never_raises
    (Shipped.record_and_transcribe pyaudio_new stream_open stream_read
       stream_stop stream_close pyaudio_terminate whisper_transcribe) /\
  (forall user_message,
     Spec.never_raises (Shipped.send_message create user_message)) /\
  (forall text blocking,
     Spec.never_raises (Shipped.speak engine_say engine_runAndWait text blocking)).
Proof.
  repeat split; intros; apply zoom_never_raises.
  - apply record_and_transcribe_never_raises.
  - apply send_message_never_raises.
  - apply speak_never_raises.
Qed.

End ShippedFacts.

(* ================================================================== *)
(** * Further properties of the conversation session *)
(* ================================================================== *)

Section SessionMore.

Import ChatGPTClient.

Variable create : Trace -> ChatRequest -> Result (list (option string)).

(** What [send_message] can have done when it returns: nothing, the
    user message appended, or the exchange appended and trimmed. *)
Lemma send_message_outcomes (user_message : string) (self : t) (tr : Trace) :
  let out := send_message create user_message self tr in
  let h := conversation_history self in
  let user := mkMessage "user" user_message in
  (Spec.whitespace_only user_message = true /\ state_of out = self) \/
  (Spec.whitespace_only user_message = false /\
   (exists e, create tr (Spec.request_for self user_message) = Raised e \/
              (exists choices,
                 create tr (Spec.request_for self user_message) = Ok choices /\
                 hd None choices = None)) /\
   state_of out = append user self) \/
  (Spec.whitespace_only user_message = false /\
   exists text rest,
     create tr (Spec.request_for self user_message) = Ok (Some text :: rest) /\
     result_of out = Ok (Some (Py.strip text)) /\
     state_of out =
       set_history
         (trim Config.MAX_CONVERSATION_HISTORY
               (h ++ [user; mkMessage "assistant" (Py.strip text)])) self).
Proof.
  intros out h user. subst out h user.
  destruct (Spec.whitespace_only user_message) eqn:Hblank.
  { left. rewrite send_message_blank by exact Hblank. now split. }
  right.
  destruct (create tr (Spec.request_for self user_message))
    as [[|[text|] rest]|e] eqn:Hcreate.
  - left. erewrite send_message_malformed by eauto.
    split; [reflexivity|]. split; [|reflexivity].
    exists IndexError. right. now exists [].
  - right. split; [reflexivity|]. exists text, rest.
    erewrite send_message_answered by eauto. now repeat split.
  - left. erewrite send_message_malformed by eauto.
    split; [reflexivity|]. split; [|reflexivity].
    exists AttributeError. right. now exists (None :: rest).
  - left. erewrite send_message_raised by eauto.
    split; [reflexivity|]. split; [|reflexivity].
    exists e. now left.
Qed.

Lemma send_message_keeps_system_msgs (user_message : string) (self : t) (tr : Trace) :
  Spec.system_msgs
    (conversation_history (state_of (send_message create user_message self tr))) =
  Spec.system_msgs (conversation_history self).
Proof.
  destruct (send_message_outcomes user_message self tr)
    as [[_ ->]|[(_ & _ & ->)|(_ & text & rest & _ & _ & ->)]].
  - reflexivity.
  - cbn [append set_history conversation_history].
    rewrite system_msgs_app. apply app_nil_r.
  - cbn [set_history conversation_history].
    rewrite trim_system_msgs, system_msgs_app. apply app_nil_r.
Qed.

Lemma send_message_returns (user_message : string) (self : t) (tr : Trace) :
  exists reply self' tr',
    send_message create user_message self tr = (Ok reply, self', tr').
Proof.
  destruct (Spec.whitespace_only user_message) eqn:Hblank.
  { rewrite send_message_blank by exact Hblank. now eexists _, _, _. }
  destruct (create tr (Spec.request_for self user_message))
    as [[|[text|] rest]|e] eqn:Hcreate.
  - erewrite send_message_malformed by eauto. now eexists _, _, _.
  - erewrite send_message_answered by eauto. now eexists _, _, _.
  - erewrite send_message_malformed by eauto. now eexists _, _, _.
  - erewrite send_message_raised by eauto. now eexists _, _, _.
Qed.

Lemma send_all_keeps_system_msgs (messages : list string) :
  forall (self : t) (tr : Trace),
    exists replies self' tr',
      send_all create messages self tr = (Ok replies, self', tr') /\
      List.length replies = List.length messages /\
      Spec.system_msgs (conversation_history self') =
      Spec.system_msgs (conversation_history self).
Proof.
  induction messages as [|msg rest IH]; intros self tr.
  - now exists [], self, tr.
  - destruct (send_message_returns msg self tr) as (reply & s1 & tr1 & Hsend).
    destruct (IH s1 tr1) as (replies & s2 & tr2 & Hall & Hlen & Hsys).
    exists (reply :: replies), s2, tr2.
    cbn [send_all]. unfold bind at 1. rewrite Hsend.
    unfold bind at 1. rewrite Hall. unfold ret. repeat split.
    + cbn [List.length]. now rewrite Hlen.
    + rewrite Hsys.
      pose proof (send_message_keeps_system_msgs msg self tr) as Hkeep.
      rewrite Hsend in Hkeep. exact Hkeep.
Qed.

(** X1.  Whatever was said in between and whatever the service did,
    [reset_conversation] gives back the history that [__init__] built:
    the system message when a prompt was given, and nothing else. *)
Theorem reset_restores_initial_history
    (key model_id : string) (limit : Z) (temp : Q) (prompt : option string)
    (messages : list string) (tr : Trace) :
  let fresh := __init__ key model_id limit temp prompt in
  let talked := send_all create messages fresh tr in
  exists replies,
    result_of talked = Ok replies /\
    List.length replies = List.length messages /\
    conversation_history
      (state_of (reset_conversation (state_of talked) (trace_of talked))) =
    conversation_history fresh /\
    conversation_history fresh =
      match prompt with
      | Some (String c p) => [mkMessage "system" (String c p)]
      | _ => []
      end.
Proof.
  intros fresh talked. subst talked.
  destruct (send_all_keeps_system_msgs messages fresh tr)
    as (replies & self' & tr' & Hall & Hlen & Hsys).
  exists replies. rewrite Hall. cbn [result_of state_of trace_of fst snd].
  split; [reflexivity|]. split; [exact Hlen|].
  assert (conversation_history fresh =
          match prompt with
          | Some (String c p) => [mkMessage "system" (String c p)]
          | _ => []
          end) as Hfresh by (subst fresh; now destruct prompt as [[|c p]|]).
  split; [|exact Hfresh].
  change (conversation_history (state_of (reset_conversation self' tr')))
    with (Spec.system_msgs (conversation_history self')).
  rewrite Hsys, Hfresh. now destruct prompt as [[|c p]|].
Qed.

Lemma most_recent_keeps_tail {A} (n : nat) (l m : list A) :
  (List.length m <= n)%nat ->
  Spec.most_recent n (l ++ m) = Spec.most_recent (n - List.length m) l ++ m.
Proof.
  intros Hle. unfold Spec.most_recent.
  rewrite length_app, skipn_app.
  replace (List.length l + List.length m - n - List.length l)%nat with 0%nat by lia.
  cbn [skipn]. f_equal. f_equal. lia.
Qed.

(** X2.  An answered call leaves at most ten messages, however long the
    history had grown; a call that fails leaves one message more than
    before, untrimmed, so failures can take the history past the bound
    until the next answered call. *)
Theorem answered_call_restores_history_bound
    (user_message : string) (self : t) (tr : Trace) :
  let h := conversation_history self in
  let out := send_message create user_message self tr in
  (List.length (Spec.system_msgs h) <= 1)%nat ->
  Spec.whitespace_only user_message = false ->
  (forall text rest,
     create tr (Spec.request_for self user_message) = Ok (Some text :: rest) ->
     Py.len (conversation_history (state_of out)) <= Config.MAX_CONVERSATION_HISTORY) /\
  (forall e,
     create tr (Spec.request_for self user_message) = Raised e ->
     Py.len (conversation_history (state_of out)) = Py.len h + 1).
Proof.
  intros h out Hone Hvisible. subst out. split.
  - intros text rest Hcreate.
    erewrite send_message_answered by eauto.
    cbn [state_of fst snd set_history conversation_history].
    apply trim_length. rewrite system_msgs_app.
    unfold Spec.system_msgs at 2. cbn [filter is_system role String.eqb Ascii.eqb Bool.eqb].
    rewrite app_nil_r. fold h. unfold Config.MAX_CONVERSATION_HISTORY. lia.
  - intros e Hcreate.
    erewrite send_message_raised by eauto.
    cbn [state_of fst snd append set_history conversation_history].
    unfold Py.len. rewrite length_app. cbn [List.length]. fold h. lia.
Qed.



(** X4.  An answered call returns the stripped text of the first choice
    and leaves the history ending with the user message followed by the
    assistant message that holds exactly the returned text: trimming
    never drops the exchange it follows. *)
Theorem answered_call_ends_history_with_the_exchange
    (user_message : string) (self : t) (tr : Trace)
    (text : string) (rest : list (option string)) :
  let h := conversation_history self in
  let out := send_message create user_message self tr in
  (List.length (Spec.system_msgs h) <= 1)%nat ->
  Spec.whitespace_only user_message = false ->
  create tr (Spec.request_for self user_message) = Ok (Some text :: rest) ->
  result_of out = Ok (Some (Py.strip text)) /\
  exists earlier,
    conversation_history (state_of out) =
    earlier ++ [mkMessage "user" user_message;
                mkMessage "assistant" (Py.strip text)].
Proof.
  intros h out Hone Hvisible Hcreate. subst out.
  erewrite send_message_answered by eauto.
  cbn [result_of state_of fst snd set_history conversation_history].
  split; [reflexivity|]. fold h.
  set (new := [mkMessage "user" user_message; mkMessage "assistant" (Py.strip text)]).
  assert (Spec.system_msgs (h ++ new) = Spec.system_msgs h) as Hsys
    by (rewrite system_msgs_app; apply app_nil_r).
  assert (Spec.non_system_msgs (h ++ new) = Spec.non_system_msgs h ++ new) as Hother
    by (now rewrite non_system_msgs_app).
  rewrite trim_policy
    by (rewrite Hsys; unfold Config.MAX_CONVERSATION_HISTORY; lia).
  destruct (Py.len (h ++ new) >? Config.MAX_CONVERSATION_HISTORY).
  - rewrite Hsys, Hother.
    rewrite most_recent_keeps_tail
      by (unfold Config.MAX_CONVERSATION_HISTORY; cbn; lia).
    rewrite app_assoc. now eexists.
  - now exists h.
Qed.

End SessionMore.

(* ================================================================== *)
(** * Further properties of capture and transcription *)
(* ================================================================== *)

Section StripFacts.

Lemma lstrip_cases (s : string) :
  Py.lstrip s = EmptyString \/
  exists c t, Py.lstrip s = String c t /\ Py.isspace c = false.
Proof.
  induction s as [|c s IH]; [now left|].
  cbn [Py.lstrip]. destruct (Py.isspace c) eqn:Hc; [exact IH|].
  right. now exists c, s.
Qed.

Lemma rstrip_idem (s : string) : Py.rstrip (Py.rstrip s) = Py.rstrip s.
Proof.
  induction s as [|c s IH]; [reflexivity|].
  cbn [Py.rstrip].
  destruct (Py.rstrip s) as [|c' s'] eqn:Hs.
  - destruct (Py.isspace c) eqn:Hc; [reflexivity|].
    cbn [Py.rstrip]. now rewrite Hc.
  - cbn [Py.rstrip] in *. now rewrite IH.
Qed.

Lemma rstrip_visible_head (c : ascii) (s : string) :
  Py.isspace c = false -> exists s', Py.rstrip (String c s) = String c s'.
Proof.
  intros Hc. cbn [Py.rstrip].
  destruct (Py.rstrip s); [rewrite Hc|]; now eexists.
Qed.

(** [strip] leaves nothing to strip. *)
Lemma strip_idem (s : string) : Spec.stripped (Py.strip s).
Proof.
  unfold Spec.stripped, Py.strip.
  destruct (lstrip_cases s) as [->|(c & t & -> & Hc)]; [reflexivity|].
  destruct (rstrip_visible_head c t Hc) as (s' & Hs').
  rewrite Hs'. cbn [Py.lstrip]. rewrite Hc, <- Hs'. apply rstrip_idem.
Qed.

End StripFacts.

Section TranscriptionMore.

Import SpeechToText.

Variable whisper_transcribe : Trace -> list Q -> string -> Result (list string).

(** X5.  [transcribe] never raises and leaves the attributes alone.
    What it returns is [None] or a text that is not empty and has no
    leading or trailing whitespace: the segments of the recogniser
    joined by single spaces and stripped.  Without a model the
    recogniser is not called. *)
Theorem transcribe_returns_stripped_text_or_none
    (audio_data : list Q) (self : t) (tr : Trace) :
  let out := transcribe whisper_transcribe audio_data self tr in
  (exists r, result_of out = Ok r) /\
  state_of out = self /\
  (model self = false ->
   result_of out = Ok None /\
   trace_of out = tr ++ [Log ERROR "Whisper model not loaded"]) /\
  (forall text,
     result_of out = Ok (Some text) ->
     text <> EmptyString /\ Spec.stripped text /\
     exists segments,
       whisper_transcribe tr audio_data (language self) = Ok segments /\
       text = Py.strip (String.concat " " segments)).
Proof.
  intros out. subst out. unfold transcribe. run_method.
  destruct (model self); cbn [negb]; run_method.
  2:{ split; [now eexists|]. split; [reflexivity|].
      split; [now split|]. intros text H. discriminate H. }
  destruct (whisper_transcribe tr audio_data (language self))
    as [segments|e]; run_method.
  2:{ split; [now eexists|]. split; [reflexivity|].
      split; [discriminate|]. intros text H. discriminate H. }
  destruct (Py.truthy (Py.strip (String.concat " " segments))) eqn:Htext;
    run_method.
  - split; [now eexists|]. split; [reflexivity|].
    split; [discriminate|]. intros text H. injection H as <-.
    split; [|split].
    + intros Hempty. rewrite Hempty in Htext. discriminate.
    + apply strip_idem.
    + now exists segments.
  - split; [now eexists|]. split; [reflexivity|].
    split; [discriminate|]. intros text H. discriminate H.
Qed.

End TranscriptionMore.

Section CaptureMore.

Import SpeechToText.

Variable pyaudio_new : Trace -> Result unit.
Variable stream_open : Trace -> Z -> Z -> Result unit.
Variable stream_read : Trace -> Z -> Result (list Byte.byte).
Variable stream_stop : Trace -> Result unit.
Variable stream_close : Trace -> Result unit.
Variable pyaudio_terminate : Trace -> Result unit.
Variable whisper_transcribe : Trace -> list Q -> string -> Result (list string).

Let record :=
  record_audio pyaudio_new stream_open stream_read stream_stop stream_close
               pyaudio_terminate.

Lemma pairs_ind (P : list Byte.byte -> Prop) :
  P [] -> (forall x, P [x]) -> (forall x y l, P l -> P (x :: y :: l)) ->
  forall l, P l.
Proof.
  intros Hnil Hone Hstep l.
  enough (P l /\ forall x, P (x :: l)) by tauto.
  induction l as [|y l [IH0 IH1]]; split; auto.
Qed.

Lemma int16_range (lo hi : Byte.byte) : -32768 <= int16 lo hi <= 32767.
Proof.
  unfold int16.
  pose proof (Byte.to_N_bounded lo). pose proof (Byte.to_N_bounded hi).
  destruct (_ <? 32768) eqn:Hu; [apply Z.ltb_lt in Hu|apply Z.ltb_ge in Hu]; lia.
Qed.

(** Decoding gives one sample for every two bytes, each an [int16]. *)
Lemma frombuffer_samples (data : list Byte.byte) :
  forall samples,
    frombuffer data = Some samples ->
    List.length data = (2 * List.length samples)%nat /\
    Forall (fun x => -32768 <= x <= 32767) samples.
Proof.
  induction data as [| |lo hi rest IH] using pairs_ind; intros samples Hdec.
  - injection Hdec as <-. now split.
  - discriminate.
  - cbn [frombuffer] in Hdec.
    destruct (frombuffer rest) as [tail|]; [|discriminate].
    injection Hdec as <-. destruct (IH tail eq_refl) as [Hlen Hrange].
    split; [cbn [List.length]; lia|].
    constructor; [apply int16_range|exact Hrange].
Qed.

(** What the capture loop adds to the trace: log records and device
    calls only, with at most one read per round. *)
Lemma capture_loop_trace (chunk_size silence_threshold max_silent_chunks : Z)
    (n : nat) :
  forall (st : Capture) (self : t) (tr : Trace),
    exists st' added,
      capture_loop stream_read chunk_size silence_threshold max_silent_chunks
                   n st self tr = (Ok st', self, tr ++ added) /\
      Forall (fun ev => Spec.capture_event ev = true) added /\
      (Spec.reads added <= n)%nat.
Proof.
  induction n as [|n IH]; intros st self tr.
  - exists st, []. rewrite app_nil_r. repeat split; [constructor|apply Nat.le_refl].
  - cbn [capture_loop]. run_method.
    destruct (stream_read tr chunk_size) as [data|e]; run_method.
    2:{ eexists _, [_; _]. rewrite <- app_assoc.
        split; [reflexivity|]. split; [now repeat constructor|cbn; lia]. }
    destruct (frombuffer data) as [samples|]; run_method.
    2:{ eexists _, [_; _]. rewrite <- app_assoc.
        split; [reflexivity|]. split; [now repeat constructor|cbn; lia]. }
    match goal with |- context [if ?c then _ else _] => destruct c end.
    + eexists _, [_]. split; [reflexivity|].
      split; [now repeat constructor|cbn; lia].
    + match goal with |- context [capture_loop _ _ _ _ n ?st2 self ?t] =>
        destruct (IH st2 self t) as (st' & added & Hloop & Hev & Hreads)
      end.
      exists st', (StreamRead chunk_size :: added).
      rewrite Hloop, <- app_assoc. split; [reflexivity|].
      split; [now constructor|].
      unfold Spec.reads in *. cbn [filter List.length]. lia.
Qed.

Ltac only_capture_events :=
  repeat first
    [ apply Forall_nil
    | apply Forall_cons; [reflexivity|]
    | apply Forall_app; split
    | assumption ].

Ltac count_reads :=
  unfold Spec.reads in *; cbn [filter];
  rewrite ?filter_app, ?length_app; cbn [filter List.length app]; lia.

(** How far [record_audio] got when it returns an utterance. *)
Lemma record_audio_utterance
    (sample_rate chunk_size silence_threshold : Z) (silence_duration : Q)
    (max_duration : Z) (self : t) (tr : Trace) (audio : list Q) :
  result_of (record sample_rate chunk_size silence_threshold silence_duration
                    max_duration self tr) = Ok (Some audio) ->
  exists max_silent_chunks max_chunks st tr' samples,
    capture_loop stream_read chunk_size silence_threshold max_silent_chunks
                 (Z.to_nat max_chunks) (mkCapture [] 0 false)
                 (set_pyaudio_instance true self)
                 (tr ++ [PyAudioNew; StreamOpen sample_rate chunk_size]) =
    (Ok st, set_pyaudio_instance true self, tr') /\
    has_speech st = true /\
    frombuffer (List.concat (frames st)) = Some samples /\
    audio = map (fun x => x # 32768) samples.
Proof.
  unfold record, record_audio. run_method.
  destruct (pyaudio_new tr) as [[]|e]; [|discriminate].
  destruct (stream_open _ _ _) as [[]|e]; [|discriminate].
  unfold lift_option.
  destruct (chunks_in silence_duration _ _) as [max_silent_chunks|]; [|discriminate].
  destruct (chunks_in (inject_Z max_duration) _ _) as [max_chunks|]; [|discriminate].
  run_method. rewrite <- app_assoc. cbn [app].
  destruct (capture_loop_trace chunk_size silence_threshold max_silent_chunks
              (Z.to_nat max_chunks) (mkCapture [] 0 false)
              (set_pyaudio_instance true self)
              (tr ++ [PyAudioNew; StreamOpen sample_rate chunk_size]))
    as (st & added & Hloop & _).
  rewrite Hloop.
  destruct (stream_stop _) as [[]|e]; [|discriminate].
  destruct (stream_close _) as [[]|e]; [|discriminate].
  destruct (pyaudio_terminate _) as [[]|e]; [|discriminate].
  destruct (has_speech st) eqn:Hspeech; cbn [negb]; [|discriminate].
  destruct (frombuffer (List.concat (frames st))) as [samples|] eqn:Hdec;
    [|discriminate].
  intros H. injection H as <-.
  now exists max_silent_chunks, max_chunks, st,
    ((tr ++ [PyAudioNew; StreamOpen sample_rate chunk_size]) ++ added), samples.
Qed.

Lemma record_audio_utterance_not_empty
    (sample_rate chunk_size silence_threshold : Z) (silence_duration : Q)
    (max_duration : Z) (self : t) (tr : Trace) (audio : list Q) :
  result_of (record sample_rate chunk_size silence_threshold silence_duration
                    max_duration self tr) = Ok (Some audio) ->
  audio <> [].
Proof.
  intros Hout.
  destruct (record_audio_utterance _ _ _ _ _ _ _ _ Hout)
    as (max_silent & max_chunks & st & tr' & samples & Hloop & Hspeech & Hdec & ->).
  destruct (frombuffer_samples _ _ Hdec) as [Hlen _].
  destruct (capture_loop_speech stream_read chunk_size silence_threshold
              max_silent (Z.to_nat max_chunks) (mkCapture [] 0 false)
              (set_pyaudio_instance true self)
              (tr ++ [PyAudioNew; StreamOpen sample_rate chunk_size]))
    as (st0 & tr0 & added & Hloop0 & Hframes & Hspeech0).
  rewrite Hloop in Hloop0. injection Hloop0 as <- _.
  cbn [frames has_speech app orb] in Hframes, Hspeech0.
  rewrite Hspeech, <- Hframes in Hspeech0. symmetry in Hspeech0.
  apply existsb_exists in Hspeech0 as (chunk & Hin & Hloud).
  unfold Spec.chunk_exceeds in Hloud.
  destruct (frombuffer chunk) as [heard|] eqn:Hchunk; [|discriminate].
  destruct (frombuffer_samples _ _ Hchunk) as [Hchunk_len _].
  assert (List.length chunk <= List.length (List.concat (frames st)))%nat as Hle.
  { apply in_split in Hin as (before & after & ->).
    rewrite concat_app, length_app. cbn [List.concat].
    rewrite length_app. lia. }
  destruct heard as [|x heard]; [discriminate Hloud|].
  destruct samples; [cbn [List.length] in *; lia|discriminate].
Qed.

(** X6.  An utterance that [record_audio] returns is not empty, and
    each of its samples lies in [-1, 1): silence never comes back as a
    buffer, and full-scale 16-bit audio maps into the unit interval. *)
Theorem recorded_utterance_is_normalised_and_not_empty
    (sample_rate chunk_size silence_threshold : Z) (silence_duration : Q)
    (max_duration : Z) (self : t) (tr : Trace) (audio : list Q) :
  result_of (record sample_rate chunk_size silence_threshold silence_duration
                    max_duration self tr) = Ok (Some audio) ->
  audio <> [] /\ Forall (fun q => (-1 <= q)%Q /\ (q < 1)%Q) audio.
Proof.
  intros Hout. split; [now apply record_audio_utterance_not_empty in Hout|].
  destruct (record_audio_utterance _ _ _ _ _ _ _ _ Hout)
    as (max_silent & max_chunks & st & tr' & samples & Hloop & Hspeech & Hdec & ->).
  destruct (frombuffer_samples _ _ Hdec) as [_ Hrange].
  apply Forall_map. eapply Forall_impl; [|exact Hrange].
  intros x Hx. cbv beta in Hx. unfold Qle, Qlt. cbn. lia.
Qed.

Lemma record_audio_adds
    (sample_rate chunk_size silence_threshold : Z) (silence_duration : Q)
    (max_duration : Z) (self : t) (tr : Trace) :
  exists added,
    trace_of (record sample_rate chunk_size silence_threshold silence_duration
                     max_duration self tr) = tr ++ added /\
    Forall (fun ev => Spec.capture_event ev = true) added /\
    (Spec.reads added <=
     match chunks_in (inject_Z max_duration) sample_rate chunk_size with
     | Some max_chunks => Z.to_nat max_chunks
     | None => 0
     end)%nat.
Proof.
  unfold record, record_audio. run_method.
  destruct (pyaudio_new tr) as [[]|e].
  2:{ eexists. rewrite <- ?app_assoc. split; [reflexivity|].
      split; [only_capture_events|count_reads]. }
  destruct (stream_open _ _ _) as [[]|e].
  2:{ eexists. rewrite <- ?app_assoc. split; [reflexivity|].
      split; [only_capture_events|count_reads]. }
  unfold lift_option.
  destruct (chunks_in silence_duration _ _) as [max_silent_chunks|].
  2:{ run_method. eexists. rewrite <- ?app_assoc. split; [reflexivity|].
      split; [only_capture_events|count_reads]. }
  destruct (chunks_in (inject_Z max_duration) _ _) as [max_chunks|].
  2:{ run_method. eexists. rewrite <- ?app_assoc. split; [reflexivity|].
      split; [only_capture_events|count_reads]. }
  run_method.
  match goal with |- context [capture_loop _ _ _ _ ?n ?st ?s ?t] =>
    destruct (capture_loop_trace chunk_size silence_threshold max_silent_chunks
                n st s t) as (st' & added & Hloop & Hev & Hreads)
  end.
  rewrite Hloop.
  destruct (stream_stop _) as [[]|e].
  2:{ eexists. rewrite <- ?app_assoc. split; [reflexivity|].
      split; [only_capture_events|count_reads]. }
  destruct (stream_close _) as [[]|e].
  2:{ eexists. rewrite <- ?app_assoc. split; [reflexivity|].
      split; [only_capture_events|count_reads]. }
  destruct (pyaudio_terminate _) as [[]|e].
  2:{ eexists. rewrite <- ?app_assoc. split; [reflexivity|].
      split; [only_capture_events|count_reads]. }
  destruct (has_speech st'); cbn [negb].
  2:{ eexists. rewrite <- ?app_assoc. split; [reflexivity|].
      split; [only_capture_events|count_reads]. }
  destruct (frombuffer _);
    (eexists; rewrite <- ?app_assoc; split; [reflexivity|];
     split; [only_capture_events|count_reads]).
Qed.

(** X7.  A recording only logs and talks to the audio device, and it
    reads at most [int(max_duration * sample_rate / chunk_size)] chunks
    (none when that division fails): the capture is bounded, whatever
    the microphone delivers. *)
Theorem recording_is_bounded
    (sample_rate chunk_size silence_threshold : Z) (silence_duration : Q)
    (max_duration : Z) (self : t) (tr : Trace) :
  exists added,
    trace_of (record sample_rate chunk_size silence_threshold silence_duration
                     max_duration self tr) = tr ++ added /\
    Forall (fun ev => Spec.capture_event ev = true) added /\
    (Spec.reads added <=
     match chunks_in (inject_Z max_duration) sample_rate chunk_size with
     | Some max_chunks => Z.to_nat max_chunks
     | None => 0
     end)%nat.
Proof. apply record_audio_adds. Qed.

Lemma record_audio_returns
    (sample_rate chunk_size silence_threshold : Z) (silence_duration : Q)
    (max_duration : Z) (self : t) (tr : Trace) :
  exists r self' added,
    record sample_rate chunk_size silence_threshold silence_duration
           max_duration self tr = (Ok r, self', tr ++ added) /\
    Forall (fun ev => Spec.capture_event ev = true) added.
Proof.
  destruct (record_audio_adds sample_rate chunk_size silence_threshold
              silence_duration max_duration self tr) as (added & Htrace & Hev & _).
  destruct (try_except_never_raises
              (S := t)
              (extern PyAudioNew pyaudio_new ;;
               modify (set_pyaudio_instance true) ;;
               extern (StreamOpen sample_rate chunk_size)
                      (fun past => stream_open past sample_rate chunk_size) ;;
               max_silent_chunks <-
                 lift_option (chunks_in silence_duration sample_rate chunk_size)
                             ZeroDivisionError ;;
               max_chunks <-
                 lift_option (chunks_in (inject_Z max_duration) sample_rate chunk_size)
                             ZeroDivisionError ;;
               st <- capture_loop stream_read chunk_size silence_threshold
                                  max_silent_chunks
                                  (Z.to_nat max_chunks) (mkCapture [] 0 false) ;;
               extern StreamStop stream_stop ;;
               extern StreamClose stream_close ;;
               extern PyAudioTerminate pyaudio_terminate ;;
               if negb (has_speech st) then
                 log WARNING "No speech detected in recording" ;;
                 ret None
               else
                 audio_data <- lift_option (frombuffer (List.concat (frames st)))
                                           ValueError ;;
                 let audio_float := map (fun x => x # 32768) audio_data in
                 ret (Some audio_float))
              (fun e => log ERROR "Audio recording failed: " ;; ret None)
              (fun e => logged_none_never_raises ERROR "Audio recording failed: ")
              self tr) as (r & self' & tr' & Heq).
  change (record sample_rate chunk_size silence_threshold silence_duration
                 max_duration self tr = (Ok r, self', tr')) in Heq.
  rewrite Heq in Htrace. cbn [trace_of snd] in Htrace. subst tr'.
  now exists r, self', added.
Qed.

(** What [transcribe] adds to the trace: log records, and at most one
    call of the recogniser, on the audio it was given. *)
Lemma transcribe_adds (audio_data : list Q) (self : t) (tr : Trace) :
  exists r added,
    transcribe whisper_transcribe audio_data self tr = (Ok r, self, tr ++ added) /\
    forall other, In (WhisperTranscribe other) added -> other = audio_data.
Proof.
  unfold transcribe. run_method.
  destruct (model self); cbn [negb]; run_method.
  2:{ eexists _, [_]. split; [reflexivity|]. intros other [H|[]]. discriminate H. }
  destruct (whisper_transcribe tr audio_data (language self)) as [segments|e];
    run_method.
  2:{ eexists _, [_; _]. rewrite <- app_assoc. split; [reflexivity|].
      intros other [H|[H|[]]]; [now injection H|discriminate H]. }
  destruct (Py.truthy _); run_method.
  - eexists _, [_]. split; [reflexivity|].
    intros other [H|[]]. now injection H.
  - eexists _, [_; _]. rewrite <- app_assoc. split; [reflexivity|].
    intros other [H|[H|[]]]; [now injection H|discriminate H].
Qed.

(** X8.  [record_and_transcribe] never raises.  It hands the
    recogniser nothing but the utterance that the recording returned,
    which is never empty; when the recording returned [None], so does
    [record_and_transcribe], and the recogniser is not called at all. *)
Theorem only_a_recorded_utterance_is_transcribed (self : t) (tr : Trace) :
  let recording :=
    record Config.AUDIO_SAMPLE_RATE Config.AUDIO_CHUNK_SIZE
           Config.SILENCE_THRESHOLD Config.SILENCE_DURATION
           Config.RECORDING_TIMEOUT self tr in
  let out :=
    record_and_transcribe pyaudio_new stream_open stream_read stream_stop
                          stream_close pyaudio_terminate whisper_transcribe
                          self tr in
  exists r added,
    result_of out = Ok r /\
    trace_of out = tr ++ added /\
    (forall audio,
       In (WhisperTranscribe audio) added ->
       result_of recording = Ok (Some audio) /\ audio <> []) /\
    (result_of recording = Ok None ->
     r = None /\ trace_of out = trace_of recording).
Proof.
  intros recording out. subst out recording. unfold record_and_transcribe.
  fold record. unfold bind.
  destruct (record_audio_returns Config.AUDIO_SAMPLE_RATE Config.AUDIO_CHUNK_SIZE
              Config.SILENCE_THRESHOLD Config.SILENCE_DURATION
              Config.RECORDING_TIMEOUT self tr)
    as (heard & self' & added & Hrec & Hev).
  pose proof (record_audio_utterance_not_empty
                Config.AUDIO_SAMPLE_RATE Config.AUDIO_CHUNK_SIZE
                Config.SILENCE_THRESHOLD Config.SILENCE_DURATION
                Config.RECORDING_TIMEOUT self tr) as Hfull.
  rewrite Hrec in *. cbn [result_of trace_of fst snd] in *.
  destruct heard as [audio|]; cbn beta iota.
  - destruct (transcribe_adds audio self' (tr ++ added))
      as (r & added' & Htr & Honly).
    rewrite Htr. cbn [result_of trace_of fst snd].
    exists r, (added ++ added'). rewrite app_assoc.
    split; [reflexivity|]. split; [reflexivity|]. split; [|discriminate].
    intros other Hin. apply in_app_or in Hin as [Hin|Hin].
    + rewrite Forall_forall in Hev. apply Hev in Hin. discriminate Hin.
    + apply Honly in Hin. subst other. split; [reflexivity|].
      now apply Hfull.
  - exists None, added. unfold ret. cbn [result_of trace_of fst snd].
    split; [reflexivity|]. split; [reflexivity|]. split; [|now split].
    intros other Hin. rewrite Forall_forall in Hev. apply Hev in Hin.
    discriminate Hin.
Qed.

End CaptureMore.

Section CaptureCleanup.

Import SpeechToText.

Variable pyaudio_new : Trace -> Result unit.
Variable stream_open : Trace -> Z -> Z -> Result unit.
Variable stream_read : Trace -> Z -> Result (list Byte.byte).
Variable stream_stop : Trace -> Result unit.
Variable stream_close : Trace -> Result unit.
Variable pyaudio_terminate : Trace -> Result unit.

(** [record_audio] touches one attribute: it sets [pyaudio_instance]
    once [PyAudio()] has succeeded, and never resets it. *)
Lemma record_audio_state
    (sample_rate chunk_size silence_threshold : Z) (silence_duration : Q)
    (max_duration : Z) (self : t) (tr : Trace) :
  state_of (record_audio pyaudio_new stream_open stream_read stream_stop
              stream_close pyaudio_terminate sample_rate chunk_size
              silence_threshold silence_duration max_duration self tr) =
  match pyaudio_new tr with
  | Ok _ => set_pyaudio_instance true self
  | Raised _ => self
  end.
Proof.
  unfold record_audio. run_method.
  destruct (pyaudio_new tr) as [[]|e]; [|reflexivity].
  destruct (stream_open _ _ _) as [[]|e]; [|reflexivity].
  unfold lift_option.
  destruct (chunks_in silence_duration _ _) as [max_silent_chunks|]; [|reflexivity].
  destruct (chunks_in (inject_Z max_duration) _ _) as [max_chunks|]; [|reflexivity].
  run_method.
  match goal with |- context [capture_loop _ _ _ _ ?n ?st ?s ?t] =>
    destruct (capture_loop_trace stream_read chunk_size silence_threshold
                max_silent_chunks n st s t) as (st' & added & Hloop & _)
  end.
  rewrite Hloop.
  destruct (stream_stop _) as [[]|e]; [|reflexivity].
  destruct (stream_close _) as [[]|e]; [|reflexivity].
  destruct (pyaudio_terminate _) as [[]|e]; [|reflexivity].
  destruct (has_speech st'); cbn [negb]; [|reflexivity].
  destruct (frombuffer _); reflexivity.
Qed.

(** X9.  [cleanup] of the capture never raises: it terminates PyAudio
    when the attribute is set, logs a failure instead of raising it,
    and clears the attribute, so that a second [cleanup] does nothing.
    A recording leaves the attribute set although it has terminated
    the instance itself, so the [cleanup] after a recording terminates
    it once more. *)
Theorem capture_cleanup_is_idempotent (self : t) (tr : Trace) :
  let out := cleanup pyaudio_terminate self tr in
  result_of out = Ok tt /\
  pyaudio_instance (state_of out) = false /\
  trace_of out =
    tr ++ (if pyaudio_instance self then
             PyAudioTerminate ::
             match pyaudio_terminate tr with
             | Ok _ => []
             | Raised _ => [Log ERROR "Error terminating PyAudio: "]
             end
           else []) /\
  cleanup pyaudio_terminate (state_of out) (trace_of out) =
    (Ok tt, state_of out, trace_of out) /\
  (forall sample_rate chunk_size silence_threshold silence_duration max_duration,
     pyaudio_new tr = Ok tt ->
     pyaudio_instance
       (state_of (record_audio pyaudio_new stream_open stream_read stream_stop
                    stream_close pyaudio_terminate sample_rate chunk_size
                    silence_threshold silence_duration max_duration self tr)) = true).
Proof.
  intros out. subst out. unfold cleanup. run_method.
  destruct (pyaudio_instance self) eqn:Hset.
  - run_method. destruct (pyaudio_terminate tr) as [[]|e]; run_method;
      cbn [result_of state_of trace_of fst snd pyaudio_instance set_pyaudio_instance];
      rewrite <- ?app_assoc;
      (repeat split; try reflexivity;
       intros; rewrite record_audio_state; destruct (pyaudio_new tr);
       [reflexivity|discriminate]).
  - run_method. cbn [result_of state_of trace_of fst snd]. rewrite Hset, app_nil_r.
    repeat split; try reflexivity.
    intros; rewrite record_audio_state; destruct (pyaudio_new tr);
      [reflexivity|discriminate].
Qed.

End CaptureCleanup.

(* ================================================================== *)
(** * Further properties of the speech output adapter *)
(* ================================================================== *)

Section SpeechMore.

Import TextToSpeech.

Variable engine_say : Trace -> string -> Result unit.
Variable engine_runAndWait : Trace -> Result unit.
Variable engine_stop : Trace -> Result unit.
Variable engine_set_rate : Trace -> Z -> Result unit.
Variable engine_set_volume : Trace -> Q -> Result unit.

Lemma blank_text (text : string) :
  negb (Py.truthy text) || negb (Py.truthy (Py.strip text)) =
  Spec.whitespace_only text.
Proof.
  rewrite truthy_strip, negb_involutive.
  destruct text; [reflexivity|]. cbn [Py.truthy negb orb]. reflexivity.
Qed.

(** What [speak] does for a text that is blank or without an engine:
    it logs, returns [False] and leaves the engine alone. *)
Lemma speak_refuses (text : string) (blocking : bool) (self : t) (tr : Trace) :
  Spec.whitespace_only text = true \/ engine self = false ->
  speak engine_say engine_runAndWait text blocking self tr =
  (Ok false, self,
   tr ++ [if Spec.whitespace_only text
          then Log WARNING "Empty text provided to TTS"
          else Log ERROR "TTS engine not initialized"]).
Proof.
  intros Hcase. unfold speak. rewrite blank_text.
  destruct (Spec.whitespace_only text); [reflexivity|].
  destruct Hcase as [Hcase|Hcase]; [discriminate|].
  run_method. now rewrite Hcase.
Qed.

(** X10.  [speak] leaves the attributes alone and returns [True]
    exactly when the text is not blank, the engine is there, and the
    engine accepted the text and (when blocking) played it.  For a
    blank text or without an engine it returns [False] and does not
    call the engine. *)
Theorem speak_reports_what_the_engine_did
    (text : string) (blocking : bool) (self : t) (tr : Trace) :
  let out := speak engine_say engine_runAndWait text blocking self tr in
  state_of out = self /\
  (result_of out = Ok true \/ result_of out = Ok false) /\
  (result_of out = Ok true <->
   Spec.whitespace_only text = false /\ engine self = true /\
   engine_say tr text = Ok tt /\
   (blocking = true -> engine_runAndWait (tr ++ [EngineSay text]) = Ok tt)) /\
  (Spec.whitespace_only text = true \/ engine self = false ->
   result_of out = Ok false /\
   forall ev, In ev (trace_of out) -> In ev tr \/ exists level msg, ev = Log level msg).
Proof.
  intros out. subst out.
  destruct (Spec.whitespace_only text) eqn:Hblank.
  { rewrite speak_refuses by (left; exact Hblank). rewrite Hblank.
    cbn [result_of state_of trace_of fst snd].
    split; [reflexivity|]. split; [now right|]. split.
    - split; [discriminate|]. intros [H _]. discriminate H.
    - intros _. split; [reflexivity|]. intros ev Hin.
      apply in_app_or in Hin as [Hin|[<-|[]]]; [now left|right; now eexists _, _]. }
  destruct (engine self) eqn:Hengine.
  2:{ rewrite speak_refuses by (right; exact Hengine). rewrite Hblank.
      cbn [result_of state_of trace_of fst snd].
      split; [reflexivity|]. split; [now right|]. split.
      - split; [discriminate|]. intros (_ & H & _). discriminate H.
      - intros _. split; [reflexivity|]. intros ev Hin.
        apply in_app_or in Hin as [Hin|[<-|[]]]; [now left|right; now eexists _, _]. }
  unfold speak. rewrite blank_text, Hblank. run_method.
  rewrite Hengine. cbn [negb]. run_method.
  destruct (engine_say tr text) as [[]|e]; run_method.
  2:{ cbn [result_of state_of trace_of fst snd].
      split; [reflexivity|]. split; [now right|]. split.
      - split; [discriminate|]. intros (_ & _ & H & _). discriminate H.
      - intros [H|H]; discriminate H. }
  destruct blocking; run_method.
  - destruct (engine_runAndWait (tr ++ [EngineSay text])) as [[]|e]; run_method;
      cbn [result_of state_of trace_of fst snd].
    + split; [reflexivity|]. split; [now left|]. split.
      * split; [now repeat split|reflexivity].
      * intros [H|H]; discriminate H.
    + split; [reflexivity|]. split; [now right|]. split.
      * split; [discriminate|]. intros (_ & _ & _ & H).
        specialize (H eq_refl). discriminate H.
      * intros [H|H]; discriminate H.
  - cbn [result_of state_of trace_of fst snd].
    split; [reflexivity|]. split; [now left|]. split.
    + split; [|reflexivity]. intros _. repeat split. discriminate.
    + intros [H|H]; discriminate H.
Qed.

(** X11.  With an engine, [set_volume] hands the engine one volume,
    which lies in [0, 1]: the argument itself when it is in that range,
    and the nearer end of the range otherwise. *)
Theorem set_volume_hands_the_engine_a_clamped_volume
    (volume : Q) (self : t) (tr : Trace) :
  engine self = true ->
  exists applied,
    trace_of (set_volume engine_set_volume volume self tr) =
      tr ++ [EngineSetVolume applied] /\
    (0 <= applied <= 1)%Q /\
    ((0 <= volume <= 1)%Q -> (applied == volume)%Q) /\
    ((volume < 0)%Q -> applied = 0%Q) /\
    ((1 < volume)%Q -> applied = 1%Q).
Proof.
  intros Hengine. exists (py_max 0 (py_min 1 volume)).
  split; [|split; [apply set_volume_clamps|]].
  - unfold set_volume. run_method. now rewrite Hengine.
  - unfold py_max, py_min. split; [|split].
    + intros [H0 H1].
      destruct (Qle_bool 1 volume) eqn:E1.
      * apply Qle_bool_iff in E1. cbn. now apply Qle_antisym.
      * destruct (Qle_bool volume 0) eqn:E0; [|reflexivity].
        apply Qle_bool_iff in E0. now apply Qle_antisym.
    + intros Hneg.
      destruct (Qle_bool 1 volume) eqn:E1.
      * apply Qle_bool_iff in E1. exfalso.
        apply (Qlt_irrefl 0). eapply Qlt_trans; [|exact Hneg].
        eapply Qlt_le_trans; [|exact E1]. reflexivity.
      * destruct (Qle_bool volume 0) eqn:E0; [reflexivity|].
        apply Qlt_le_weak, Qle_bool_iff in Hneg. congruence.
    + intros Hbig.
      destruct (Qle_bool 1 volume) eqn:E1; [reflexivity|].
      apply Qlt_le_weak, Qle_bool_iff in Hbig. congruence.
Qed.

End SpeechMore.

Section SpeechLifecycle.

Import TextToSpeech.

Variable engine_say : Trace -> string -> Result unit.
Variable engine_runAndWait : Trace -> Result unit.
Variable engine_stop : Trace -> Result unit.
Variable engine_set_rate : Trace -> Z -> Result unit.
Variable engine_set_volume : Trace -> Q -> Result unit.

(** X12.  [cleanup] of the speech output never raises, stops the
    engine at most once and drops it.  On the adapter it leaves
    behind, a second [cleanup], [stop], [set_rate] and [set_volume] do
    nothing at all, and [speak] returns [False] without a call of the
    engine. *)
Theorem speech_cleanup_drops_the_engine (self : t) (tr : Trace) :
  let out := cleanup engine_stop self tr in
  let self' := state_of out in
  let tr' := trace_of out in
  result_of out = Ok tt /\
  engine self' = false /\
  tr' = tr ++ (if engine self then
                 EngineStop ::
                 match engine_stop tr with
                 | Ok _ => []
                 | Raised _ => [Log ERROR "Error during TTS cleanup: "]
                 end
               else []) /\
  cleanup engine_stop self' tr' = (Ok tt, self', tr') /\
  stop engine_stop self' tr' = (Ok tt, self', tr') /\
  (forall rate, set_rate engine_set_rate rate self' tr' = (Ok tt, self', tr')) /\
  (forall volume, set_volume engine_set_volume volume self' tr' = (Ok tt, self', tr')) /\
  (forall text blocking,
     exists line,
       speak engine_say engine_runAndWait text blocking self' tr' =
       (Ok false, self', tr' ++ [Log (fst line) (snd line)])).
Proof.
  intros out self' tr'.
  assert (Hout : out = (Ok tt, set_engine false self,
                        tr ++ (if engine self then
                                 EngineStop ::
                                 match engine_stop tr with
                                 | Ok _ => []
                                 | Raised _ => [Log ERROR "Error during TTS cleanup: "]
                                 end
                               else []))).
  { subst out. unfold cleanup. run_method.
    destruct self as [name rate index [|]]; cbn [engine]; run_method.
    - destruct (engine_stop tr) as [[]|e]; run_method;
        rewrite <- ?app_assoc; reflexivity.
    - now rewrite app_nil_r. }
  subst self' tr'. rewrite Hout. cbn [result_of state_of trace_of fst snd].
  split; [reflexivity|]. split; [reflexivity|]. split; [reflexivity|].
  split; [reflexivity|]. split; [reflexivity|].
  split; [intros; reflexivity|]. split; [intros; reflexivity|].
  intros text blocking.
  exists (if Spec.whitespace_only text
          then (WARNING, "Empty text provided to TTS")
          else (ERROR, "TTS engine not initialized")).
  rewrite speak_refuses by (right; reflexivity).
  destruct (Spec.whitespace_only text); reflexivity.
Qed.

End SpeechLifecycle.

Section SpeechConstruction.

Import TextToSpeech.

Variable pyttsx3_init : Trace -> Result unit.
Variable engine_set_rate : Trace -> Z -> Result unit.
Variable engine_get_voices : Trace -> Result (list string).
Variable engine_set_voice : Trace -> string -> Result unit.
Variable engine_set_volume : Trace -> Q -> Result unit.

Let construct := __init__ pyttsx3_init engine_set_rate engine_get_voices
                          engine_set_voice engine_set_volume.

(** X13.  Construction of the speech output on an engine whose calls
    all succeed and which offers [voices].  When the engine offers no
    voice at all, or the voice index is at or beyond the number of
    voices, the index is ignored, whatever it is: the engine keeps
    its own voice.  When there is at least one voice, an index from 0
    up selects that voice, a negative index down to minus the number
    of voices selects counting from the end, and a smaller index
    makes the construction fail with [IndexError], after the engine
    has been created. *)
Theorem construction_selects_the_voice_by_python_indexing
    (voices : list string) (self : t) (tr : Trace) :
  (forall past, pyttsx3_init past = Ok tt) ->
  (forall past rate, engine_set_rate past rate = Ok tt) ->
  (forall past, engine_get_voices past = Ok voices) ->
  (forall past id, engine_set_voice past id = Ok tt) ->
  (forall past volume, engine_set_volume past volume = Ok tt) ->
  let index := voice_index self in
  let out := construct self tr in
  (voices = [] \/ Py.len voices <= index ->
   out = (Ok tt, set_engine true self, tr ++ Spec.construction_events self None)) /\
  (0 <= index < Py.len voices ->
   exists id, nth_error voices (Z.to_nat index) = Some id /\
     out = (Ok tt, set_engine true self, tr ++ Spec.construction_events self (Some id))) /\
  (- Py.len voices <= index < 0 ->
   exists id, nth_error voices (Z.to_nat (Py.len voices + index)) = Some id /\
     out = (Ok tt, set_engine true self, tr ++ Spec.construction_events self (Some id))) /\
  (index < - Py.len voices -> voices <> [] ->
   result_of out = Raised IndexError /\
   engine (state_of out) = true /\
   trace_of out =
     tr ++ Spec.construction_start self ++
     [Log ERROR "Failed to initialize TTS engine: "]).
Proof.
  intros Hinit Hrate Hvoices Hvoice Hvolume index out.
  assert (Hrun : out =
    let guard := negb (Py.len voices =? 0) && (Py.len voices >? index) in
    let pre := tr ++ Spec.construction_start self in
    if guard then
      match Py.index voices index with
      | Some id => (Ok tt, set_engine true self,
                    tr ++ Spec.construction_events self (Some id))
      | None => (Raised IndexError, set_engine true self,
                 pre ++ [Log ERROR "Failed to initialize TTS engine: "])
      end
    else (Ok tt, set_engine true self, tr ++ Spec.construction_events self None)).
  { subst out construct index. unfold __init__, _initialize_engine, _initialize_pyttsx3,
      Spec.construction_events, Spec.construction_start.
    run_method. cbn [engine_name voice_rate voice_index set_engine].
    destruct (String.eqb (engine_name self) "pyttsx3"); run_method;
      rewrite ?Hinit; run_method;
      cbn [engine_name voice_rate voice_index set_engine];
      rewrite ?Hrate; run_method; rewrite ?Hvoices; run_method;
      cbn [engine_name voice_rate voice_index set_engine];
      (destruct (negb (Py.len voices =? 0) && (Py.len voices >? voice_index self));
       [destruct (Py.index voices (voice_index self)) as [id|]|]);
      run_method; rewrite ?Hvoice; run_method; rewrite ?Hvolume; run_method;
      cbn [app]; rewrite <- ?app_assoc; cbn [app]; try reflexivity;
      destruct self; reflexivity. }
  cbv zeta in Hrun.
  assert (Hlen : 0 <= Py.len voices) by (unfold Py.len; lia).
  assert (Hnth : forall n, (n < List.length voices)%nat ->
                 exists id, nth_error voices n = Some id).
  { intros n Hn. destruct (nth_error voices n) eqn:E; [now eexists|].
    apply nth_error_None in E. lia. }
  split; [|split; [|split]].
  - intros [Hnone|Hbig]; rewrite Hrun.
    + subst voices. reflexivity.
    + replace (Py.len voices >? index) with false
        by (symmetry; rewrite Z.gtb_ltb; apply Z.ltb_ge; lia).
      now rewrite andb_false_r.
  - intros Hin.
    destruct (Hnth (Z.to_nat index)) as [id Hid]; [unfold Py.len in *; lia|].
    exists id. split; [exact Hid|]. rewrite Hrun.
    replace (Py.len voices >? index) with true
      by (symmetry; rewrite Z.gtb_ltb; apply Z.ltb_lt; lia).
    replace (Py.len voices =? 0) with false by (symmetry; apply Z.eqb_neq; lia).
    cbn [negb andb]. unfold Py.index.
    replace (index <? 0) with false by (symmetry; apply Z.ltb_ge; lia).
    now rewrite Hid.
  - intros Hin.
    destruct (Hnth (Z.to_nat (Py.len voices + index))) as [id Hid];
      [unfold Py.len in *; lia|].
    exists id. split; [exact Hid|]. rewrite Hrun.
    replace (Py.len voices >? index) with true
      by (symmetry; rewrite Z.gtb_ltb; apply Z.ltb_lt; lia).
    replace (Py.len voices =? 0) with false by (symmetry; apply Z.eqb_neq; lia).
    cbn [negb andb]. unfold Py.index.
    replace (index <? 0) with true by (symmetry; apply Z.ltb_lt; lia).
    replace (Py.len voices + index <? 0) with false by (symmetry; apply Z.ltb_ge; lia).
    now rewrite Hid.
  - intros Hsmall Hsome. rewrite Hrun.
    assert (Py.len voices <> 0).
    { unfold Py.len. destruct voices; [congruence|cbn; lia]. }
    replace (Py.len voices >? index) with true
      by (symmetry; rewrite Z.gtb_ltb; apply Z.ltb_lt; lia).
    replace (Py.len voices =? 0) with false by (symmetry; apply Z.eqb_neq; lia).
    cbn [negb andb]. unfold Py.index.
    replace (index <? 0) with true by (symmetry; apply Z.ltb_lt; lia).
    replace (Py.len voices + index <? 0) with true by (symmetry; apply Z.ltb_lt; lia).
    cbn [result_of state_of trace_of fst snd set_engine engine].
    cbn [result_of state_of trace_of fst snd set_engine engine].
    rewrite <- app_assoc. now repeat split.
Qed.

End SpeechConstruction.

(* ================================================================== *)
(** * Properties of the wake word detector *)
(* ================================================================== *)

Section WakeWordFacts.

Import WakeWordDetector.

Variable porcupine_create : Trace -> string -> string -> Q -> Result Porcupine.
Variable pyaudio_new : Trace -> Result unit.
Variable stream_open : Trace -> Z -> Z -> Result unit.
Variable stream_read : Trace -> Z -> Result (list Byte.byte).
Variable porcupine_process : Trace -> list Z -> Result Z.
Variable stream_stop : Trace -> Result unit.
Variable stream_close : Trace -> Result unit.
Variable porcupine_delete : Trace -> Result unit.
Variable pyaudio_terminate : Trace -> Result unit.

Let cleanup := cleanup stream_stop stream_close porcupine_delete pyaudio_terminate.
Let start := start porcupine_create pyaudio_new stream_open stream_stop
                   stream_close porcupine_delete pyaudio_terminate.
Let listen_once := listen_once stream_read porcupine_process.

Ltac extends_trace :=
  first [ exists []; split; [now rewrite ?app_nil_r|]
        | eexists; split; [rewrite <- ?app_assoc; cbn [app]; reflexivity|] ].

(** [cleanup] never raises and leaves a detector without devices; what
    it adds to the trace are release calls and error lines, with a
    call for each device that the detector held. *)
Lemma cleanup_releases (self : t) (tr : Trace) :
  exists added,
    cleanup self tr = (Ok tt, Spec.released self, tr ++ added) /\
    forallb Spec.release_event added = true /\
    (audio_stream self = true -> In StreamStop added) /\
    (porcupine self <> None -> In PorcupineDelete added) /\
    (pyaudio_instance self = true -> In PyAudioTerminate added) /\
    (audio_stream self = false -> porcupine self = None ->
     pyaudio_instance self = false -> added = []).
Proof.
  subst cleanup. unfold WakeWordDetector.cleanup, stop, Spec.released.
  destruct self as [key path sens [handle|] [|] [|] listening];
    run_method;
    cbn [audio_stream porcupine pyaudio_instance is_listening set_is_listening
         set_audio_stream set_porcupine set_pyaudio_instance access_key
         model_path sensitivity];
    run_method;
    repeat (match goal with
            | |- context [stream_stop ?past] =>
                destruct (stream_stop past) as [[]|?]
            | |- context [stream_close ?past] =>
                destruct (stream_close past) as [[]|?]
            | |- context [porcupine_delete ?past] =>
                destruct (porcupine_delete past) as [[]|?]
            | |- context [pyaudio_terminate ?past] =>
                destruct (pyaudio_terminate past) as [[]|?]
            end;
            run_method;
            cbn [audio_stream porcupine pyaudio_instance is_listening
                 set_is_listening set_audio_stream set_porcupine
                 set_pyaudio_instance access_key model_path sensitivity];
            run_method);
    extends_trace;
    (split; [reflexivity|]);
    repeat split; intros; try congruence; try discriminate;
      cbn [In]; auto 10.
Qed.

(** Without a handle, a stream or the listening flag, [listen_once]
    returns [False] and touches nothing. *)
Lemma listen_once_idle (self : t) (tr : Trace) :
  is_listening self = false \/ audio_stream self = false \/ porcupine self = None ->
  listen_once self tr = (Ok false, self, tr).
Proof.
  intros Hidle. subst listen_once. unfold WakeWordDetector.listen_once. run_method.
  destruct (porcupine self) as [handle|]; [|reflexivity].
  destruct Hidle as [H|[H|H]]; [| |discriminate H]; rewrite H;
    rewrite ?orb_true_r; reflexivity.
Qed.

(** X14.  [listen_once] reports a detection only on a started
    detector: on a new detector, after [stop] and after [cleanup] it
    returns [False] without reading the microphone or logging, and
    [cleanup] itself never raises and leaves no device held, whatever
    the release calls do.  A second [cleanup] does nothing. *)
Theorem listen_once_needs_a_started_detector :
  (forall key path sens tr,
     listen_once (__init__ key path sens) tr =
     (Ok false, __init__ key path sens, tr)) /\
  (forall self tr,
     let out := stop self tr in
     listen_once (state_of out) (trace_of out) =
     (Ok false, state_of out, trace_of out)) /\
  (forall self tr,
     let out := cleanup self tr in
     result_of out = Ok tt /\
     state_of out = Spec.released self /\
     listen_once (state_of out) (trace_of out) =
       (Ok false, state_of out, trace_of out) /\
     cleanup (state_of out) (trace_of out) =
       (Ok tt, state_of out, trace_of out)).
Proof.
  split; [|split].
  - intros. apply listen_once_idle. now left.
  - intros. apply listen_once_idle. now left.
  - intros self tr out. subst out.
    destruct (cleanup_releases self tr) as (added & Hrun & _).
    rewrite Hrun. cbn [result_of state_of trace_of fst snd].
    split; [reflexivity|]. split; [reflexivity|]. split.
    + apply listen_once_idle. now left.
    + destruct (cleanup_releases (Spec.released self) (tr ++ added))
        as (again & Hagain & _ & _ & _ & _ & Hnone).
      rewrite Hagain, (Hnone eq_refl eq_refl eq_refl), app_nil_r. reflexivity.
Qed.

(** X15.  [cleanup] of the detector is best effort: every device that
    the detector holds gets its release call, also when an earlier
    release call raised, and nothing but release calls and error lines
    is added.  When [stop_stream] raises, the stream is not closed. *)
Theorem wake_word_cleanup_attempts_every_release (self : t) (tr : Trace) :
  exists added,
    trace_of (cleanup self tr) = tr ++ added /\
    forallb Spec.release_event added = true /\
    (audio_stream self = true -> In StreamStop added) /\
    (porcupine self <> None -> In PorcupineDelete added) /\
    (pyaudio_instance self = true -> In PyAudioTerminate added) /\
    (forall e, audio_stream self = true -> stream_stop tr = Raised e ->
       ~ In StreamClose added).
Proof.
  destruct (cleanup_releases self tr) as (added & Hrun & Hrel & Hs & Hp & Ha & _).
  exists added. rewrite Hrun. cbn [trace_of snd].
  split; [reflexivity|]. split; [exact Hrel|]. split; [exact Hs|].
  split; [exact Hp|]. split; [exact Ha|].
  intros e Hstream Hstop.
  revert Hrun. subst cleanup. unfold WakeWordDetector.cleanup, stop.
  destruct self as [key path sens [handle|] [|] [|] listening];
    try discriminate Hstream;
    run_method;
    cbn [audio_stream porcupine pyaudio_instance is_listening set_is_listening
         set_audio_stream set_porcupine set_pyaudio_instance access_key
         model_path sensitivity];
    run_method; rewrite Hstop; run_method;
    cbn [audio_stream porcupine pyaudio_instance is_listening set_is_listening
         set_audio_stream set_porcupine set_pyaudio_instance access_key
         model_path sensitivity];
    run_method;
    repeat (match goal with
            | |- context [porcupine_delete ?past] =>
                destruct (porcupine_delete past) as [[]|?]
            | |- context [pyaudio_terminate ?past] =>
                destruct (pyaudio_terminate past) as [[]|?]
            end;
            run_method;
            cbn [audio_stream porcupine pyaudio_instance is_listening
                 set_is_listening set_audio_stream set_porcupine
                 set_pyaudio_instance access_key model_path sensitivity];
            run_method);
    rewrite <- ?app_assoc; cbn [app];
    intros Hrun; injection Hrun as Hrun; apply app_inv_head in Hrun;
    subst added; cbn [In]; intuition discriminate.
Qed.

(** X16.  On a started detector [listen_once] never raises, keeps the
    detector as it is and reads one frame of the handle's frame
    length.  It returns [True] exactly when the read succeeded, the
    frame holds at least [frame_length] samples, and Porcupine's
    [process] returned an index that is not negative. *)
Theorem listen_once_detects_exactly_a_reported_keyword
    (handle : Porcupine) (self : t) (tr : Trace) :
  porcupine self = Some handle ->
  audio_stream self = true ->
  is_listening self = true ->
  let out := listen_once self tr in
  let n := frame_length handle in
  state_of out = self /\
  (result_of out = Ok true \/ result_of out = Ok false) /\
  (result_of out = Ok true <->
   exists data pcm keyword_index,
     stream_read tr n = Ok data /\
     unpack_from n data = Some pcm /\
     porcupine_process (tr ++ [StreamRead n]) pcm = Ok keyword_index /\
     0 <= keyword_index) /\
  exists rest,
    trace_of out = tr ++ StreamRead n :: rest /\
    existsb Spec.read_event rest = false.
Proof.
  intros Hhandle Hstream Hlistening out n. subst out n listen_once.
  unfold WakeWordDetector.listen_once. run_method.
  rewrite Hhandle, Hstream, Hlistening. cbn [negb orb]. run_method.
  destruct (stream_read tr (frame_length handle)) as [data|e] eqn:Hread; run_method.
  2:{ cbn [result_of state_of trace_of fst snd].
      split; [reflexivity|]. split; [now right|]. split.
      - split; [discriminate|]. intros (? & ? & ? & H & _). congruence.
      - eexists. rewrite <- app_assoc. split; reflexivity. }
  destruct (unpack_from (frame_length handle) data) as [pcm|] eqn:Hunpack; run_method.
  2:{ cbn [result_of state_of trace_of fst snd].
      split; [reflexivity|]. split; [now right|]. split.
      - split; [discriminate|]. intros (? & ? & ? & H1 & H2 & _).
        congruence.
      - eexists. rewrite <- app_assoc. split; reflexivity. }
  destruct (porcupine_process _ pcm) as [keyword_index|e] eqn:Hprocess; run_method.
  2:{ cbn [result_of state_of trace_of fst snd].
      split; [reflexivity|]. split; [now right|]. split.
      - split; [discriminate|]. intros (d & p & k & H1 & H2 & H3 & _).
        assert (d = data) by congruence. subst d.
        assert (p = pcm) by congruence. subst p. congruence.
      - eexists. rewrite <- !app_assoc. split; reflexivity. }
  destruct (keyword_index >=? 0) eqn:Hsign; run_method;
    cbn [result_of state_of trace_of fst snd];
    (split; [reflexivity|]); (split; [auto|]); split.
  - split; [intros _|reflexivity].
    exists data, pcm, keyword_index. repeat split; try assumption.
    apply Z.geb_le in Hsign. lia.
  - eexists. rewrite <- !app_assoc. split; reflexivity.
  - split; [discriminate|]. intros (d & p & k & H1 & H2 & H3 & Hk).
    assert (d = data) by congruence. subst d.
    assert (p = pcm) by congruence. subst p.
    assert (k = keyword_index) by congruence. subst k.
    rewrite Z.geb_leb in Hsign. apply Z.leb_gt in Hsign. lia.
  - eexists. rewrite <- !app_assoc. split; reflexivity.
Qed.

(** X17.  [start] never raises.  It returns [True] exactly when
    Porcupine, PyAudio and the stream could all be created; the
    stream is then opened with the handle's sample rate and frame
    length and the detector listens.  Otherwise it logs the failure,
    releases whatever it holds (a handle that was created is deleted
    again) and returns [False], and [listen_once] then returns [False]
    without reading. *)
Theorem start_listens_or_releases_everything (self : t) (tr : Trace) :
  let out := start self tr in
  let create := PorcupineCreate (access_key self) (model_path self) (sensitivity self) in
  (result_of out = Ok true \/ result_of out = Ok false) /\
  (result_of out = Ok true <->
   exists handle,
     porcupine_create tr (access_key self) (model_path self) (sensitivity self) =
       Ok handle /\
     pyaudio_new (tr ++ [create]) = Ok tt /\
     stream_open (tr ++ [create; PyAudioNew])
                 (sample_rate handle) (frame_length handle) = Ok tt) /\
  (result_of out = Ok true ->
   exists handle,
     state_of out = mk (access_key self) (model_path self) (sensitivity self)
                       (Some handle) true true true /\
     trace_of out =
       tr ++ [create; PyAudioNew;
              StreamOpen (sample_rate handle) (frame_length handle)]) /\
  (result_of out = Ok false ->
   state_of out = Spec.released self /\
   listen_once (state_of out) (trace_of out) =
     (Ok false, state_of out, trace_of out) /\
   (forall handle,
      porcupine_create tr (access_key self) (model_path self) (sensitivity self) =
        Ok handle ->
      In PorcupineDelete (trace_of out))).
Proof.
  intros out create. subst out create start. unfold WakeWordDetector.start.
  run_method.
  destruct (porcupine_create tr _ _ _) as [handle|e] eqn:Hcreate; run_method.
  2:{ fold cleanup.
      match goal with |- context [cleanup ?s ?t] =>
        destruct (cleanup_releases s t) as (added & Hrun & _) end.
      rewrite Hrun. cbn [result_of state_of trace_of fst snd].
      split; [now right|]. split.
      { split; [discriminate|]. intros (? & H & _). discriminate H. }
      split; [discriminate|]. intros _.
      split; [reflexivity|]. split.
      - apply listen_once_idle. now left.
      - intros ? H. discriminate H. }
  cbn [access_key model_path sensitivity set_porcupine].
  destruct (pyaudio_new _) as [[]|e] eqn:Hnew; run_method.
  2:{ fold cleanup.
      match goal with |- context [cleanup ?s ?t] =>
        destruct (cleanup_releases s t) as (added & Hrun & _ & _ & Hdel & _) end.
      rewrite Hrun. cbn [result_of state_of trace_of fst snd].
      split; [now right|]. split.
      { split; [discriminate|]. intros (h & H1 & H2 & _).
        rewrite <- ?app_assoc in Hnew. cbn [app] in Hnew. congruence. }
      split; [discriminate|]. intros _.
      split; [destruct self; reflexivity|]. split.
      - apply listen_once_idle. now left.
      - intros _ _. apply in_or_app. right. apply Hdel. discriminate. }
  cbn [sample_rate frame_length].
  destruct (stream_open _ _ _) as [[]|e] eqn:Hopen; run_method.
  2:{ fold cleanup.
      match goal with |- context [cleanup ?s ?t] =>
        destruct (cleanup_releases s t) as (added & Hrun & _ & _ & Hdel & _) end.
      rewrite Hrun. cbn [result_of state_of trace_of fst snd].
      split; [now right|]. split.
      { split; [discriminate|]. intros (h & H1 & H2 & H3).
        injection H1 as <-.
        rewrite <- ?app_assoc in Hopen. cbn [app] in Hopen. congruence. }
      split; [discriminate|]. intros _.
      split; [destruct self; reflexivity|]. split.
      - apply listen_once_idle. now left.
      - intros _ _. apply in_or_app. right. apply Hdel. discriminate. }
  cbn [result_of state_of trace_of fst snd].
  split; [now left|]. split.
  { split; [intros _|reflexivity]. exists handle.
    rewrite <- ?app_assoc in Hopen. cbn [app] in Hopen.
    rewrite <- ?app_assoc in Hnew. cbn [app] in Hnew. now repeat split. }
  split; [|discriminate]. intros _. exists handle.
  rewrite <- !app_assoc. cbn [app]. split; [destruct self|]; reflexivity.
Qed.

End WakeWordFacts.

(* ================================================================== *)
(** * Properties of the assistant's construction, cleanup and entry point *)
(* ================================================================== *)

Ltac into_call :=
  unfold bind at 1; unfold VoiceAssistant.call at 1, zoom;
  cbn [VoiceAssistant.adapters VoiceAssistant.set_adapters].

Ltac into_print :=
  unfold bind at 1; unfold extern at 1.

Section AssistantFacts.

Import Assistant.

Variable OPENAI_API_KEY : string.
Variable PICOVOICE_ACCESS_KEY : string.
Variable WAKE_WORD_MODEL_PATH : string.
Variable porcupine_create : Trace -> string -> string -> Q -> Result WakeWordDetector.Porcupine.
Variable porcupine_process : Trace -> list Z -> Result Z.
Variable porcupine_delete : Trace -> Result unit.
Variable pyaudio_new : Trace -> Result unit.
Variable stream_open : Trace -> Z -> Z -> Result unit.
Variable stream_read : Trace -> Z -> Result (list Byte.byte).
Variable stream_stop : Trace -> Result unit.
Variable stream_close : Trace -> Result unit.
Variable pyaudio_terminate : Trace -> Result unit.
Variable whisper_load : Trace -> string -> string -> string -> Result unit.
Variable whisper_transcribe : Trace -> list Q -> string -> Result (list string).
Variable openai_client : Trace -> string -> Result unit.
Variable create : Trace -> ChatRequest -> Result (list (option string)).
Variable pyttsx3_init : Trace -> Result unit.
Variable engine_set_rate : Trace -> Z -> Result unit.
Variable engine_get_voices : Trace -> Result (list string).
Variable engine_set_voice : Trace -> string -> Result unit.
Variable engine_set_volume : Trace -> Q -> Result unit.
Variable engine_say : Trace -> string -> Result unit.
Variable engine_runAndWait : Trace -> Result unit.
Variable engine_stop : Trace -> Result unit.
Variable interrupt : nat -> Trace -> bool.
Variable stdout_print : Trace -> string -> string -> Result unit.

Let cleanup :=
  Assistant.cleanup porcupine_delete stream_stop stream_close pyaudio_terminate
                    engine_stop.
Let initialize :=
  Assistant.initialize OPENAI_API_KEY PICOVOICE_ACCESS_KEY WAKE_WORD_MODEL_PATH
    porcupine_delete stream_stop stream_close pyaudio_terminate whisper_load
    openai_client pyttsx3_init engine_set_rate engine_get_voices
    engine_set_voice engine_set_volume engine_stop.
Let run :=
  Assistant.run porcupine_create porcupine_process porcupine_delete pyaudio_new
    stream_open stream_read stream_stop stream_close pyaudio_terminate
    whisper_transcribe create engine_say engine_runAndWait interrupt
    stdout_print.
Let main :=
  Assistant.main OPENAI_API_KEY PICOVOICE_ACCESS_KEY WAKE_WORD_MODEL_PATH
    porcupine_create porcupine_process porcupine_delete pyaudio_new
    stream_open stream_read stream_stop stream_close pyaudio_terminate
    whisper_load whisper_transcribe openai_client create pyttsx3_init
    engine_set_rate engine_get_voices engine_set_voice engine_set_volume
    engine_say engine_runAndWait engine_stop interrupt stdout_print.
Let start :=
  wake_word_start porcupine_create porcupine_delete pyaudio_new stream_open
                  stream_stop stream_close pyaudio_terminate.
Let listen_once := wake_word_listen_once porcupine_process stream_read.
Let record_and_transcribe :=
  stt_record_and_transcribe pyaudio_new stream_open stream_read stream_stop
                            stream_close pyaudio_terminate whisper_transcribe.
Let send_message := chatgpt_send_message create.
Let speak := tts_speak engine_say engine_runAndWait.

(** ** The adapters' own shutdown *)






(** ** The run loop over the adapters of an initialised assistant *)













(** ** Construction *)

Lemma recogniser_construction (self : SpeechToText.t) (tr : Trace) :
  let load := WhisperLoad Config.STT_MODEL Config.STT_DEVICE Config.STT_COMPUTE_TYPE in
  SpeechToText.__init__ whisper_load Config.STT_MODEL Config.STT_DEVICE
                        Config.STT_COMPUTE_TYPE self tr =
  match whisper_load tr Config.STT_MODEL Config.STT_DEVICE Config.STT_COMPUTE_TYPE with
  | Ok _ => (Ok tt, SpeechToText.mk (SpeechToText.language self) true false,
             tr ++ [load])
  | Raised e => (Raised e, SpeechToText.mk (SpeechToText.language self) false false,
                 tr ++ [load; Log ERROR "Failed to load Whisper model: "])
  end.
Proof.
  unfold SpeechToText.__init__, SpeechToText._load_model. run_method.
  destruct (whisper_load tr _ _ _) as [[]|e]; run_method;
    rewrite <- ?app_assoc; reflexivity.
Qed.

Lemma speaker_construction (self : TextToSpeech.t) (tr : Trace) :
  let out := TextToSpeech.__init__ pyttsx3_init engine_set_rate engine_get_voices
                                   engine_set_voice engine_set_volume self tr in
  result_of out = Ok tt -> TextToSpeech.engine (state_of out) = true.
Proof.
  unfold TextToSpeech.__init__, TextToSpeech._initialize_engine,
    TextToSpeech._initialize_pyttsx3.
  run_method.
  destruct (String.eqb _ _); run_method;
    (destruct (pyttsx3_init _) as [[]|?]; run_method; [|discriminate]);
    (destruct (engine_set_rate _ _) as [[]|?]; run_method; [|discriminate]);
    (destruct (engine_get_voices _) as [voices|?]; run_method; [|discriminate]);
    (destruct (_ && _);
     [destruct (Py.index voices _) as [id|]; run_method; [|discriminate];
      (destruct (engine_set_voice _ _) as [[]|?]; run_method; [|discriminate])
     |run_method]);
    (destruct (engine_set_volume _ _) as [[]|?]; run_method; [|discriminate]);
    reflexivity.
Qed.

Let detector :=
  WakeWordDetector.__init__ PICOVOICE_ACCESS_KEY WAKE_WORD_MODEL_PATH
                            Config.WAKE_WORD_SENSITIVITY.
Let recogniser := SpeechToText.mk Config.STT_LANGUAGE true false.
Let session :=
  ChatGPTClient.mk OPENAI_API_KEY Config.CHATGPT_MODEL Config.CHATGPT_MAX_TOKENS
                   Config.CHATGPT_TEMPERATURE
                   [mkMessage "system" Config.SYSTEM_PROMPT].
Let load := WhisperLoad Config.STT_MODEL Config.STT_DEVICE Config.STT_COMPUTE_TYPE.
Let speech (tr : Trace) :=
  TextToSpeech.__init__ pyttsx3_init engine_set_rate engine_get_voices
    engine_set_voice engine_set_volume
    (TextToSpeech.mk Config.TTS_ENGINE Config.TTS_VOICE_RATE
                     Config.TTS_VOICE_INDEX false)
    (tr ++ [load; OpenAIClient OPENAI_API_KEY]).

(** What [initialize] does on a new assistant, by the constructor that
    fails first. *)
Lemma initialize_run (tr : Trace) :
  initialize __init__ tr =
  match whisper_load tr Config.STT_MODEL Config.STT_DEVICE Config.STT_COMPUTE_TYPE with
  | Raised _ =>
      (Ok false, mk false (mkComponents (Some detector) None None None),
       tr ++ [load; Log ERROR "Failed to load Whisper model: ";
              Log ERROR "Initialization failed: "])
  | Ok _ =>
      match openai_client (tr ++ [load]) OPENAI_API_KEY with
      | Raised _ =>
          (Ok false,
           mk false (mkComponents (Some detector) (Some recogniser) None None),
           tr ++ [load; OpenAIClient OPENAI_API_KEY;
                  Log ERROR "Initialization failed: "])
      | Ok _ =>
          match speech tr with
          | (Ok _, speaker, tr') =>
              (Ok true,
               mk false (mkComponents (Some detector) (Some recogniser)
                                      (Some session) (Some speaker)),
               tr')
          | (Raised _, _, tr') =>
              (Ok false,
               mk false (mkComponents (Some detector) (Some recogniser)
                                      (Some session) None),
               tr' ++ [Log ERROR "Initialization failed: "])
          end
      end
  end.
Proof.
  subst initialize speech load. unfold Assistant.initialize, construct. run_method.
  rewrite recogniser_construction.
  destruct (whisper_load tr _ _ _) as [[]|e].
  2:{ unfold Assistant.cleanup, zoom, on. run_method.
      cbn. rewrite <- !app_assoc. reflexivity. }
  run_method.
  destruct (openai_client _ _) as [[]|e]; run_method.
  2:{ unfold Assistant.cleanup, zoom, on. run_method.
      cbn. rewrite <- !app_assoc. reflexivity. }
  rewrite <- !app_assoc. cbn [app].
  destruct (TextToSpeech.__init__ _ _ _ _ _ _ _) as [[[[]|e] speaker] tr'].
  - reflexivity.
  - unfold Assistant.cleanup, zoom, on. run_method. cbn. reflexivity.
Qed.

(** X18.  [initialize] on a new assistant never raises.  It returns
    [True] exactly when the Whisper model, the OpenAI client and the
    speech engine could all be constructed; the assistant then has
    its four adapters, with the model loaded, the system prompt as
    the only history and the engine set.  Otherwise it returns
    [False], the adapters are not complete and hold no device, and a
    later [run] only logs that the components are missing. *)
Theorem initialize_builds_every_adapter_or_none_usable (tr : Trace) :
  let out := initialize __init__ tr in
  (result_of out = Ok true \/ result_of out = Ok false) /\
  (result_of out = Ok true <->
   whisper_load tr Config.STT_MODEL Config.STT_DEVICE Config.STT_COMPUTE_TYPE = Ok tt /\
   openai_client (tr ++ [load]) OPENAI_API_KEY = Ok tt /\
   result_of (speech tr) = Ok tt) /\
  (result_of out = Ok true ->
   state_of out =
     mk false (mkComponents (Some detector) (Some recogniser) (Some session)
                            (Some (state_of (speech tr)))) /\
   TextToSpeech.engine (state_of (speech tr)) = true /\
   trace_of out = trace_of (speech tr)) /\
  (result_of out = Ok false ->
   complete (parts (state_of out)) = false /\
   Spec.holds_nothing (parts (state_of out)) /\
   forall polls,
     run polls (state_of out) (trace_of out) =
     (Ok VoiceAssistant.Returned, state_of out,
      trace_of out ++
      [Log ERROR "Components not initialized. Call initialize() first."])).
Proof.
  intros out. subst out. rewrite initialize_run.
  assert (Hrefuses : forall polls self past,
            complete (parts self) = false ->
            run polls self past =
            (Ok VoiceAssistant.Returned, self,
             past ++ [Log ERROR "Components not initialized. Call initialize() first."])).
  { intros polls self past Hc. subst run.
    unfold Assistant.run, zoom, VoiceAssistant.run.
    unfold bind at 1, get. cbn [VoiceAssistant.components view]. rewrite Hc.
    cbn [negb]. run_method. destruct self; reflexivity. }
  assert (Hnothing : forall a b c,
            Spec.holds_nothing (mkComponents (Some detector) a b None) \/ True ->
            forall r, a = None \/ a = Some recogniser ->
            r = a -> Spec.holds_nothing (mkComponents (Some detector) r c None)).
  { intros a b c _ r Ha ->. unfold Spec.holds_nothing. cbn [wake_word stt tts].
    split; [|split].
    - intros d H. injection H as <-. reflexivity.
    - intros x H. destruct Ha as [-> | ->]; [discriminate H|].
      injection H as <-. reflexivity.
    - intros x H. discriminate H. }
  destruct (whisper_load tr _ _ _) as [[]|e] eqn:Hload.
  2:{ cbn [result_of state_of trace_of fst snd parts].
      split; [now right|]. split.
      { split; [discriminate|]. intros (H & _). discriminate H. }
      split; [discriminate|]. intros _.
      split; [reflexivity|]. split.
      - apply (Hnothing None None None); auto.
      - intros polls. now apply Hrefuses. }
  destruct (openai_client _ _) as [[]|e] eqn:Hclient.
  2:{ cbn [result_of state_of trace_of fst snd parts].
      split; [now right|]. split.
      { split; [discriminate|]. intros (_ & H & _). discriminate H. }
      split; [discriminate|]. intros _.
      split; [reflexivity|]. split.
      - apply (Hnothing (Some recogniser) None None); auto.
      - intros polls. now apply Hrefuses. }
  pose proof (speaker_construction
                (TextToSpeech.mk Config.TTS_ENGINE Config.TTS_VOICE_RATE
                                 Config.TTS_VOICE_INDEX false)
                (tr ++ [load; OpenAIClient OPENAI_API_KEY])) as Hengine.
  cbv zeta in Hengine. fold (speech tr) in Hengine.
  destruct (speech tr) as [[[[]|e] speaker] tr'] eqn:Hspeech;
    cbn [result_of state_of trace_of fst snd parts] in *.
  - split; [now left|]. split; [now split|].
    split; [|discriminate]. intros _. split; [reflexivity|].
    split; [now apply Hengine|reflexivity].
  - split; [now right|]. split.
    { split; [discriminate|]. intros (_ & _ & H). discriminate H. }
    split; [discriminate|]. intros _.
    split; [reflexivity|]. split.
    + apply (Hnothing (Some recogniser) None (Some session)); auto.
    + intros polls. now apply Hrefuses.
Qed.






End AssistantFacts.

(* ================================================================== *)
(** * One cycle over the shipped adapters *)
(* ================================================================== *)

Section ShippedCycle.

Variable pyaudio_new : Trace -> Result unit.
Variable stream_open : Trace -> Z -> Z -> Result unit.
Variable stream_read : Trace -> Z -> Result (list Byte.byte).
Variable stream_stop : Trace -> Result unit.
Variable stream_close : Trace -> Result unit.
Variable pyaudio_terminate : Trace -> Result unit.
Variable whisper_transcribe : Trace -> list Q -> string -> Result (list string).
Variable create : Trace -> ChatRequest -> Result (list (option string)).
Variable engine_say : Trace -> string -> Result unit.
Variable engine_runAndWait : Trace -> Result unit.
Variable stdout_print : Trace -> string -> string -> Result unit.

Let listen :=
  SpeechToText.record_and_transcribe pyaudio_new stream_open stream_read
    stream_stop stream_close pyaudio_terminate whisper_transcribe.
Let send := ChatGPTClient.send_message create.
Let say := TextToSpeech.speak engine_say engine_runAndWait.
Let cycle :=
  Shipped.handle_conversation pyaudio_new stream_open stream_read stream_stop
    stream_close pyaudio_terminate whisper_transcribe create engine_say
    engine_runAndWait stdout_print.

Lemma stripped_text_is_visible (s : string) :
  Py.truthy (Py.strip s) = true -> Spec.whitespace_only (Py.strip s) = false.
Proof.
  intros Htext. pose proof (truthy_strip (Py.strip s)) as H.
  rewrite (strip_idem s), Htext in H.
  destruct (Spec.whitespace_only (Py.strip s)); [discriminate H|reflexivity].
Qed.

(** A text that [record_and_transcribe] returns is not blank. *)
Lemma heard_text_is_visible (self s1 : SpeechToText.t) (tr tr1 : Trace) (u : string) :
  listen self tr = (Ok (Some u), s1, tr1) -> Spec.whitespace_only u = false.
Proof.
  subst listen. unfold SpeechToText.record_and_transcribe. unfold bind at 1.
  destruct (SpeechToText.record_audio _ _ _ _ _ _ _ _ _ _ _ self tr)
    as [[[[audio|]|e] s] t]; try discriminate.
  unfold SpeechToText.transcribe. run_method.
  destruct (SpeechToText.model s); cbn [negb]; run_method; [|discriminate].
  destruct (whisper_transcribe t audio _) as [segments|e]; run_method;
    [|discriminate].
  destruct (Py.truthy (Py.strip (String.concat " " segments))) eqn:Htext;
    run_method; [|discriminate].
  intros H. injection H as <- _ _. now apply stripped_text_is_visible.
Qed.

(** [speak] returns a boolean and leaves the adapter as it is. *)
Lemma speak_keeps_state (text : string) (blocking : bool)
    (self : TextToSpeech.t) (tr : Trace) :
  exists b tr', say text blocking self tr = (Ok b, self, tr').
Proof.
  subst say. unfold TextToSpeech.speak.
  destruct (_ || _); [run_method; now eexists _, _|].
  run_method. destruct (TextToSpeech.engine self); cbn [negb]; run_method;
    [|now eexists _, _].
  destruct (engine_say tr text) as [[]|e]; run_method; [|now eexists _, _].
  destruct blocking; run_method; [|now eexists _, _].
  destruct (engine_runAndWait _) as [[]|e]; run_method; now eexists _, _.
Qed.

(** What [send_message] returns for a text that is not blank: the
    sentence of the cycle, unless the reply is empty. *)
Lemma send_message_reply (u : string) (self : ChatGPTClient.t) (tr : Trace) :
  Spec.whitespace_only u = false ->
  exists reply self' logged,
    send u self tr =
      (Ok (Some reply), self',
       tr ++ ChatCompletion (Spec.request_for self u) :: logged) /\
    (forall ev, In ev logged -> exists msg, ev = Log ERROR msg) /\
    (if Py.truthy reply then reply
     else "I'm having trouble processing your request. Please try again.") =
    Spec.cycle_sentence (create tr (Spec.request_for self u)).
Proof.
  intros Hvisible. subst send.
  destruct (create tr (Spec.request_for self u)) as [[|[text|] rest]|e] eqn:Hcreate.
  - erewrite send_message_malformed by eauto.
    eexists _, _, [_]. split; [reflexivity|]. split; [|reflexivity].
    intros ev [<-|[]]. now eexists.
  - erewrite send_message_answered by eauto.
    eexists _, _, []. split; [reflexivity|]. split; [intros ev []|reflexivity].
  - erewrite send_message_malformed by eauto.
    eexists _, _, [_]. split; [reflexivity|]. split; [|reflexivity].
    intros ev [<-|[]]. now eexists.
  - erewrite send_message_raised by eauto.
    eexists _, _, [_]. split; [reflexivity|]. split.
    + intros ev [<-|[]]. now eexists.
    + cbn [Spec.cycle_sentence]. destruct e; reflexivity.
Qed.

(** X21.  One cycle of the shipped assistant, by what was heard and by
    what the console does.  It never raises and leaves [running] and
    the speech adapter as they are.  When nothing was recognised, the
    session is left alone and the prompt to try again is spoken.  A
    recognised text is never blank, and it is printed first.  When
    this [print] raises, no request is issued, the session is left
    alone, and the error is logged and the error sentence spoken.
    Otherwise one request is issued for the text, carrying the
    history and the text, and the sentence of the cycle is the
    stripped reply of the service or the fallback sentence of its
    failure: it is printed and then handed to [speak], and when this
    [print] raises the error sentence is spoken in its place.  For an
    empty reply nothing is printed and the prompt about trouble
    processing the request is spoken. *)
Theorem cycle_speaks_the_reply_the_fallback_or_a_prompt
    (self : VoiceAssistant.t Shipped.Adapters) (tr tr1 : Trace)
    (heard : option string) (s1 : SpeechToText.t) :
  let a := VoiceAssistant.adapters self in
  listen (Shipped.stt a) tr = (Ok heard, s1, tr1) ->
  let out := cycle self tr in
  let a' := VoiceAssistant.adapters (state_of out) in
  result_of out = Ok tt /\
  VoiceAssistant.running (state_of out) = VoiceAssistant.running self /\
  Shipped.stt a' = s1 /\
  Shipped.tts a' = Shipped.tts a /\
  match heard with
  | None =>
      Shipped.chatgpt a' = Shipped.chatgpt a /\
      trace_of out =
        trace_of (say "I didn't catch that. Please try again." true
                      (Shipped.tts a) tr1)
  | Some u =>
      let shown := tr1 ++ [Print "You: " u] in
      let request := Spec.request_for (Shipped.chatgpt a) u in
      let sent := send u (Shipped.chatgpt a) shown in
      let sentence := Spec.cycle_sentence (create shown request) in
      Spec.whitespace_only u = false /\
      match stdout_print tr1 "You: " u with
      | Raised _ =>
          Shipped.chatgpt a' = Shipped.chatgpt a /\
          trace_of out =
            trace_of (say Spec.error_sentence true (Shipped.tts a)
                          (shown ++ [Log ERROR "Error during conversation: "]))
      | Ok _ =>
          Shipped.chatgpt a' = state_of sent /\
          (exists logged,
             trace_of sent = shown ++ ChatCompletion request :: logged /\
             forall ev, In ev logged -> exists msg, ev = Log ERROR msg) /\
          exists reply,
            result_of sent = Ok (Some reply) /\
            if Py.truthy reply then
              sentence = reply /\
              match stdout_print (trace_of sent) "Assistant: " reply with
              | Ok _ =>
                  trace_of out =
                    trace_of (say sentence true (Shipped.tts a)
                                  (trace_of sent ++ [Print "Assistant: " reply]))
              | Raised _ =>
                  trace_of out =
                    trace_of (say Spec.error_sentence true (Shipped.tts a)
                                  (trace_of sent ++
                                   [Print "Assistant: " reply;
                                    Log ERROR "Error during conversation: "]))
              end
            else
              sentence =
                "I'm having trouble processing your request. Please try again." /\
              trace_of out = trace_of (say sentence true (Shipped.tts a) (trace_of sent))
      end
  end.
Proof.
  intros a Hheard out a'.
  assert (Hsay : forall text past,
            exists b tr',
              TextToSpeech.speak engine_say engine_runAndWait text true
                                 (Shipped.tts a) past = (Ok b, Shipped.tts a, tr')).
  { intros text past. apply (speak_keeps_state text true (Shipped.tts a) past). }
  assert (Hhandler : forall session past,
            (log ERROR "Error during conversation: " ;;
             VoiceAssistant.call
               (Shipped.speak engine_say engine_runAndWait
                  "I encountered an error. Please try again." true) ;;
             ret tt)
              (VoiceAssistant.set_adapters (Shipped.mk s1 session (Shipped.tts a)) self)
              past =
            (Ok tt,
             VoiceAssistant.set_adapters (Shipped.mk s1 session (Shipped.tts a)) self,
             trace_of (say Spec.error_sentence true (Shipped.tts a)
                           (past ++ [Log ERROR "Error during conversation: "])))).
  { intros session past. unfold bind at 1, log. into_call.
    unfold Shipped.speak, zoom, say, Spec.error_sentence.
    cbn [Shipped.tts Shipped.set_tts Shipped.stt Shipped.chatgpt].
    destruct (Hsay "I encountered an error. Please try again."
                   (past ++ [Log ERROR "Error during conversation: "]))
      as (b & tr' & E).
    rewrite E. destruct self; reflexivity. }
  assert (Hout : exists session tr',
            cycle self tr =
              (Ok tt,
               VoiceAssistant.set_adapters (Shipped.mk s1 session (Shipped.tts a)) self,
               tr') /\
            match heard with
            | None =>
                session = Shipped.chatgpt a /\
                tr' = trace_of (say "I didn't catch that. Please try again." true
                                    (Shipped.tts a) tr1)
            | Some u =>
                let shown := tr1 ++ [Print "You: " u] in
                let request := Spec.request_for (Shipped.chatgpt a) u in
                let sent := send u (Shipped.chatgpt a) shown in
                let sentence := Spec.cycle_sentence (create shown request) in
                Spec.whitespace_only u = false /\
                match stdout_print tr1 "You: " u with
                | Raised _ =>
                    session = Shipped.chatgpt a /\
                    tr' = trace_of (say Spec.error_sentence true (Shipped.tts a)
                                        (shown ++ [Log ERROR "Error during conversation: "]))
                | Ok _ =>
                    session = state_of sent /\
                    (exists logged,
                       trace_of sent = shown ++ ChatCompletion request :: logged /\
                       forall ev, In ev logged -> exists msg, ev = Log ERROR msg) /\
                    exists reply,
                      result_of sent = Ok (Some reply) /\
                      if Py.truthy reply then
                        sentence = reply /\
                        match stdout_print (trace_of sent) "Assistant: " reply with
                        | Ok _ =>
                            tr' =
                              trace_of (say sentence true (Shipped.tts a)
                                            (trace_of sent ++ [Print "Assistant: " reply]))
                        | Raised _ =>
                            tr' =
                              trace_of (say Spec.error_sentence true (Shipped.tts a)
                                            (trace_of sent ++
                                             [Print "Assistant: " reply;
                                              Log ERROR "Error during conversation: "]))
                        end
                      else
                        sentence =
                          "I'm having trouble processing your request. Please try again." /\
                        tr' = trace_of (say sentence true (Shipped.tts a) (trace_of sent))
                end
            end).
  { subst cycle. unfold Shipped.handle_conversation,
      VoiceAssistant.handle_conversation, try_except.
    into_call. unfold Shipped.record_and_transcribe, zoom.
    fold a. unfold listen in Hheard. rewrite Hheard.
    destruct heard as [u|].
    2:{ cbn [Py.truthy_opt negb]. into_call. unfold Shipped.speak, zoom.
        cbn [Shipped.chatgpt Shipped.set_stt Shipped.set_chatgpt Shipped.set_tts
             Shipped.stt Shipped.tts].
        destruct (Hsay "I didn't catch that. Please try again." tr1) as (b & tr' & E).
        unfold say. rewrite E. unfold ret.
        exists (Shipped.chatgpt a), tr'.
        split; [destruct self; reflexivity|]. now split. }
    pose proof (heard_text_is_visible _ _ _ _ _ Hheard) as Hvisible.
    assert (Htruthy : Py.truthy_opt (Some u) = true).
    { destruct u; [discriminate Hvisible|reflexivity]. }
    rewrite Htruthy. cbn [negb Py.text].
    into_print.
    cbn [Shipped.chatgpt Shipped.set_stt Shipped.set_chatgpt Shipped.set_tts
         Shipped.stt Shipped.tts].
    destruct (stdout_print tr1 "You: " u) as [[]|e].
    2:{ eexists (Shipped.chatgpt a), _. split.
        - rewrite <- (Hhandler (Shipped.chatgpt a) (tr1 ++ [Print "You: " u])).
          destruct self as [flag comps [x y z]]; reflexivity.
        - cbv zeta. split; [exact Hvisible|]. now split. }
    into_call. unfold Shipped.send_message, zoom.
    cbn [Shipped.chatgpt Shipped.set_stt Shipped.set_chatgpt Shipped.stt Shipped.tts].
    destruct (send_message_reply u (Shipped.chatgpt a) (tr1 ++ [Print "You: " u]) Hvisible)
      as (reply & session & logged & Hsend & Hlogged & Hsentence).
    unfold send in Hsend. rewrite Hsend.
    cbn [Py.truthy_opt Py.text].
    destruct (Py.truthy reply) eqn:Hreply; cbn [negb].
    2:{ into_call. unfold Shipped.speak, zoom.
        cbn [Shipped.chatgpt Shipped.set_stt Shipped.set_chatgpt Shipped.set_tts
             Shipped.stt Shipped.tts].
        destruct (Hsay "I'm having trouble processing your request. Please try again."
                       (tr1 ++ [Print "You: " u] ++
                        ChatCompletion (Spec.request_for (Shipped.chatgpt a) u) :: logged))
          as (b & tr' & E).
        rewrite <- app_assoc. rewrite E. unfold ret.
        exists session, tr'.
        split; [destruct self; reflexivity|].
        cbv zeta. unfold send. rewrite Hsend. cbn [state_of result_of trace_of fst snd].
        split; [exact Hvisible|]. split; [reflexivity|].
        split; [now exists logged|].
        exists reply. split; [reflexivity|]. rewrite Hreply.
        split; [now rewrite <- Hsentence|].
        rewrite <- Hsentence. unfold say. rewrite <- app_assoc. rewrite E. reflexivity. }
    into_print.
    cbn [VoiceAssistant.adapters VoiceAssistant.set_adapters].
    match goal with |- context [stdout_print ?t "Assistant: " reply] =>
      destruct (stdout_print t "Assistant: " reply) as [[]|e] eqn:Hprint
    end.
    2:{ eexists session, _. split.
        - rewrite <- (Hhandler session
                        ((tr1 ++ [Print "You: " u]) ++
                         (ChatCompletion (Spec.request_for (Shipped.chatgpt a) u) :: logged) ++
                         [Print "Assistant: " reply])).
          rewrite !app_assoc. destruct self as [flag comps [x y z]]; reflexivity.
        - cbv zeta. unfold send. rewrite Hsend.
          cbn [state_of result_of trace_of fst snd].
          split; [exact Hvisible|]. split; [reflexivity|].
          split; [now exists logged|].
          exists reply. split; [reflexivity|]. rewrite Hreply.
          split; [now rewrite <- Hsentence|].
          rewrite Hprint. rewrite <- !app_assoc. reflexivity. }
    into_call. unfold Shipped.speak, zoom.
    cbn [Shipped.chatgpt Shipped.set_stt Shipped.set_chatgpt Shipped.set_tts
         Shipped.stt Shipped.tts].
    match goal with |- context [TextToSpeech.speak _ _ reply true _ ?t] =>
      destruct (Hsay reply t) as (b & tr' & E)
    end.
    rewrite E. unfold ret.
    exists session, tr'.
    split; [destruct self; reflexivity|].
    cbv zeta. unfold send. rewrite Hsend. cbn [state_of result_of trace_of fst snd].
    split; [exact Hvisible|]. split; [reflexivity|].
    split; [now exists logged|].
    exists reply. split; [reflexivity|]. rewrite Hreply.
    split; [now rewrite <- Hsentence|].
    rewrite Hprint. rewrite <- Hsentence. unfold say. rewrite E. reflexivity. }
  destruct Hout as (session & tr' & Hcycle & Hrest).
  subst out a'. rewrite Hcycle.
  cbn [result_of state_of trace_of fst snd VoiceAssistant.running
       VoiceAssistant.adapters VoiceAssistant.set_adapters Shipped.stt
       Shipped.chatgpt Shipped.tts].
  split; [reflexivity|]. split; [destruct self; reflexivity|].
  destruct self as [flag comps adapters0]; cbn [VoiceAssistant.adapters
    VoiceAssistant.set_adapters Shipped.stt Shipped.chatgpt Shipped.tts].
  split; [reflexivity|]. split; [reflexivity|].
  exact Hrest.
Qed.

End ShippedCycle.

(* ================================================================== *)
(** * The further properties on concrete runs *)
(* ================================================================== *)

Lemma answered_call_restores_history_bound_witness :
  let self := ChatGPTClient.set_history Fixtures.long_history Fixtures.chatgpt in
  Py.len (ChatGPTClient.conversation_history
            (Exec.state_of
               (ChatGPTClient.send_message Fixtures.answers "hello" self []))) <=
  Config.MAX_CONVERSATION_HISTORY.
Proof.
  intros self.
  assert (List.length (Spec.system_msgs
            (ChatGPTClient.conversation_history self)) <= 1)%nat as Hone
    by (vm_compute; lia).
  exact (proj1 (answered_call_restores_history_bound
                  Fixtures.answers "hello" self [] Hone eq_refl)
               " Hello! How can I help? " [] eq_refl).
Defined.


Lemma answered_call_ends_history_with_the_exchange_witness :
  Exec.result_of
    (ChatGPTClient.send_message Fixtures.answers "hello" Fixtures.chatgpt []) =
  Ok (Some "Hello! How can I help?").
Proof.
  assert (List.length (Spec.system_msgs
            (ChatGPTClient.conversation_history Fixtures.chatgpt)) <= 1)%nat as Hone
    by (vm_compute; lia).
  exact (proj1 (answered_call_ends_history_with_the_exchange
                  Fixtures.answers "hello" Fixtures.chatgpt []
                  " Hello! How can I help? " [] Hone eq_refl eq_refl)).
Defined.

Lemma transcribe_returns_stripped_text_or_none_witness :
  Exec.result_of
    (SpeechToText.transcribe Fixtures.heard [1 # 2] Fixtures.stt []) =
    Ok (Some "What time is it?") /\
  Spec.stripped "What time is it?".
Proof.
  assert (Exec.result_of
            (SpeechToText.transcribe Fixtures.heard [1 # 2] Fixtures.stt []) =
          Ok (Some "What time is it?")) as Hheard by reflexivity.
  split; [exact Hheard|].
  destruct (transcribe_returns_stripped_text_or_none
              Fixtures.heard [1 # 2] Fixtures.stt []) as (_ & _ & _ & Htext).
  destruct (Htext "What time is it?" Hheard) as (_ & Hstripped & _).
  exact Hstripped.
Defined.

Lemma recorded_utterance_is_normalised_and_not_empty_witness :
  Exec.result_of
    (SpeechToText.record_audio
       Fixtures.fine Fixtures.opens Fixtures.failing_microphone
       Fixtures.fine Fixtures.fine Fixtures.fine
       Config.AUDIO_SAMPLE_RATE Config.AUDIO_CHUNK_SIZE Config.SILENCE_THRESHOLD
       Config.SILENCE_DURATION Config.RECORDING_TIMEOUT Fixtures.stt []) =
    Ok (Some [16384 # 32768]) /\
  Forall (fun q => (-1 <= q)%Q /\ (q < 1)%Q) [16384 # 32768].
Proof.
  assert (Exec.result_of
            (SpeechToText.record_audio
               Fixtures.fine Fixtures.opens Fixtures.failing_microphone
               Fixtures.fine Fixtures.fine Fixtures.fine
               Config.AUDIO_SAMPLE_RATE Config.AUDIO_CHUNK_SIZE Config.SILENCE_THRESHOLD
               Config.SILENCE_DURATION Config.RECORDING_TIMEOUT Fixtures.stt []) =
          Ok (Some [16384 # 32768])) as Hrecorded by (vm_compute; reflexivity).
  split; [exact Hrecorded|].
  exact (proj2 (recorded_utterance_is_normalised_and_not_empty
                  Fixtures.fine Fixtures.opens Fixtures.failing_microphone
                  Fixtures.fine Fixtures.fine Fixtures.fine
                  Config.AUDIO_SAMPLE_RATE Config.AUDIO_CHUNK_SIZE
                  Config.SILENCE_THRESHOLD Config.SILENCE_DURATION
                  Config.RECORDING_TIMEOUT Fixtures.stt [] [16384 # 32768] Hrecorded)).
Defined.

Lemma only_a_recorded_utterance_is_transcribed_witness :
  Exec.result_of
    (SpeechToText.record_and_transcribe
       Fixtures.fine Fixtures.opens Fixtures.silent_microphone
       Fixtures.fine Fixtures.fine Fixtures.fine Fixtures.heard Fixtures.stt []) =
  Ok None.
Proof.
  destruct (only_a_recorded_utterance_is_transcribed
              Fixtures.fine Fixtures.opens Fixtures.silent_microphone
              Fixtures.fine Fixtures.fine Fixtures.fine Fixtures.heard Fixtures.stt [])
    as (r & added & Hresult & _ & _ & Hnone).
  destruct Hnone as [Hr _]; [vm_compute; reflexivity|].
  rewrite Hresult, Hr. reflexivity.
Defined.

Lemma capture_cleanup_is_idempotent_witness :
  SpeechToText.pyaudio_instance
    (Exec.state_of
       (SpeechToText.record_audio
          Fixtures.fine Fixtures.no_microphone Fixtures.never_read
          Fixtures.fine Fixtures.fine Fixtures.fine
          Config.AUDIO_SAMPLE_RATE Config.AUDIO_CHUNK_SIZE Config.SILENCE_THRESHOLD
          Config.SILENCE_DURATION Config.RECORDING_TIMEOUT Fixtures.stt [])) = true.
Proof.
  destruct (capture_cleanup_is_idempotent
              Fixtures.fine Fixtures.no_microphone Fixtures.never_read
              Fixtures.fine Fixtures.fine Fixtures.fine Fixtures.stt [])
    as (_ & _ & _ & _ & Hleft).
  apply Hleft. reflexivity.
Defined.

Lemma speak_reports_what_the_engine_did_witness :
  Exec.result_of
    (TextToSpeech.speak Fixtures.says Fixtures.fine "Hello" true Fixtures.tts []) =
  Ok true.
Proof.
  destruct (speak_reports_what_the_engine_did
              Fixtures.says Fixtures.fine "Hello" true Fixtures.tts [])
    as (_ & _ & Hiff & _).
  apply Hiff. repeat split; reflexivity.
Defined.

Lemma set_volume_hands_the_engine_a_clamped_volume_witness :
  exists applied,
    Exec.trace_of
      (TextToSpeech.set_volume Fixtures.sets (3 # 2) Fixtures.tts []) =
    [EngineSetVolume applied] /\ applied = 1%Q.
Proof.
  destruct (set_volume_hands_the_engine_a_clamped_volume
              Fixtures.sets (3 # 2) Fixtures.tts [] eq_refl)
    as (applied & Htrace & _ & _ & _ & Hloud).
  exists applied. split; [exact Htrace|]. apply Hloud. reflexivity.
Defined.

Lemma construction_selects_the_voice_by_python_indexing_witness :
  let self := TextToSpeech.mk "pyttsx3" 175 (-1) false in
  exists id,
    nth_error ["david"; "zira"] 1 = Some id /\
    TextToSpeech.__init__ Fixtures.fine Fixtures.sets Fixtures.two_voices
                          Fixtures.sets Fixtures.sets self [] =
    (Ok tt, TextToSpeech.set_engine true self,
     [] ++ Spec.construction_events self (Some id)).
Proof.
  intros self.
  destruct (construction_selects_the_voice_by_python_indexing
              Fixtures.fine Fixtures.sets Fixtures.two_voices
              Fixtures.sets Fixtures.sets ["david"; "zira"] self []
              (fun _ => eq_refl) (fun _ _ => eq_refl) (fun _ => eq_refl)
              (fun _ _ => eq_refl) (fun _ _ => eq_refl))
    as (_ & _ & Hnegative & _).
  apply Hnegative. vm_compute. split; [discriminate|reflexivity].
Defined.

Lemma wake_word_cleanup_attempts_every_release_witness :
  exists added,
    Exec.trace_of
      (WakeWordDetector.cleanup Fixtures.broken Fixtures.fine Fixtures.fine
                                Fixtures.fine Fixtures.listening []) = [] ++ added /\
    In PorcupineDelete added /\
    In PyAudioTerminate added /\
    ~ In StreamClose added.
Proof.
  destruct (wake_word_cleanup_attempts_every_release
              Fixtures.broken Fixtures.fine Fixtures.fine Fixtures.fine
              Fixtures.listening [])
    as (added & Htrace & _ & _ & Hhandle & Haudio & Hclose).
  exists added. split; [exact Htrace|].
  split; [apply Hhandle; discriminate|].
  split; [apply Haudio; reflexivity|].
  exact (Hclose (OtherException "RuntimeError") eq_refl eq_refl).
Defined.

Lemma listen_once_detects_exactly_a_reported_keyword_witness :
  Exec.result_of
    (WakeWordDetector.listen_once Fixtures.frame Fixtures.keyword
                                  Fixtures.listening []) = Ok true.
Proof.
  destruct (listen_once_detects_exactly_a_reported_keyword
              Fixtures.frame Fixtures.keyword
              (WakeWordDetector.mkPorcupine 16000 1) Fixtures.listening []
              eq_refl eq_refl eq_refl)
    as (_ & _ & Hiff & _).
  apply Hiff. exists Fixtures.loud_chunk, [16384], 0.
  repeat split; first [reflexivity|discriminate].
Defined.

Lemma start_listens_or_releases_everything_witness :
  Exec.result_of
    (WakeWordDetector.start Fixtures.porcupine Fixtures.fine Fixtures.opens
       Fixtures.fine Fixtures.fine Fixtures.fine Fixtures.fine
       (WakeWordDetector.__init__ "pv-key" "hey.ppn" (1 # 2)) []) = Ok true.
Proof.
  destruct (start_listens_or_releases_everything
              Fixtures.porcupine Fixtures.fine Fixtures.opens Fixtures.frame
              Fixtures.keyword Fixtures.fine Fixtures.fine Fixtures.fine
              Fixtures.fine (WakeWordDetector.__init__ "pv-key" "hey.ppn" (1 # 2)) [])
    as (_ & Hiff & _).
  apply Hiff. exists (WakeWordDetector.mkPorcupine 16000 1).
  repeat split; reflexivity.
Defined.

Lemma initialize_builds_every_adapter_or_none_usable_witness :
  Exec.result_of
    (Assistant.initialize "sk-key" "pv-key" "hey.ppn"
       Fixtures.fine Fixtures.fine Fixtures.fine Fixtures.fine Fixtures.loads
       Fixtures.says Fixtures.fine Fixtures.sets Fixtures.two_voices
       Fixtures.sets Fixtures.sets Fixtures.fine Assistant.__init__ []) = Ok true.
Proof.
  destruct (initialize_builds_every_adapter_or_none_usable
              "sk-key" "pv-key" "hey.ppn"
              Fixtures.porcupine Fixtures.keyword Fixtures.fine Fixtures.fine
              Fixtures.opens Fixtures.frame Fixtures.fine Fixtures.fine
              Fixtures.fine Fixtures.loads Fixtures.heard Fixtures.says
              Fixtures.answers Fixtures.fine Fixtures.sets Fixtures.two_voices
              Fixtures.sets Fixtures.sets Fixtures.says Fixtures.fine
              Fixtures.fine Fixtures.ctrl_c Fixtures.prints [])
    as (_ & Hiff & _).
  apply Hiff. repeat split; vm_compute; reflexivity.
Defined.



Lemma cycle_speaks_the_reply_the_fallback_or_a_prompt_witness :
  Exec.result_of
    (Shipped.handle_conversation
       Fixtures.fine Fixtures.opens Fixtures.failing_microphone
       Fixtures.fine Fixtures.fine Fixtures.fine Fixtures.heard
       Fixtures.rate_limited Fixtures.says Fixtures.fine Fixtures.prints
       Fixtures.shipped []) = Ok tt /\
  Spec.whitespace_only "What time is it?" = false.
Proof.
  destruct (cycle_speaks_the_reply_the_fallback_or_a_prompt
              Fixtures.fine Fixtures.opens Fixtures.failing_microphone
              Fixtures.fine Fixtures.fine Fixtures.fine Fixtures.heard
              Fixtures.rate_limited Fixtures.says Fixtures.fine Fixtures.prints
              Fixtures.shipped []
              [PyAudioNew; StreamOpen 16000 1024; StreamRead 1024; StreamRead 1024;
               Log ERROR "Error reading audio chunk: ";
               StreamStop; StreamClose; PyAudioTerminate;
               WhisperTranscribe [16384 # 32768]]
              (Some "What time is it?")
              (SpeechToText.set_pyaudio_instance true Fixtures.stt))
    as (Hresult & _ & _ & _ & Hvisible & _).
  - vm_compute. reflexivity.
  - split; [exact Hresult|exact Hvisible].
Defined.
